(** * SkillVault: a shallow embedding of [skillvault.py]

    The development follows the layers of the program:

    - the Python values, exceptions and built-ins the program uses
      ([int], [round], float division and multiplication, truthiness);
      what depends on the interpreter and not on the program (the text
      of a float, [int] of a line that is not ASCII) is a parameter;
    - the SQLite store behind [sqlite3]: 64-bit integers, the two tables
      keyed by rowid, AUTOINCREMENT, parameter binding, and the
      evaluation of the aggregate query (LEFT JOIN through the index
      SQLite builds for it, GROUP BY, SUM, IFNULL, real division);
    - the classes [Skill], [PracticeSession], [SkillDatabase] and
      [SkillTracker], as computations in a state-and-exception monad
      over a world made of the connection, the console and the clock.

    Floats are IEEE 754 binary64, computed with the Standard Library's
    [SpecFloat]. *)

From Stdlib Require Import ZArith Ascii String SpecFloat.
From stdpp Require Import gmap strings list sorting pretty.

Local Open Scope Z_scope.

(** ** Python values and exceptions *)

Inductive pyval :=
| PyNone
| PyInt (z : Z)
| PyFloat (f : spec_float)
| PyStr (s : string).

(** A Python [dict] with string keys. *)
Abbreviation dict := (gmap string pyval).

(** The exception classes that can arise in the program. [sqlite3_Error]
    stands for [sqlite3.Error] and all its subclasses, the only storage
    exceptions the program's handlers name. *)
Inductive exn :=
| sqlite3_Error (msg : string)
| OverflowError (msg : string)
| AttributeError (msg : string)
| ZeroDivisionError (msg : string)
| ValueError (msg : string)
| KeyError (key : string)
| EOFError.

(** ** Results of fallible pure steps *)

Inductive result (A : Type) : Type :=
| Ok (a : A)
| Raise (e : exn).
Arguments Ok {A} a.
Arguments Raise {A} e.

Global Instance result_ret : MRet result := @Ok.
Global Instance result_bind : MBind result := λ A B k r,
  match r with
  | Ok a => k a
  | Raise e => Raise e
  end.

Fixpoint result_map {A B} (f : A → result B) (l : list A) : result (list B) :=
  match l with
  | [] => Ok []
  | a :: l' =>
      b ← f a;
      bs ← result_map f l';
      Ok (b :: bs)
  end.

(** ** binary64 arithmetic *)

Definition prec : Z := 53.
Definition emax : Z := 1024.

(** The double nearest to the integer [z] (ties to even): the C cast
    [(double)i64] that SQLite applies to an INTEGER operand of a REAL
    division, and Python's conversion of an [int] operand of a float
    operation. *)
Definition float_of_int (z : Z) : spec_float :=
  binary_normalize prec emax z 0 false.

Definition float_div (x y : spec_float) : spec_float := SFdiv prec emax x y.
Definition float_mul (x y : spec_float) : spec_float := SFmul prec emax x y.

Definition float_is_zero (x : spec_float) : bool :=
  match x with S754_zero _ => true | _ => false end.

Definition float_is_finite (x : spec_float) : bool :=
  match x with S754_zero _ | S754_finite _ _ _ => true | _ => false end.

(** The exact value of a finite double, as a fraction [(n, d)] with
    [d] a power of two. *)
Definition float_exact (x : spec_float) : option (Z * Z) :=
  match x with
  | S754_zero _ => Some (0, 1)
  | S754_finite s m e =>
      let n := if s then Z.neg m else Z.pos m in
      if 0 <=? e then Some (n * 2 ^ e, 1) else Some (n, 2 ^ (- e))
  | _ => None
  end.

(** [x] is exactly the rational [n / d]. *)
Definition float_equals_ratio (x : spec_float) (n d : Z) : Prop :=
  match float_exact x with
  | Some (a, b) => a * d = n * b ∧ 0 < d
  | None => False
  end.

(** Integer division rounding to nearest, ties to the even quotient. *)
Definition div_half_even (n d : Z) : Z :=
  let q := n / d in
  let r := n mod d in
  match 2 * r ?= d with
  | Lt => q
  | Gt => q + 1
  | Eq => if Z.even q then q else q + 1
  end.

(** The double nearest to [n / d], for [0 <= n] and [0 < d]. *)
Definition float_of_ratio (s : bool) (n d : Z) : spec_float :=
  match n, d with
  | Z.pos n', Z.pos d' =>
      SFdiv prec emax (S754_finite s n' 0) (S754_finite false d' 0)
  | _, _ => S754_zero s
  end.

(** Python's [round(x, ndigits)] on a float, for [0 <= ndigits]: the
    value is rounded to the closest multiple of [10 ^ (- ndigits)], ties
    going to the even multiple, the decision being taken on the exact
    binary value of [x]; the result is the double nearest to that
    decimal. Infinities and NaN round to themselves. *)
Definition py_round (x : spec_float) (ndigits : Z) : spec_float :=
  match x with
  | S754_finite s m e =>
      let scale := 10 ^ ndigits in
      let k :=
        if 0 <=? e then Z.pos m * 2 ^ e * scale
        else div_half_even (Z.pos m * scale) (2 ^ (- e)) in
      float_of_ratio s k scale
  | _ => x
  end.

(** Python's [x / z] for a float [x] and an int [z]: [z] is converted to
    a double first ([OverflowError] beyond the double range), and a zero
    divisor raises [ZeroDivisionError]. *)
Definition py_float_of_int (z : Z) : result spec_float :=
  let f := float_of_int z in
  if float_is_finite f then Ok f
  else Raise (OverflowError "int too large to convert to float").

Definition py_truediv (x : spec_float) (z : Z) : result spec_float :=
  b ← py_float_of_int z;
  if float_is_zero b then Raise (ZeroDivisionError "float division by zero")
  else Ok (float_div x b).

Definition py_mul (x : spec_float) (z : Z) : result spec_float :=
  b ← py_float_of_int z;
  Ok (float_mul x b).

(** Truthiness of an int: [if r[2]]. *)
Definition py_truthy_int (z : Z) : bool := negb (z =? 0).

(** Truthiness of a str: the left operand of [or]. *)
Definition py_truthy_str (s : string) : bool :=
  match s with EmptyString => false | _ => true end.

(** ** Python's [int(str)] in base 10 *)

(** A [str] is held as the bytes of its UTF-8 encoding: a string is
    ASCII when every byte is below 128. *)
Definition is_ascii (s : string) : bool :=
  forallb (λ a, (N_of_ascii a <? 128)%N) (list_ascii_of_string s).

(** The characters [int] skips at both ends of an ASCII string: tab,
    line feed, vertical tab, form feed, carriage return and space. *)
Definition is_py_space (a : ascii) : bool :=
  let n := N_of_ascii a in
  ((9 <=? n) && (n <=? 13) || (n =? 32))%N.

Definition digit_value (a : ascii) : option Z :=
  let n := N_of_ascii a in
  if ((48 <=? n) && (n <=? 57))%N then Some (Z.of_N n - 48) else None.

Definition is_underscore (a : ascii) : bool := (N_of_ascii a =? 95)%N.

(** Digits with single underscores between them; [prev] tells whether
    the previous character was a digit, [count] counts the digits. *)
Fixpoint int_digits (l : list ascii) (acc : Z) (prev : bool) (count : nat)
  : option (Z * nat) :=
  match l with
  | [] => if prev then Some (acc, count) else None
  | c :: l' =>
      match digit_value c with
      | Some v => int_digits l' (10 * acc + v) true (S count)
      | None =>
          if is_underscore c && prev then int_digits l' acc false count
          else None
      end
  end.

Fixpoint lstrip (l : list ascii) : list ascii :=
  match l with
  | c :: l' => if is_py_space c then lstrip l' else l
  | [] => []
  end.

Definition strip (l : list ascii) : list ascii :=
  reverse (lstrip (reverse (lstrip l))).

(** The limit on the number of digits of a decimal string
    ([sys.int_info.default_max_str_digits]). *)
Definition max_str_digits : nat := 4300.

(** [int] of an ASCII string: whitespace, an optional sign, digits,
    whitespace; [None] stands for [ValueError]. *)
Definition py_int_ascii (s : string) : option Z :=
  let body := strip (list_ascii_of_string s) in
  let '(neg, ds) :=
    match body with
    | "-"%char :: ds => (true, ds)
    | "+"%char :: ds => (false, ds)
    | _ => (false, body)
    end in
  match int_digits ds 0 false 0%nat with
  | Some (z, n) =>
      if (n <=? max_str_digits)%nat then Some (if neg then - z else z)
      else None
  | None => None
  end.

Section int.

(** [int] of a string with a character outside ASCII: [int] first
    rewrites such a string with the Unicode tables of the interpreter
    (the decimal digits and the whitespace of every script become ASCII
    ones), which are not part of the program; the result, [None] for
    [ValueError], is taken from the environment. *)
Variable int_non_ascii : string → option Z.

(** [py_int s] is [Some z] when [int(s)] returns [z], and [None] when it
    raises [ValueError]. *)
Definition py_int (s : string) : option Z :=
  if is_ascii s then py_int_ascii s else int_non_ascii s.

End int.

(** ** The SQLite store *)

Definition INT64_MIN : Z := - 2 ^ 63.
Definition INT64_MAX : Z := 2 ^ 63 - 1.

Definition in_int64 (z : Z) : bool := (INT64_MIN <=? z) && (z <=? INT64_MAX).

(** Rows of the two tables, without the rowid, which is the key of the
    table:
<<
  skills(id INTEGER PRIMARY KEY AUTOINCREMENT, name TEXT NOT NULL,
         category TEXT NOT NULL, target_hours INTEGER NOT NULL)
  sessions(id INTEGER PRIMARY KEY AUTOINCREMENT, skill_id INTEGER,
           duration_minutes INTEGER, notes TEXT, date TEXT, ...)
>> *)
Module skills.
Record row := Row {
  name : string;
  category : string;
  target_hours : Z }.
End skills.

Module sessions.
Record row := Row {
  skill_id : Z;
  duration_minutes : Z;
  notes : string;
  date : string }.
End sessions.

(** A database: each table maps rowids to rows; [skills_seq] and
    [sessions_seq] are the entries of [sqlite_sequence], the largest
    rowid ever handed out for the table (0 before the first insert). *)
Record database := Database {
  skills_table : gmap Z skills.row;
  skills_seq : Z;
  sessions_table : gmap Z sessions.row;
  sessions_seq : Z }.

Definition empty_database : database := Database ∅ 0 ∅ 0.

(** What SQLite can hold: rowids, sequence entries and INTEGER cells are
    signed 64-bit integers. *)
Definition valid_database (db : database) : Prop :=
  map_Forall (λ k r, in_int64 k ∧ in_int64 (skills.target_hours r))
    (skills_table db)
  ∧ map_Forall
      (λ k r, in_int64 k ∧ in_int64 (sessions.skill_id r)
              ∧ in_int64 (sessions.duration_minutes r))
      (sessions_table db)
  ∧ in_int64 (skills_seq db) ∧ in_int64 (sessions_seq db).

(** A table scan visits the rows by ascending rowid. *)
Definition rowid_le {R} (a b : Z * R) : Prop := a.1 ≤ b.1.

Global Instance rowid_le_dec {R} (a b : Z * R) : Decision (rowid_le a b).
Proof. unfold rowid_le. apply _. Defined.

Definition scan {R} (t : gmap Z R) : list (Z * R) :=
  merge_sort rowid_le (map_to_list t).

(** The largest rowid of a table, [None] when the table is empty. *)
Definition last_rowid {R} (t : gmap Z R) : option Z :=
  foldr (λ k o, Some (from_option (Z.max k) k o)) None (map_to_list t).*1.

Definition SQLITE_FULL : exn := sqlite3_Error "database or disk is full".

(** The rowid of a new row of an AUTOINCREMENT table: one more than the
    largest rowid of the table (1 for an empty table), and more than
    the sequence entry; the insert fails once the largest rowid has been
    used. *)
Definition new_rowid {R} (t : gmap Z R) (seq : Z) : result Z :=
  let next :=
    match last_rowid t with
    | None => Some 1
    | Some k => if INT64_MAX <=? k then None else Some (k + 1)
    end in
  match next with
  | None => Raise SQLITE_FULL
  | Some v =>
      if seq =? INT64_MAX then Raise SQLITE_FULL
      else Ok (Z.max v (seq + 1))
  end.

(** Binding a Python int to a statement parameter. *)
Definition bind_int (z : Z) : result Z :=
  if in_int64 z then Ok z
  else Raise (OverflowError "Python int too large to convert to SQLite INTEGER").

(** [INSERT INTO skills (name, category, target_hours) VALUES (?, ?, ?)] *)
Definition insert_skill (name category : string) (target_hours : Z)
    (db : database) : result database :=
  t ← bind_int target_hours;
  v ← new_rowid (skills_table db) (skills_seq db);
  Ok (Database (<[v := skills.Row name category t]> (skills_table db)) v
         (sessions_table db) (sessions_seq db)).

(** [INSERT INTO sessions (skill_id, duration_minutes, notes, date)
     VALUES (?, ?, ?, ?)] *)
Definition insert_session (skill_id duration_minutes : Z) (notes date : string)
    (db : database) : result database :=
  s ← bind_int skill_id;
  d ← bind_int duration_minutes;
  v ← new_rowid (sessions_table db) (sessions_seq db);
  Ok (Database (skills_table db) (skills_seq db)
         (<[v := sessions.Row s d notes date]> (sessions_table db)) v).

(** [DELETE FROM sessions WHERE skill_id=?] *)
Definition delete_sessions (skill_id : Z) (db : database) : result database :=
  k ← bind_int skill_id;
  Ok (Database (skills_table db) (skills_seq db)
         (filter (λ kr, sessions.skill_id kr.2 ≠ k) (sessions_table db))
         (sessions_seq db)).

(** [DELETE FROM skills WHERE id=?] *)
Definition delete_skill_row (skill_id : Z) (db : database) : result database :=
  k ← bind_int skill_id;
  Ok (Database (delete k (skills_table db)) (skills_seq db)
         (sessions_table db) (sessions_seq db)).

(** *** The aggregate query

<<
  SELECT s.id, s.name, s.target_hours,
         IFNULL(SUM(sess.duration_minutes), 0)/60.0 AS total_hours
  FROM skills s
  LEFT JOIN sessions sess ON s.id = sess.skill_id
  GROUP BY s.id
>> *)

(** [sessions] has no index on [skill_id] for the join to use, and
    SQLite builds one for the query: an automatic covering index that
    holds, for every session, the [skill_id], the [duration_minutes]
    and the rowid, in ascending order. The join reads the sessions of
    a skill from this index, so it meets them by ascending duration
    (and by rowid for equal durations), not in rowid order. *)
Definition index_entry (x : Z * sessions.row) : Z * (Z * Z) :=
  (sessions.skill_id x.2, (sessions.duration_minutes x.2, x.1)).

Definition entry_le (a b : Z * (Z * Z)) : Prop :=
  a.1 < b.1
  ∨ (a.1 = b.1
     ∧ (a.2.1 < b.2.1 ∨ (a.2.1 = b.2.1 ∧ a.2.2 ≤ b.2.2))).

Definition index_le (a b : Z * sessions.row) : Prop :=
  entry_le (index_entry a) (index_entry b).

Global Instance index_le_dec (a b : Z * sessions.row) : Decision (index_le a b).
Proof. unfold index_le, entry_le. apply _. Defined.

Definition automatic_index (t : gmap Z sessions.row) : list (Z * sessions.row) :=
  merge_sort index_le (map_to_list t).

(** A row of the join: a skill row and the matching session row, or no
    session row (all its columns NULL) for a skill without a match. *)
Definition joined : Type := (Z * skills.row) * option (Z * sessions.row).

Definition left_join (ss : list (Z * skills.row))
    (xs : list (Z * sessions.row)) : list joined :=
  s ← ss;
  match filter (λ x, s.1 = sessions.skill_id x.2) xs with
  | [] => [(s, None)]
  | ms => (λ x, (s, Some x)) <$> ms
  end.

(** GROUP BY: a group is its first row and the rows that joined it
    later; groups are kept in the order of their first row. *)
Fixpoint group_insert {K R} `{EqDecision K} (k : K) (r : R)
    (gs : list (K * (R * list R))) : list (K * (R * list R)) :=
  match gs with
  | [] => [(k, (r, []))]
  | (k', (r0, rs)) :: gs' =>
      if decide (k = k') then (k', (r0, rs ++ [r])) :: gs'
      else (k', (r0, rs)) :: group_insert k r gs'
  end.

Definition group_by {K R} `{EqDecision K} (key : R → K) (rows : list R)
  : list (K * (R * list R)) :=
  foldl (λ gs r, group_insert (key r) r gs) [] rows.

(** SUM over a column: NULLs are skipped, the sum of no value is NULL,
    and an integer overflow at any point of the running sum raises. *)
Fixpoint sum_from (acc : option Z) (vs : list (option Z)) : result (option Z) :=
  match vs with
  | [] => Ok acc
  | None :: vs' => sum_from acc vs'
  | Some v :: vs' =>
      let s := default 0 acc + v in
      if in_int64 s then sum_from (Some s) vs'
      else Raise (sqlite3_Error "integer overflow")
  end.

Definition SUM (vs : list (option Z)) : result (option Z) := sum_from None vs.

Definition IFNULL (v : option Z) (d : Z) : Z := default d v.

(** A row of the result: [r[0]], [r[1]], [r[2]], [r[3]]. *)
Record progress_row := ProgressRow {
  r0 : Z;
  r1 : string;
  r2 : Z;
  r3 : spec_float }.

Definition sess_duration_minutes (j : joined) : option Z :=
  sessions.duration_minutes ∘ snd <$> j.2.

Definition select_group (g : Z * (joined * list joined)) : result progress_row :=
  let '(_, (j, js)) := g in
  total ← SUM (sess_duration_minutes <$> j :: js);
  Ok (ProgressRow j.1.1 (skills.name j.1.2) (skills.target_hours j.1.2)
         (float_div (float_of_int (IFNULL total 0)) (float_of_int 60))).

Definition select_progress (db : database) : result (list progress_row) :=
  result_map select_group
    (group_by (λ j : joined, j.1.1)
       (left_join (scan (skills_table db))
          (automatic_index (sessions_table db)))).

(** ** The world: connection, console and clock *)

(** The calendar date part of a [datetime]. *)
Record datetime := DateTime {
  year : Z;
  month : Z;
  day : Z }.

(** The range of [datetime] values. *)
Definition valid_datetime (t : datetime) : Prop :=
  1 ≤ year t ≤ 9999 ∧ 1 ≤ month t ≤ 12 ∧ 1 ≤ day t ≤ 31.

(** [conn] is the attribute [self.conn] of the one [SkillDatabase]
    object, [None] while the attribute is not set; the database it
    holds is the store as this connection sees it. [stdin] holds the
    lines still to be typed, each with the clock reading at which it is
    entered; [stdout] is what has been written so far; [clock] is the
    current reading of the local clock. *)
Record world := World {
  conn : option database;
  stdin : list (datetime * string);
  stdout : list string;
  clock : datetime }.

Inductive outcome (A : Type) : Type :=
| Returns (a : A) (w : world)
| Raises (e : exn) (w : world).
Arguments Returns {A} a w.
Arguments Raises {A} e w.

Definition M (A : Type) : Type := world → outcome A.

Global Instance M_ret : MRet M := λ A a w, Returns a w.
Global Instance M_bind : MBind M := λ A B k m w,
  match m w with
  | Returns a w' => k a w'
  | Raises e w' => Raises e w'
  end.

Definition raise {A} (e : exn) : M A := λ w, Raises e w.

Definition lift {A} (r : result A) : M A := λ w,
  match r with
  | Ok a => Returns a w
  | Raise e => Raises e w
  end.

(** [try: body except ...: handler]: the clause decides which
    exceptions it handles. *)
Definition try_except {A} (body : M A) (clause : exn → option (M A)) : M A :=
  λ w,
    match body w with
    | Returns a w' => Returns a w'
    | Raises e w' =>
        match clause e with
        | Some handler => handler w'
        | None => Raises e w'
        end
    end.

(** [except sqlite3.Error as e: handler e] *)
Definition except_sqlite3_Error {A} (handler : string → M A) (e : exn)
  : option (M A) :=
  match e with
  | sqlite3_Error msg => Some (handler msg)
  | _ => None
  end.

(** [except ValueError: handler] *)
Definition except_ValueError {A} (handler : M A) (e : exn) : option (M A) :=
  match e with
  | ValueError _ => Some handler
  | _ => None
  end.

(** Assignment to [self.conn], and the writes of this connection. *)
Definition set_conn (db : database) : M unit := λ w,
  Returns tt (World (Some db) (stdin w) (stdout w) (clock w)).

Definition print (s : string) : M unit := λ w,
  Returns tt (World (conn w) (stdin w) (stdout w ++ [s]) (clock w)).

(** [input(prompt)] writes the prompt and blocks until a line is
    entered; end of input raises [EOFError]. *)
Definition input (prompt : string) : M string := λ w,
  match stdin w with
  | [] => Raises EOFError (World (conn w) [] (stdout w ++ [prompt]) (clock w))
  | (t, line) :: rest =>
      Returns line (World (conn w) rest (stdout w ++ [prompt]) t)
  end.

Definition int (int_non_ascii : string → option Z) (s : string) : M Z :=
  match py_int int_non_ascii s with
  | Some z => mret z
  | None => raise (ValueError "invalid literal for int() with base 10")
  end.

Definition datetime_now : M datetime := λ w, Returns (clock w) w.

Definition zero_pad (width : nat) (s : string) : string :=
  string_of_list_ascii (replicate (width - String.length s) "0"%char) +:+ s.

(** [strftime('%Y-%m-%d')]: the year in decimal, which has 4 digits
    from the year 1000 on and fewer before (the C library does not pad
    it), the month and the day on 2 digits. *)
Definition strftime_Y_m_d (t : datetime) : string :=
  pretty (year t) +:+ "-" +:+
  zero_pad 2 (pretty (month t)) +:+ "-" +:+
  zero_pad 2 (pretty (day t)).

(** ** The domain records *)

Module Skill.
Record t := new {
  id : option Z;
  name : string;
  category : string;
  target_hours : Z }.
End Skill.

Module PracticeSession.
Record t := new {
  id : option Z;
  skill_id : Z;
  duration_minutes : Z;
  notes : string;
  date : string }.
End PracticeSession.

(** ** [SkillDatabase] *)

Module SkillDatabase.

(** [self.conn.cursor()]: reading the attribute fails when the
    constructor did not set it. *)
Definition conn_cursor : M database := λ w,
  match conn w with
  | Some db => Returns db w
  | None =>
      Raises (AttributeError "'SkillDatabase' object has no attribute 'conn'") w
  end.

(** [cursor.execute(statement, parameters)] for a statement that
    writes. *)
Definition execute (statement : database → result database) : M unit :=
  db ← conn_cursor;
  db' ← lift (statement db);
  set_conn db'.

(** [cursor.execute(query)] followed by [cursor.fetchall()]. *)
Definition execute_fetchall {A} (query : database → result (list A))
  : M (list A) :=
  db ← conn_cursor;
  lift (query db).

(** [self.conn.commit()]: the connection already sees its own
    writes. *)
Definition commit : M unit := conn_cursor;; mret tt.

(** [CREATE TABLE IF NOT EXISTS] leaves existing tables and their rows
    alone; a [database] has both tables, and a new file is
    [empty_database]. [create] is what the two statements do in the
    environment: they succeed, or one of them raises. *)
Definition create_tables (create : result unit) : M unit :=
  conn_cursor;;
  lift create;;
  commit.

(** [__init__]: [connect] is what [sqlite3.connect(db_name)] does in
    the environment, an error or the database of the file. The
    attribute [conn] is set before the tables are created, and stays
    set when their creation fails. *)
Definition init (connect : result database) (create : result unit) : M unit :=
  try_except
    (db ← lift connect;
     set_conn db;;
     create_tables create)
    (except_sqlite3_Error
       (λ e, print ("Database connection error: " +:+ e))).

Definition add_skill (skill : Skill.t) : M unit :=
  try_except
    (execute (insert_skill (Skill.name skill) (Skill.category skill)
                (Skill.target_hours skill));;
     commit)
    (except_sqlite3_Error (λ e, print ("Failed to add skill: " +:+ e))).

Definition log_session (session : PracticeSession.t) : M unit :=
  try_except
    (execute (insert_session (PracticeSession.skill_id session)
                (PracticeSession.duration_minutes session)
                (PracticeSession.notes session)
                (PracticeSession.date session));;
     commit)
    (except_sqlite3_Error (λ e, print ("Failed to log session: " +:+ e))).

(** The function mapped over the rows by [get_progress]. *)
Definition progress_dict (r : progress_row) : result dict :=
  progress ←
    (if py_truthy_int (r2 r) then
       q ← py_truediv (r3 r) (r2 r);
       p ← py_mul q 100;
       Ok (PyFloat (py_round p 2))
     else Ok (PyInt 0));
  Ok (<["Skill" := PyStr (r1 r)]>
      (<["Target Hours" := PyInt (r2 r)]>
       (<["Total Practiced" := PyFloat (py_round (r3 r) 2)]>
        (<["Progress %" := progress]> ∅)))).

Definition get_progress : M (list dict) :=
  rows ← execute_fetchall select_progress;
  lift (result_map progress_dict rows).

Definition delete_skill (skill_id : Z) : M unit :=
  try_except
    (execute (delete_sessions skill_id);;
     execute (delete_skill_row skill_id);;
     commit)
    (except_sqlite3_Error (λ e, print ("Failed to delete skill: " +:+ e))).

End SkillDatabase.

(** ** [SkillTracker] *)

Module SkillTracker.
Section run.

(** [str] of a float, as the f-string of option 3 prints it. *)
Variable float_str : spec_float → string.

(** [int] of a line that is not ASCII, as the interpreter reads it. *)
Variable int_non_ascii : string → option Z.

Definition str (v : pyval) : string :=
  match v with
  | PyNone => "None"
  | PyInt z => pretty z
  | PyFloat f => float_str f
  | PyStr s => s
  end.

(** [p[key]] *)
Definition getitem (p : dict) (key : string) : M pyval :=
  match p !! key with
  | Some v => mret v
  | None => raise (KeyError key)
  end.

Definition print_menu : M unit :=
  print "
SkillVault Menu:";;
  print "1. Add a New Skill";;
  print "2. Log Practice Session";;
  print "3. View Progress";;
  print "4. Delete Skill";;
  print "5. Exit".

Definition option_1 : M unit :=
  try_except
    (name ← input "Skill Name: ";
     category ← input "Category (Tech, Creative, etc.): ";
     target_hours ← input "Target Hours: " ≫= int int_non_ascii;
     SkillDatabase.add_skill (Skill.new None name category target_hours))
    (except_ValueError (print "Invalid input for target hours.")).

Definition option_2 : M unit :=
  try_except
    (skill_id ← input "Skill ID: " ≫= int int_non_ascii;
     duration ← input "Duration (in minutes): " ≫= int int_non_ascii;
     notes ← input "Notes: ";
     line ← input "Date (YYYY-MM-DD): ";
     date ← (if py_truthy_str line then mret line
             else now ← datetime_now; mret (strftime_Y_m_d now));
     SkillDatabase.log_session
       (PracticeSession.new None skill_id duration notes date))
    (except_ValueError
       (print "Invalid input. Please enter numbers where required.")).

Fixpoint print_progress (progress : list dict) : M unit :=
  match progress with
  | [] => mret tt
  | p :: rest =>
      skill ← getitem p "Skill";
      target ← getitem p "Target Hours";
      practiced ← getitem p "Total Practiced";
      percent ← getitem p "Progress %";
      print ("Skill: " +:+ str skill +:+ ", Target: " +:+ str target
             +:+ " hrs, Practiced: " +:+ str practiced
             +:+ " hrs, Progress: " +:+ str percent +:+ "%");;
      print_progress rest
  end.

Definition option_3 : M unit :=
  SkillDatabase.get_progress ≫= print_progress.

Definition option_4 : M unit :=
  try_except
    (skill_id ← input "Enter Skill ID to delete: " ≫= int int_non_ascii;
     SkillDatabase.delete_skill skill_id)
    (except_ValueError (print "Invalid skill ID.")).

(** One turn of the [while True] loop; [false] is [break]. *)
Definition turn : M bool :=
  print_menu;;
  choice ← input "Choose an option: ";
  if decide (choice = "1") then option_1;; mret true
  else if decide (choice = "2") then option_2;; mret true
  else if decide (choice = "3") then option_3;; mret true
  else if decide (choice = "4") then option_4;; mret true
  else if decide (choice = "5") then mret false
  else print "Invalid choice.";; mret true.

(** The loop, unrolled at most [fuel] times; [None] when the fuel
    runs out before the loop ends. *)
Fixpoint loop (fuel : nat) (w : world) : option (outcome unit) :=
  match fuel with
  | O => None
  | S fuel' =>
      match turn w with
      | Returns true w' => loop fuel' w'
      | Returns false w' => Some (Returns tt w')
      | Raises e w' => Some (Raises e w')
      end
  end.

(** Every turn reads a line, so one more turn than there are lines is
    enough. *)
Definition run (w : world) : option (outcome unit) :=
  loop (S (length (stdin w))) w.

End run.
End SkillTracker.

(** ** Definitions used to state the properties *)

Definition sum_Z (l : list Z) : Z := foldr Z.add 0 l.

(** The sessions whose [skill_id] is [k]. *)
Definition sessions_of (db : database) (k : Z) : gmap Z sessions.row :=
  filter (λ kr, sessions.skill_id kr.2 = k) (sessions_table db).

(** The sum of [duration_minutes] over all sessions with skill id [k]. *)
Definition practiced_minutes (db : database) (k : Z) : Z :=
  sum_Z (sessions.duration_minutes ∘ snd <$> map_to_list (sessions_of db k)).

(** The same durations in the order in which the query meets them. *)
Definition durations_in_order (db : database) (k : Z) : list Z :=
  sessions.duration_minutes ∘ snd <$>
    filter (λ x, k = sessions.skill_id x.2)
      (automatic_index (sessions_table db)).

(** No running sum of [l] leaves the 64-bit range. *)
Definition running_sums_fit (l : list Z) : Prop :=
  Forall (λ n, in_int64 (sum_Z (take n l))) (seq 0 (S (length l))).

(** The running sums of every skill of the database fit. *)
Definition sums_fit (db : database) : Prop :=
  map_Forall (λ k _, running_sums_fit (durations_in_order db k))
    (skills_table db).

(** Practiced hours of skill [k]: the sum of minutes divided by 60. *)
Definition practiced_hours (db : database) (k : Z) : spec_float :=
  float_div (float_of_int (practiced_minutes db k)) (float_of_int 60).

(** The rows that skill row [s] contributes to the join: the first and
    the others. *)
Definition join_block (xs : list (Z * sessions.row)) (s : Z * skills.row)
  : joined * list joined :=
  match filter (λ x, s.1 = sessions.skill_id x.2) xs with
  | [] => ((s, None), [])
  | m :: ms => ((s, Some m), (λ x, (s, Some x)) <$> ms)
  end.

(** The result row of skill row [s] when its sum fits. *)
Definition progress_row_of (db : database) (s : Z * skills.row) : progress_row :=
  ProgressRow s.1 (skills.name s.2) (skills.target_hours s.2)
    (practiced_hours db s.1).

(** ['Progress %'] for practiced hours [hours] and target [target]:
    hours divided by target, times 100, rounded to 2 decimal places,
    and the int 0 for a zero target. *)
Definition progress_percent (hours : spec_float) (target : Z) : pyval :=
  if decide (target = 0) then PyInt 0
  else PyFloat (py_round (float_mul (float_div hours (float_of_int target))
                            (float_of_int 100)) 2).

(** The record reported for a result row. *)
Definition progress_record (r : progress_row) : dict :=
  <["Skill" := PyStr (r1 r)]>
  (<["Target Hours" := PyInt (r2 r)]>
   (<["Total Practiced" := PyFloat (py_round (r3 r) 2)]>
    (<["Progress %" := progress_percent (r3 r) (r2 r)]> ∅))).

(** A computation never puts a line back on [stdin]. *)
Definition consumes {A} (m : M A) : Prop :=
  ∀ w,
    match m w with
    | Returns _ w' | Raises _ w' => (length (stdin w') ≤ length (stdin w))%nat
    end.

(** ** Concrete worlds used in examples *)

Definition noon : datetime := DateTime 2024 3 9.

(** A world whose connection holds [db], with nothing typed or printed
    yet. *)
Definition connected (db : database) : world := World (Some db) [] [] noon.

(** One skill whose two sessions last [2 ^ 63 - 1] minutes and 1
    minute. *)
Definition overflow_database : database :=
  Database {[ 1 := skills.Row "Piano" "Creative" 10 ]} 1
    (<[ 1 := sessions.Row 1 9223372036854775807 "" "2024-03-09" ]>
       {[ 2 := sessions.Row 1 1 "" "2024-03-09" ]}) 2.

(** Two skills, one with a zero target, and three sessions, one of
    them for a skill id that is not in the table. *)
Definition sample_database : database :=
  Database
    (<[ 1 := skills.Row "Piano" "Creative" 10 ]>
       {[ 2 := skills.Row "Go" "Tech" 0 ]}) 2
    (<[ 1 := sessions.Row 1 150 "" "2024-01-01" ]>
       (<[ 2 := sessions.Row 1 300 "" "2024-01-02" ]>
          {[ 3 := sessions.Row 7 5 "" "" ]})) 3.

(** The doubles 7.5 and 75.0. *)
Definition float_7_5 : spec_float := S754_finite false 8444249301319680 (-50).
Definition float_75 : spec_float := S754_finite false 5277655813324800 (-46).

(** The lines of a session at the menu, all entered at [noon]. *)
Definition typed (lines : list string) : list (datetime * string) :=
  (λ l, (noon, l)) <$> lines.

(** A session on a new database: add a skill, log two sessions of
    [2 ^ 63 - 1] minutes and 1 minute for it, then view the progress. *)
Definition overflow_session : world :=
  World (Some empty_database)
    (typed ["1"; "Piano"; "Creative"; "10";
            "2"; "1"; "9223372036854775807"; ""; "";
            "2"; "1"; "1"; ""; "";
            "3"; "5"])
    [] noon.

(** No skill, and one session logged for the skill id 7. *)
Definition orphan_database : database :=
  Database ∅ 0 {[ 1 := sessions.Row 7 30 "" "2024-03-09" ]} 1.

(** The database after [DELETE FROM sessions WHERE skill_id=k] and
    [DELETE FROM skills WHERE id=k]. *)
Definition without_skill (k : Z) (db : database) : database :=
  Database (delete k (skills_table db)) (skills_seq db)
    (filter (λ kr, sessions.skill_id kr.2 ≠ k) (sessions_table db))
    (sessions_seq db).

(** The table can still hand out a rowid: neither a row nor the
    sequence entry has reached the largest one. *)
Definition has_room {R} (t : gmap Z R) (seq : Z) : Prop :=
  seq ≠ INT64_MAX ∧ map_Forall (λ k _, k < INT64_MAX) t.

(** The database after a successful insert of a skill at rowid [v]. *)
Definition with_skill (v : Z) (name category : string) (target_hours : Z)
    (db : database) : database :=
  Database (<[v := skills.Row name category target_hours]> (skills_table db)) v
    (sessions_table db) (sessions_seq db).

(** The database after a successful insert of a session at rowid [v]. *)
Definition with_session (v : Z) (skill_id duration_minutes : Z)
    (notes date : string) (db : database) : database :=
  Database (skills_table db) (skills_seq db)
    (<[v := sessions.Row skill_id duration_minutes notes date]> (sessions_table db))
    v.

(** The world after a handler has printed [line]. *)
Definition printed (line : string) (w : world) : world :=
  World (conn w) (stdin w) (stdout w ++ [line]) (clock w).

(** The world after the connection's database has become [db]. *)
Definition stored (db : database) (w : world) : world :=
  World (Some db) (stdin w) (stdout w) (clock w).

(** [recs] holds, at the position of skill [v] in the scan of the
    skills table, a record with the given name and target. *)
Definition reports_skill (db : database) (recs : list dict) (v : Z)
    (name : string) (target_hours : Z) : Prop :=
  ∃ pos s d,
    scan (skills_table db) !! pos = Some (v, s)
    ∧ recs !! pos = Some d
    ∧ d !! "Skill" = Some (PyStr name)
    ∧ d !! "Target Hours" = Some (PyInt target_hours).

(** The decimal digit [n mod 10] as a character. *)
Definition digit_char (n : Z) : ascii := ascii_of_N (48 + Z.to_N (n mod 10)).

(** The ISO 8601 calendar date "YYYY-MM-DD" of year [y], month [m] and
    day [d]. *)
Definition iso_date (y m d : Z) : string :=
  String (digit_char (y / 1000)) (String (digit_char (y / 100))
    (String (digit_char (y / 10)) (String (digit_char y)
      (String "-" (String (digit_char (m / 10)) (String (digit_char m)
        (String "-" (String (digit_char (d / 10)) (String (digit_char d)
          EmptyString))))))))).

(** The lines the menu prints before it reads the choice. *)
Definition menu_lines : list string :=
  ["
SkillVault Menu:"; "1. Add a New Skill"; "2. Log Practice Session";
   "3. View Progress"; "4. Delete Skill"; "5. Exit"; "Choose an option: "].

(** The entries at the menu that are not valid integers: the lines
    typed, the prompts shown after the choice, the message expected,
    the lines left and the time of the last line read. *)
Inductive invalid_entry (int_non_ascii : string → option Z)
  : list (datetime * string) → list string → string
    → list (datetime * string) → datetime → Prop :=
| bad_target_hours t1 t2 t3 t4 name category target rest :
    py_int int_non_ascii target = None →
    invalid_entry int_non_ascii
      ((t1, "1") :: (t2, name) :: (t3, category) :: (t4, target) :: rest)
      ["Skill Name: "; "Category (Tech, Creative, etc.): "; "Target Hours: "]
      "Invalid input for target hours." rest t4
| bad_skill_id t1 t2 skill_id rest :
    py_int int_non_ascii skill_id = None →
    invalid_entry int_non_ascii ((t1, "2") :: (t2, skill_id) :: rest)
      ["Skill ID: "]
      "Invalid input. Please enter numbers where required." rest t2
| bad_duration t1 t2 t3 skill_id duration rest :
    is_Some (py_int int_non_ascii skill_id) →
    py_int int_non_ascii duration = None →
    invalid_entry int_non_ascii ((t1, "2") :: (t2, skill_id) :: (t3, duration) :: rest)
      ["Skill ID: "; "Duration (in minutes): "]
      "Invalid input. Please enter numbers where required." rest t3.

(** ** Decidability of the conditions on a database *)

Global Instance running_sums_fit_dec l : Decision (running_sums_fit l).
Proof. unfold running_sums_fit. apply _. Defined.

Global Instance sums_fit_dec db : Decision (sums_fit db).
Proof. unfold sums_fit. apply _. Defined.

Global Instance valid_database_dec db : Decision (valid_database db).
Proof. unfold valid_database. apply _. Defined.

(** ** Definitions used to state further properties *)

(** The world in which a computation ends, whether it returns or
    raises. *)
Definition final_world {A} (o : outcome A) : world :=
  match o with
  | Returns _ w | Raises _ w => w
  end.

(** The database of the connection, if there is one, satisfies [I]. *)
Definition holds_in (I : database → Prop) (w : world) : Prop :=
  ∀ db, conn w = Some db → I db.

(** A computation keeps [I]: when it starts in a world where [I] holds
    it ends, returning or raising, in a world where [I] holds. *)
Definition keeps {A} (I : database → Prop) (m : M A) : Prop :=
  ∀ w, holds_in I w → holds_in I (final_world (m w)).

(** A statement keeps [I]. *)
Definition statement_keeps (I : database → Prop)
    (statement : database → result database) : Prop :=
  ∀ db db', I db → statement db = Ok db' → I db'.

(** The sequence entries cover the rowids in use: they are not
    negative, and no row has a rowid above the entry of its table. *)
Definition sequences_cover (db : database) : Prop :=
  (0 ≤ skills_seq db ∧ map_Forall (λ k _, k ≤ skills_seq db) (skills_table db))
  ∧ (0 ≤ sessions_seq db
     ∧ map_Forall (λ k _, k ≤ sessions_seq db) (sessions_table db)).

Global Instance sequences_cover_dec db : Decision (sequences_cover db).
Proof. unfold sequences_cover. apply _. Defined.

(** The database without the sessions whose [skill_id] is not the
    rowid of a skill. *)
Definition without_orphans (db : database) : database :=
  Database (skills_table db) (skills_seq db)
    (filter (λ kr, is_Some (skills_table db !! sessions.skill_id kr.2))
       (sessions_table db))
    (sessions_seq db).

(** The sum of the negative [duration_minutes] of the sessions with
    skill id [k]. *)
Definition negative_minutes (db : database) (k : Z) : Z :=
  sum_Z (filter (λ d, d < 0)
           (sessions.duration_minutes ∘ snd <$> map_to_list (sessions_of db k))).

(** For every skill, the negative durations alone and all the
    durations together sum within the signed 64-bit range. *)
Definition totals_fit (db : database) : Prop :=
  map_Forall
    (λ k _, INT64_MIN ≤ negative_minutes db k
            ∧ practiced_minutes db k ≤ INT64_MAX)
    (skills_table db).

Global Instance totals_fit_dec db : Decision (totals_fit db).
Proof. unfold totals_fit. apply _. Defined.

(** One skill with sessions of [2 ^ 63 - 1] minutes, 1 minute and -1
    minute, logged in this order. *)
Definition up_down_database : database :=
  Database {[ 1 := skills.Row "Piano" "Creative" 10 ]} 1
    (<[ 1 := sessions.Row 1 9223372036854775807 "" "2024-03-09" ]>
       (<[ 2 := sessions.Row 1 1 "" "2024-03-09" ]>
          {[ 3 := sessions.Row 1 (-1) "" "2024-03-09" ]})) 3.

(** One skill with sessions of [- (2 ^ 63 - 1)], [2 ^ 63 - 1] and
    [- (2 ^ 63 - 1)] minutes, logged in this order. *)
Definition down_up_database : database :=
  Database {[ 1 := skills.Row "Piano" "Creative" 10 ]} 1
    (<[ 1 := sessions.Row 1 (-9223372036854775807) "" "2024-03-09" ]>
       (<[ 2 := sessions.Row 1 9223372036854775807 "" "2024-03-09" ]>
          {[ 3 := sessions.Row 1 (-9223372036854775807) "" "2024-03-09" ]})) 3.

(** The entries at the menu that end a turn without a call to the
    store: a skill id to delete that is not a valid integer, a choice
    that is not on the menu, and the choice to exit. The arguments are
    the lines typed, what is printed after the menu, whether the loop
    goes on, the lines left and the time of the last line read. *)
Inductive idle_entry (int_non_ascii : string → option Z)
  : list (datetime * string) → list string → bool
    → list (datetime * string) → datetime → Prop :=
| bad_delete_id t1 t2 skill_id rest :
    py_int int_non_ascii skill_id = None →
    idle_entry int_non_ascii ((t1, "4") :: (t2, skill_id) :: rest)
      ["Enter Skill ID to delete: "; "Invalid skill ID."] true rest t2
| unknown_choice t1 choice rest :
    choice ∉ ["1"; "2"; "3"; "4"; "5"] →
    idle_entry int_non_ascii ((t1, choice) :: rest) ["Invalid choice."] true rest t1
| exit_choice t1 rest :
    idle_entry int_non_ascii ((t1, "5") :: rest) [] false rest t1.

(** The entries at the menu with an integer that [int] accepts and
    SQLite cannot hold: the lines typed, the prompts shown after the
    choice, the lines left and the time of the last line read. *)
Inductive out_of_range_entry (int_non_ascii : string → option Z)
  : list (datetime * string) → list string
    → list (datetime * string) → datetime → Prop :=
| big_target_hours t1 t2 t3 t4 name category line target rest :
    py_int int_non_ascii line = Some target → ¬ in_int64 target →
    out_of_range_entry int_non_ascii
      ((t1, "1") :: (t2, name) :: (t3, category) :: (t4, line) :: rest)
      ["Skill Name: "; "Category (Tech, Creative, etc.): "; "Target Hours: "]
      rest t4
| big_session t1 t2 t3 t4 t5 line1 line2 skill_id duration notes date rest :
    py_int int_non_ascii line1 = Some skill_id →
    py_int int_non_ascii line2 = Some duration →
    ¬ (in_int64 skill_id ∧ in_int64 duration) →
    out_of_range_entry int_non_ascii
      ((t1, "2") :: (t2, line1) :: (t3, line2) :: (t4, notes) :: (t5, date)
         :: rest)
      ["Skill ID: "; "Duration (in minutes): "; "Notes: "; "Date (YYYY-MM-DD): "]
      rest t5
| big_delete_id t1 t2 line skill_id rest :
    py_int int_non_ascii line = Some skill_id → ¬ in_int64 skill_id →
    out_of_range_entry int_non_ascii ((t1, "4") :: (t2, line) :: rest)
      ["Enter Skill ID to delete: "] rest t2.

(** The line that option 3 prints for a result row. *)
Definition progress_line (float_str : spec_float → string) (r : progress_row)
  : string :=
  "Skill: " +:+ r1 r +:+ ", Target: " +:+ pretty (r2 r)
  +:+ " hrs, Practiced: " +:+ float_str (py_round (r3 r) 2)
  +:+ " hrs, Progress: "
  +:+ SkillTracker.str float_str (progress_percent (r3 r) (r2 r)) +:+ "%".

(** A computation only takes lines from the front of [stdin]. *)
Definition reads {A} (m : M A) : Prop :=
  ∀ w, stdin (final_world (m w)) `suffix_of` stdin w.

(** * Properties *)

(** ** Lists, sums and scans *)

Lemma sum_Z_app l1 l2 : sum_Z (l1 ++ l2) = sum_Z l1 + sum_Z l2.
Proof. unfold sum_Z. induction l1 as [|a l1 IH]; simpl; lia. Qed.

Lemma sum_Z_Permutation l1 l2 : l1 ≡ₚ l2 → sum_Z l1 = sum_Z l2.
Proof.
  unfold sum_Z. induction 1; simpl; lia.
Qed.

Section scan.
Context {R : Type}.
Implicit Types t : gmap Z R.

Lemma scan_Permutation t : scan t ≡ₚ map_to_list t.
Proof. apply merge_sort_Permutation. Qed.

Lemma elem_of_scan t k r : (k, r) ∈ scan t ↔ t !! k = Some r.
Proof. rewrite scan_Permutation. apply elem_of_map_to_list. Qed.

Lemma NoDup_fst_scan t : NoDup (scan t).*1.
Proof. rewrite scan_Permutation. apply NoDup_fst_map_to_list. Qed.

Lemma length_scan t : length (scan t) = size t.
Proof. rewrite scan_Permutation. apply length_map_to_list. Qed.

Global Instance rowid_le_trans : Transitive (@rowid_le R).
Proof. intros a b c. unfold rowid_le. lia. Qed.

Global Instance rowid_le_total : Total (@rowid_le R).
Proof. intros a b. unfold rowid_le. lia. Qed.

Lemma scan_sorted t : StronglySorted rowid_le (scan t).
Proof. apply StronglySorted_merge_sort; apply _. Qed.

Lemma map_to_list_filter_Permutation (P : Z * R → Prop)
    `{∀ x, Decision (P x)} t :
  map_to_list (filter P t) ≡ₚ filter P (map_to_list t).
Proof.
  apply NoDup_Permutation.
  - apply NoDup_map_to_list.
  - apply NoDup_filter, NoDup_map_to_list.
  - intros [k r]. rewrite list_elem_of_filter, !elem_of_map_to_list.
    rewrite map_lookup_filter_Some. tauto.
Qed.

Lemma last_rowid_ge t k : is_Some (t !! k) → ∃ m, last_rowid t = Some m ∧ k ≤ m.
Proof.
  intros [r Hr]. apply elem_of_map_to_list in Hr.
  assert (Hk : k ∈ (map_to_list t).*1) by (apply list_elem_of_fmap; by exists (k, r)).
  unfold last_rowid. generalize dependent ((map_to_list t).*1). clear.
  intros l Hk. induction Hk as [k l|k k' l _ IH]; simpl.
  - destruct (foldr _ _ l); simpl; eexists; split; eauto; lia.
  - destruct IH as (m & -> & Hm). simpl. eexists; split; eauto. lia.
Qed.

Lemma last_rowid_None t : last_rowid t = None → t = ∅.
Proof.
  unfold last_rowid. intros H. apply map_to_list_empty_iff.
  destruct (map_to_list t); [done|discriminate].
Qed.
End scan.

(** ** The automatic index of the join *)

Lemma automatic_index_Permutation t : automatic_index t ≡ₚ map_to_list t.
Proof. apply merge_sort_Permutation. Qed.

Lemma elem_of_automatic_index t k r :
  (k, r) ∈ automatic_index t ↔ t !! k = Some r.
Proof. rewrite automatic_index_Permutation. apply elem_of_map_to_list. Qed.

Global Instance index_le_trans : Transitive index_le.
Proof. intros a b c. unfold index_le, entry_le. lia. Qed.

Global Instance index_le_total : Total index_le.
Proof. intros a b. unfold index_le, entry_le. lia. Qed.

Lemma automatic_index_sorted t : StronglySorted index_le (automatic_index t).
Proof. apply StronglySorted_merge_sort; apply _. Qed.

(** The rowid handed out by AUTOINCREMENT is not in use, is a 64-bit
    integer, and is above the sequence entry. *)
Lemma new_rowid_fresh {R} (t : gmap Z R) seq v :
  new_rowid t seq = Ok v → t !! v = None ∧ seq < v.
Proof.
  unfold new_rowid. intros H.
  destruct (last_rowid t) as [m|] eqn:Hm.
  - destruct (INT64_MAX <=? m); [done|].
    destruct (seq =? INT64_MAX); [done|]. injection H as <-. split; [|lia].
    destruct (t !! _) eqn:Hv; [|done].
    destruct (last_rowid_ge t (Z.max (m + 1) (seq + 1))) as (m' & Hm' & ?); [eauto|].
    rewrite Hm in Hm'. injection Hm' as <-. lia.
  - destruct (seq =? INT64_MAX); [done|]. injection H as <-. split; [|lia].
    apply last_rowid_None in Hm. by rewrite Hm.
Qed.

(** ** GROUP BY over the blocks of a join *)

Section group_by.
Context {K R : Type} `{EqDecision K}.
Implicit Types (gs : list (K * (R * list R))) (key : R → K).

Lemma group_insert_new k r gs :
  k ∉ gs.*1 → group_insert k r gs = gs ++ [(k, (r, []))].
Proof.
  induction gs as [|[k' [r0 rs]] gs IH]; simpl; [done|].
  rewrite not_elem_of_cons. intros [Hne Hnin].
  destruct (decide (k = k')); [done|]. by rewrite IH.
Qed.

Lemma group_insert_last k r r0 rs gs :
  k ∉ gs.*1 →
  group_insert k r (gs ++ [(k, (r0, rs))]) = gs ++ [(k, (r0, rs ++ [r]))].
Proof.
  induction gs as [|[k' [r0' rs']] gs IH]; simpl.
  - intros _. by rewrite decide_True.
  - rewrite not_elem_of_cons. intros [Hne Hnin].
    destruct (decide (k = k')); [done|]. by rewrite IH.
Qed.

Lemma foldl_group_insert_same key k r0 rs l gs :
  k ∉ gs.*1 → Forall (λ r, key r = k) l →
  foldl (λ gs r, group_insert (key r) r gs) (gs ++ [(k, (r0, rs))]) l
  = gs ++ [(k, (r0, rs ++ l))].
Proof.
  intros Hnin Hl. revert rs.
  induction Hl as [|r l Hr _ IH]; intros rs; simpl.
  - by rewrite app_nil_r.
  - rewrite Hr, group_insert_last by done. rewrite IH.
    by rewrite <-app_assoc.
Qed.

(** Rows that come in blocks, one key per block and no key twice,
    are grouped block by block. *)
Lemma foldl_group_insert_blocks key (blocks : list (K * (R * list R))) gs :
  NoDup (gs.*1 ++ blocks.*1) →
  Forall (λ b, Forall (λ r, key r = b.1) (b.2.1 :: b.2.2)) blocks →
  foldl (λ gs r, group_insert (key r) r gs) gs
    (concat ((λ b, b.2.1 :: b.2.2) <$> blocks))
  = gs ++ blocks.
Proof.
  intros Hnd Hb. revert gs Hnd.
  induction Hb as [|[k [r0 rs]] blocks Hk _ IH]; intros gs Hnd; simpl.
  - by rewrite app_nil_r.
  - simpl in *. apply Forall_cons in Hk as [Hr0 Hrs].
    rewrite foldl_app. rewrite Hr0.
    assert (k ∉ gs.*1).
    { apply NoDup_app in Hnd as (_ & Hd & _). intros Hin.
      apply (Hd _ Hin). left. }
    rewrite group_insert_new by done.
    rewrite (foldl_group_insert_same key k r0 [] rs gs) by done.
    simpl. rewrite IH.
    + by rewrite <-app_assoc.
    + rewrite fmap_app. simpl. rewrite <-app_assoc. done.
Qed.

Lemma group_by_blocks key (blocks : list (K * (R * list R))) :
  NoDup blocks.*1 →
  Forall (λ b, Forall (λ r, key r = b.1) (b.2.1 :: b.2.2)) blocks →
  group_by key (concat ((λ b, b.2.1 :: b.2.2) <$> blocks)) = blocks.
Proof.
  intros. unfold group_by. by rewrite foldl_group_insert_blocks.
Qed.
End group_by.

(** ** The aggregate query, skill by skill *)

Lemma left_join_blocks ss xs :
  left_join ss xs
  = concat ((λ b : Z * (joined * list joined), b.2.1 :: b.2.2) <$>
              ((λ s, (s.1, join_block xs s)) <$> ss)).
Proof.
  unfold left_join. induction ss as [|s ss IH]; [done|].
  cbn [mbind list_bind fmap list_fmap concat] in *. rewrite IH. f_equal.
  unfold join_block. by destruct (filter _ xs).
Qed.

Lemma join_block_key xs s :
  Forall (λ r : joined, r.1.1 = s.1) ((join_block xs s).1 :: (join_block xs s).2).
Proof.
  unfold join_block. destruct (filter _ xs) as [|m ms]; simpl.
  - by repeat constructor.
  - constructor; [done|]. apply Forall_fmap. by apply Forall_true.
Qed.

Lemma group_by_left_join ss xs :
  NoDup ss.*1 →
  group_by (λ j : joined, j.1.1) (left_join ss xs)
  = (λ s, (s.1, join_block xs s)) <$> ss.
Proof.
  intros Hnd. rewrite left_join_blocks. apply group_by_blocks.
  - by rewrite <-list_fmap_compose.
  - apply Forall_fmap, Forall_true. intros s. apply join_block_key.
Qed.

Lemma sum_from_fit l acc :
  (∀ n, (0 < n ≤ length l)%nat → in_int64 (default 0 acc + sum_Z (take n l))) →
  sum_from acc (Some <$> l)
  = Ok (match l with [] => acc | _ => Some (default 0 acc + sum_Z l) end).
Proof.
  revert acc. induction l as [|v l IH]; intros acc Hfit; [done|].
  simpl. pose proof (Hfit 1%nat ltac:(simpl; lia)) as H1. simpl in H1.
  rewrite Z.add_0_r in H1. apply Is_true_true in H1. rewrite H1.
  rewrite IH.
  - f_equal. destruct l; simpl; f_equal; lia.
  - intros n Hn. simpl. specialize (Hfit (S n) ltac:(simpl; lia)).
    simpl in Hfit. by rewrite <-Z.add_assoc.
Qed.

Lemma sum_from_overflow l acc n :
  ¬ in_int64 (default 0 acc + sum_Z (take n l)) →
  in_int64 (default 0 acc) →
  sum_from acc (Some <$> l) = Raise (sqlite3_Error "integer overflow").
Proof.
  revert acc n. induction l as [|v l IH]; intros acc n Hn Hacc.
  - rewrite take_nil in Hn. simpl in Hn. by rewrite Z.add_0_r in Hn.
  - destruct n as [|n]; [simpl in Hn; by rewrite Z.add_0_r in Hn|].
    simpl in *. destruct (in_int64 (default 0 acc + v)) eqn:Hv; [|done].
    apply (IH _ n); simpl; [|by rewrite Hv].
    by rewrite <-Z.add_assoc.
Qed.

Lemma SUM_join_block xs s :
  SUM (sess_duration_minutes <$> (join_block xs s).1 :: (join_block xs s).2)
  = match filter (λ x, s.1 = sessions.skill_id x.2) xs with
    | [] => Ok None
    | ms => sum_from None (Some <$> (sessions.duration_minutes ∘ snd <$> ms))
    end.
Proof.
  unfold join_block, SUM. destruct (filter _ xs) as [|m ms]; [done|].
  cbn [fst snd]. f_equal.
  rewrite fmap_cons. cbn [fmap list_fmap]. f_equal.
  rewrite <-!list_fmap_compose. done.
Qed.

Lemma practiced_minutes_in_order db k :
  sum_Z (durations_in_order db k) = practiced_minutes db k.
Proof.
  unfold durations_in_order, practiced_minutes, sessions_of.
  apply sum_Z_Permutation, fmap_Permutation.
  rewrite automatic_index_Permutation, map_to_list_filter_Permutation.
  apply reflexive_eq, list_filter_iff. intros x. simpl. split; congruence.
Qed.

(** ** binary64: the conversion of an integer is finite and keeps zero apart *)

Lemma digits2_pos_size p : digits2_pos p = Pos.size p.
Proof. induction p; simpl; congruence. Qed.

Lemma digits2_pos_bounds p :
  2 ^ (Z.pos (digits2_pos p) - 1) ≤ Z.pos p < 2 ^ Z.pos (digits2_pos p).
Proof.
  induction p as [p IH|p IH|]; cbn [digits2_pos].
  - rewrite Pos2Z.inj_succ. change (Z.pos p~1) with (2 * Z.pos p + 1).
    replace (Z.succ (Z.pos (digits2_pos p)) - 1) with (Z.succ (Z.pos (digits2_pos p) - 1)) by lia.
    rewrite !Z.pow_succ_r by lia. lia.
  - rewrite Pos2Z.inj_succ. change (Z.pos p~0) with (2 * Z.pos p).
    replace (Z.succ (Z.pos (digits2_pos p)) - 1) with (Z.succ (Z.pos (digits2_pos p) - 1)) by lia.
    rewrite !Z.pow_succ_r by lia. lia.
  - simpl. lia.
Qed.

Lemma Zdigits2_bounds m :
  0 < m → 2 ^ (Zdigits2 m - 1) ≤ m < 2 ^ Zdigits2 m ∧ 0 < Zdigits2 m.
Proof.
  destruct m as [|p|p]; try lia. intros _. simpl.
  split; [apply digits2_pos_bounds|lia].
Qed.

Lemma Zdigits2_le m k : 0 < m → m ≤ 2 ^ k → 0 ≤ k → Zdigits2 m ≤ k + 1.
Proof.
  intros Hm Hk Hk0. destruct (Zdigits2_bounds m Hm) as [[Hlo _] Hd].
  apply Z.nlt_ge. intros Hlt.
  assert (2 ^ (k + 1) ≤ 2 ^ (Zdigits2 m - 1)) by (apply Z.pow_le_mono_r; lia).
  rewrite Z.pow_add_r in * by lia. lia.
Qed.

Lemma Zdigits2_ge m k : 0 ≤ k → 2 ^ k ≤ m → k + 1 ≤ Zdigits2 m.
Proof.
  intros Hk0 Hk. assert (Hm : 0 < m) by (pose proof (Z.pow_pos_nonneg 2 k); lia).
  destruct (Zdigits2_bounds m Hm) as [[_ Hhi] Hd].
  apply Z.nlt_ge. intros Hlt.
  assert (2 ^ Zdigits2 m ≤ 2 ^ k) by (apply Z.pow_le_mono_r; lia).
  lia.
Qed.

Lemma shr_1_m r : 0 ≤ shr_m r → shr_m (shr_1 r) = shr_m r / 2.
Proof.
  destruct r as [m b s]. simpl. intros Hm.
  destruct m as [|[p|p|]|p]; simpl; try lia; try done.
  - change (Z.pos p~1) with (2 * Z.pos p + 1). apply Z.div_unique with 1; lia.
  - change (Z.pos p~0) with (2 * Z.pos p). apply Z.div_unique with 0; lia.
Qed.

Lemma iter_pos_shr_1_m p r :
  0 ≤ shr_m r → shr_m (SpecFloat.iter_pos shr_1 p r) = shr_m r / 2 ^ Z.pos p.
Proof.
  revert r. induction p as [p IH|p IH|]; intros r Hr; cbn [SpecFloat.iter_pos].
  - assert (0 ≤ shr_m (shr_1 r)) by (rewrite shr_1_m by done; apply Z.div_pos; lia).
    assert (0 ≤ shr_m (SpecFloat.iter_pos shr_1 p (shr_1 r)))
      by (rewrite IH by done; apply Z.div_pos; [done|apply Z.pow_pos_nonneg; lia]).
    rewrite !IH, shr_1_m by done.
    rewrite !Z.div_div by (try apply Z.pow_pos_nonneg; lia).
    f_equal. change (Z.pos p~1) with (2 * Z.pos p + 1).
    replace (2 * Z.pos p + 1) with (1 + Z.pos p + Z.pos p) by lia.
    rewrite !Z.pow_add_r by lia. lia.
  - assert (0 ≤ shr_m (SpecFloat.iter_pos shr_1 p r))
      by (rewrite IH by done; apply Z.div_pos; [done|apply Z.pow_pos_nonneg; lia]).
    rewrite !IH by done.
    rewrite !Z.div_div by (try apply Z.pow_pos_nonneg; lia).
    f_equal. change (Z.pos p~0) with (2 * Z.pos p).
    replace (2 * Z.pos p) with (Z.pos p + Z.pos p) by lia.
    rewrite !Z.pow_add_r by lia. lia.
  - rewrite shr_1_m by done. done.
Qed.

(** A shift by [n] divides the mantissa by [2 ^ n] and adds [n] to the
    exponent; a shift that is not positive does nothing. *)
Lemma shr_spec r e n :
  0 ≤ shr_m r →
  shr_m (shr r e n).1 = shr_m r / 2 ^ Z.max 0 n ∧ (shr r e n).2 = e + Z.max 0 n.
Proof.
  intros Hr. destruct n as [|p|p]; cbn [shr fst snd].
  - change (Z.max 0 0) with 0. rewrite Z.div_1_r. lia.
  - change (Z.max 0 (Z.pos p)) with (Z.pos p).
    by rewrite iter_pos_shr_1_m.
  - change (Z.max 0 (Z.neg p)) with 0. rewrite Z.div_1_r. lia.
Qed.

Lemma shr_record_of_loc_m m l : shr_m (shr_record_of_loc m l) = m.
Proof. by destruct l as [|[]]. Qed.

Lemma round_nearest_even_bounds m l :
  m ≤ round_nearest_even m l ≤ m + 1.
Proof. destruct l as [|[]]; simpl; try destruct (Z.even m); lia. Qed.

(** Rounding a positive mantissa in the normal range gives a finite,
    nonzero double. *)
Lemma binary_round_aux_finite s m e l :
  0 < m → e ≤ 971 → - 1021 ≤ Zdigits2 m + e ≤ 1023 →
  ∃ m' e', binary_round_aux prec emax s m e l = S754_finite s m' e'.
Proof.
  intros Hm He Hde. unfold binary_round_aux, shr_fexp.
  destruct (Zdigits2_bounds m Hm) as [[Hlo Hhi] Hd].
  set (d := Zdigits2 m) in *.
  assert (Hf : fexp prec emax (d + e) - e = d - 53)
    by (unfold fexp, emin, prec, emax; lia).
  rewrite Hf.
  destruct (shr (shr_record_of_loc m l) e (d - 53)) as [r1 e1] eqn:H1.
  pose proof (shr_spec (shr_record_of_loc m l) e (d - 53)) as [Hm1 He1];
    [rewrite shr_record_of_loc_m; lia|].
  rewrite H1 in Hm1, He1. rewrite shr_record_of_loc_m in Hm1. simpl in Hm1, He1.
  set (m1 := shr_m r1) in *.
  (* the shifted mantissa has at most 53 digits and is not zero *)
  assert (Hm1b : 2 ^ (d - 1 - Z.max 0 (d - 53)) ≤ m1 < 2 ^ (d - Z.max 0 (d - 53))).
  { rewrite Hm1. split.
    - apply Z.div_le_lower_bound; [apply Z.pow_pos_nonneg; lia|].
      rewrite <-Z.pow_add_r by lia.
      replace (Z.max 0 (d - 53) + (d - 1 - Z.max 0 (d - 53))) with (d - 1) by lia.
      done.
    - apply Z.div_lt_upper_bound; [apply Z.pow_pos_nonneg; lia|].
      rewrite <-Z.pow_add_r by lia.
      replace (Z.max 0 (d - 53) + (d - Z.max 0 (d - 53))) with d by lia.
      done. }
  pose proof (round_nearest_even_bounds m1 (loc_of_shr_record r1)) as Hr.
  set (m2 := round_nearest_even m1 (loc_of_shr_record r1)) in *.
  assert (Hm1pos : 0 < 2 ^ (d - 1 - Z.max 0 (d - 53)))
    by (apply Z.pow_pos_nonneg; lia).
  assert (Hm2 : 0 < m2) by lia.
  destruct (Zdigits2_bounds m2 Hm2) as [[Hlo2 Hhi2] Hd2].
  assert (Hd2lo : d - Z.max 0 (d - 53) ≤ Zdigits2 m2)
    by (pose proof (Zdigits2_ge m2 (d - 1 - Z.max 0 (d - 53))); lia).
  assert (Hd2hi : Zdigits2 m2 ≤ d - Z.max 0 (d - 53) + 1)
    by (apply Zdigits2_le; lia).
  set (d2 := Zdigits2 m2) in *.
  assert (Hf2 : fexp prec emax (d2 + e1) - e1 = d2 - 53)
    by (unfold fexp, emin, prec, emax; lia).
  rewrite Hf2.
  destruct (shr (shr_record_of_loc m2 loc_Exact) e1 (d2 - 53)) as [r3 e3] eqn:H3.
  pose proof (shr_spec (shr_record_of_loc m2 loc_Exact) e1 (d2 - 53)) as [Hm3 He3];
    [simpl; lia|].
  rewrite H3 in Hm3, He3. simpl in Hm3, He3.
  assert (Hm3pos : 0 < shr_m r3).
  { rewrite Hm3. apply Z.div_str_pos. split; [apply Z.pow_pos_nonneg; lia|].
    etrans; [|exact Hlo2]. apply Z.pow_le_mono_r; lia. }
  destruct (shr_m r3) as [|p|p]; try lia.
  assert ((e3 <=? emax - prec) = true) as ->
    by (apply Z.leb_le; unfold emax, prec; lia).
  eauto.
Qed.

Lemma digits2_pos_iter_xO m p :
  Z.pos (digits2_pos (Pos.iter xO m p)) = Z.pos (digits2_pos m) + Z.pos p.
Proof.
  induction p as [|p IH] using Pos.peano_ind.
  - simpl. lia.
  - rewrite Pos.iter_succ. cbn [digits2_pos]. lia.
Qed.

Lemma binary_round_finite s m :
  Z.pos (digits2_pos m) ≤ 1023 →
  ∃ m' e', binary_round prec emax s m 0 = S754_finite s m' e'.
Proof.
  intros Hd. unfold binary_round, shl_align.
  assert (Hf : fexp prec emax (Z.pos (digits2_pos m) + 0) - 0 = Z.pos (digits2_pos m) - 53)
    by (unfold fexp, emin, prec, emax; lia).
  replace (fexp prec emax (Z.pos (digits2_pos m) + 0))
    with (Z.pos (digits2_pos m) - 53) by lia.
  rewrite Z.sub_0_r.
  destruct (Z.pos (digits2_pos m) - 53) as [|p|p] eqn:Hp.
  - apply binary_round_aux_finite; simpl; lia.
  - apply binary_round_aux_finite; simpl; lia.
  - apply binary_round_aux_finite; [lia|lia|].
    cbn [Zdigits2]. rewrite digits2_pos_iter_xO. lia.
Qed.

Lemma float_of_int_finite z :
  z ≠ 0 → - 2 ^ 64 < z < 2 ^ 64 →
  ∃ s m e, float_of_int z = S754_finite s m e.
Proof.
  intros Hz Hr. unfold float_of_int, binary_normalize.
  assert (Hd : ∀ p, Z.pos p < 2 ^ 64 → Z.pos (digits2_pos p) ≤ 1023).
  { intros p Hp. pose proof (Zdigits2_le (Z.pos p) 64). simpl in *. lia. }
  destruct z as [|p|p]; [done| |].
  - destruct (binary_round_finite false p) as (m & e & ->); [apply Hd; lia|eauto].
  - destruct (binary_round_finite true p) as (m & e & ->); [apply Hd; lia|eauto].
Qed.

(** ** The rows of the query and the records built from them *)

Lemma running_sums_fit_take l n :
  running_sums_fit l → in_int64 (sum_Z (take n l)).
Proof.
  unfold running_sums_fit. rewrite Forall_forall. intros H.
  destruct (decide (n ≤ length l)%nat) as [Hn|Hn].
  - apply H. apply elem_of_seq. lia.
  - rewrite take_ge by lia. rewrite <-(take_ge l (length l)) at 1 by lia.
    apply H. apply elem_of_seq. lia.
Qed.

Lemma running_sums_fit_nonneg l :
  Forall (λ v, 0 ≤ v) l → in_int64 (sum_Z l) → running_sums_fit l.
Proof.
  intros Hl Hs. apply Forall_forall. intros n _.
  assert (0 ≤ sum_Z (take n l) ≤ sum_Z l) as Hb.
  { clear Hs. revert n. induction Hl as [|v l Hv _ IH]; intros n.
    - rewrite take_nil. simpl. lia.
    - destruct n as [|n]; simpl.
      + assert (0 ≤ sum_Z l) by (specialize (IH (length l)); rewrite take_ge in IH by lia; lia).
        unfold sum_Z in *. simpl. lia.
      + specialize (IH n). unfold sum_Z in *. simpl. lia. }
  unfold in_int64, INT64_MIN, INT64_MAX in *.
  apply andb_prop_elim in Hs as [H1 H2].
  apply Is_true_true in H1, H2. apply Z.leb_le in H1, H2.
  apply andb_prop_intro. split; apply Is_true_true, Z.leb_le; lia.
Qed.

Lemma result_map_Ok {A B} (f : A → result B) (g : A → B) l :
  (∀ a, a ∈ l → f a = Ok (g a)) → result_map f l = Ok (g <$> l).
Proof.
  induction l as [|a l IH]; intros H; [done|].
  simpl. rewrite H by left. simpl. rewrite IH; [done|].
  intros b Hb. apply H. by right.
Qed.

Lemma result_map_Ok_inv {A B} (f : A → result B) l bs :
  result_map f l = Ok bs → Forall2 (λ a b, f a = Ok b) l bs.
Proof.
  revert bs. induction l as [|a l IH]; intros bs; simpl.
  - intros [= <-]. constructor.
  - destruct (f a) as [b|e] eqn:Hb; [|done]. simpl.
    destruct (result_map f l) as [bs'|e]; [|done]. simpl.
    intros [= <-]. constructor; [done|by apply IH].
Qed.

Lemma result_map_Raise {A B} (f : A → result B) l e a :
  a ∈ l → f a = Raise e → (∀ a e', a ∈ l → f a = Raise e' → e' = e) →
  result_map f l = Raise e.
Proof.
  intros Ha Hfa Hall. induction Ha as [a l|a a' l Ha IH]; simpl.
  - by rewrite Hfa.
  - destruct (f a') as [b|e'] eqn:Hb; simpl.
    + rewrite IH; [done|done|]. intros a0 e0 Ha0. apply Hall. by right.
    + f_equal. apply (Hall a'); [left|done].
Qed.

Lemma join_block_fst xs s : (join_block xs s).1.1 = s.
Proof. unfold join_block. by destruct (filter _ xs). Qed.

Lemma select_group_join_block db s :
  select_group (s.1, join_block (automatic_index (sessions_table db)) s)
  = total ←
      match durations_in_order db s.1 with
      | [] => Ok None
      | ds => sum_from None (Some <$> ds)
      end;
    Ok (ProgressRow s.1 (skills.name s.2) (skills.target_hours s.2)
          (float_div (float_of_int (IFNULL total 0)) (float_of_int 60))).
Proof.
  unfold select_group.
  pose proof (SUM_join_block (automatic_index (sessions_table db)) s) as HS.
  pose proof (join_block_fst (automatic_index (sessions_table db)) s) as Hfst.
  destruct (join_block _ s) as [j js]. cbn [fst snd] in *.
  rewrite HS, Hfst. unfold durations_in_order.
  by destruct (filter _ _).
Qed.

Lemma sum_from_Ok_or_overflow l acc :
  (∃ v, sum_from acc l = Ok v)
  ∨ sum_from acc l = Raise (sqlite3_Error "integer overflow").
Proof.
  revert acc. induction l as [|[v|] l IH]; intros acc; simpl; eauto.
  destruct (in_int64 _); eauto.
Qed.

Lemma select_group_fit db s :
  running_sums_fit (durations_in_order db s.1) →
  select_group (s.1, join_block (automatic_index (sessions_table db)) s)
  = Ok (progress_row_of db s).
Proof.
  intros Hfit. rewrite select_group_join_block.
  unfold progress_row_of, practiced_hours.
  rewrite <-practiced_minutes_in_order.
  destruct (durations_in_order db s.1) as [|d ds] eqn:Hds; [done|].
  rewrite sum_from_fit.
  - simpl. by rewrite Z.add_0_l.
  - intros n _. simpl. rewrite Z.add_0_l. by apply running_sums_fit_take.
Qed.

Lemma select_progress_groups db :
  select_progress db
  = result_map select_group
      ((λ s, (s.1, join_block (automatic_index (sessions_table db)) s))
         <$> scan (skills_table db)).
Proof.
  unfold select_progress. rewrite group_by_left_join; [done|].
  apply NoDup_fst_scan.
Qed.

(** When the running sums fit, the query returns one row per skill, in
    rowid order, with the practiced hours of the skill. *)
Lemma select_progress_fit db :
  sums_fit db →
  select_progress db = Ok (progress_row_of db <$> scan (skills_table db)).
Proof.
  intros Hfit. rewrite select_progress_groups.
  unfold sums_fit in Hfit. rewrite map_Forall_lookup in Hfit.
  assert (Hall : ∀ s, s ∈ scan (skills_table db) →
            select_group (s.1, join_block (automatic_index (sessions_table db)) s)
            = Ok (progress_row_of db s)).
  { intros [k r] Hs. apply select_group_fit. simpl.
    apply (Hfit k r). by apply elem_of_scan. }
  clear Hfit. induction (scan (skills_table db)) as [|s l IH]; [done|].
  rewrite !fmap_cons. cbn [result_map]. rewrite Hall by left. simpl.
  rewrite IH; [done|]. intros s' Hs'. apply Hall. by right.
Qed.

Lemma in_int64_bounds z : in_int64 z ↔ - 2 ^ 63 ≤ z ≤ 2 ^ 63 - 1.
Proof.
  unfold in_int64, INT64_MIN, INT64_MAX.
  rewrite andb_True, !Is_true_true, !Z.leb_le. done.
Qed.

Lemma in_int64_true z : in_int64 z → in_int64 z = true.
Proof. apply Is_true_true. Qed.

Lemma py_float_of_int_Ok z :
  in_int64 z → z ≠ 0 →
  py_float_of_int z = Ok (float_of_int z)
  ∧ float_is_zero (float_of_int z) = false.
Proof.
  intros Hr%in_int64_bounds Hz. unfold py_float_of_int.
  destruct (float_of_int_finite z) as (s & m & e & ->); [done|lia|done].
Qed.

Lemma progress_dict_Ok r :
  in_int64 (r2 r) → SkillDatabase.progress_dict r = Ok (progress_record r).
Proof.
  intros Hr. unfold SkillDatabase.progress_dict, progress_record, progress_percent.
  unfold py_truthy_int. destruct (decide (r2 r = 0)) as [->|Hz]; [done|].
  apply Z.eqb_neq in Hz as Hz'. rewrite Hz'. cbn [negb].
  unfold py_truediv, py_mul.
  destruct (py_float_of_int_Ok (r2 r)) as [H1 H2]; [done..|].
  destruct (py_float_of_int_Ok 100) as [H3 _]; [done..|].
  rewrite H1. cbn [mbind result_bind]. rewrite H2.
  cbn [mbind result_bind]. rewrite H3. done.
Qed.

Lemma select_progress_rows db rows :
  select_progress db = Ok rows →
  Forall2 (λ s r, r0 r = s.1 ∧ r1 r = skills.name s.2
                  ∧ r2 r = skills.target_hours s.2)
    (scan (skills_table db)) rows.
Proof.
  rewrite select_progress_groups. intros H%result_map_Ok_inv.
  apply Forall2_fmap_l in H. eapply Forall2_impl; [exact H|].
  intros s r Hsr. cbn beta in Hsr. unfold compose in Hsr.
  rewrite select_group_join_block in Hsr.
  destruct (match durations_in_order db s.1 with [] => _ | _ => _ end); [|done].
  simpl in Hsr. by injection Hsr as <-.
Qed.

(** The query either returns or fails with SQLite's integer overflow. *)
Lemma select_progress_Ok_or_overflow db :
  (∃ rows, select_progress db = Ok rows)
  ∨ select_progress db = Raise (sqlite3_Error "integer overflow").
Proof.
  rewrite select_progress_groups.
  induction (scan (skills_table db)) as [|s l IH]; [by left; eexists|].
  rewrite fmap_cons. cbn [result_map]. rewrite select_group_join_block.
  assert ((∃ v, match durations_in_order db s.1 with
                | [] => Ok None
                | ds => sum_from None (Some <$> ds)
                end = Ok v)
          ∨ match durations_in_order db s.1 with
            | [] => Ok None
            | ds => sum_from None (Some <$> ds)
            end = Raise (sqlite3_Error "integer overflow")) as [[v ->]| ->].
  { destruct (durations_in_order db s.1); [by left; eexists|].
    apply sum_from_Ok_or_overflow. }
  - simpl. destruct IH as [[rows ->]| ->]; simpl; [left; by eexists|by right].
  - by right.
Qed.

Lemma valid_database_target db k r :
  valid_database db → skills_table db !! k = Some r →
  in_int64 k ∧ in_int64 (skills.target_hours r).
Proof. intros (Hs & _) Hk. by apply (Hs k r). Qed.

Lemma select_progress_targets db rows :
  valid_database db → select_progress db = Ok rows →
  Forall (λ r, in_int64 (r2 r)) rows.
Proof.
  intros Hv H%select_progress_rows. apply Forall_forall. intros r Hr.
  apply list_elem_of_lookup in Hr as [i Hi].
  destruct (Forall2_lookup_r _ _ _ _ _ H Hi) as ([k s] & Hs & _ & _ & ->).
  apply list_elem_of_lookup_2, elem_of_scan in Hs.
  by destruct (valid_database_target db k s).
Qed.

Lemma get_progress_unfold w db :
  conn w = Some db →
  SkillDatabase.get_progress w
  = match select_progress db with
    | Ok rows =>
        match result_map SkillDatabase.progress_dict rows with
        | Ok recs => Returns recs w
        | Raise e => Raises e w
        end
    | Raise e => Raises e w
    end.
Proof.
  intros Hc. unfold SkillDatabase.get_progress, SkillDatabase.execute_fetchall,
    SkillDatabase.conn_cursor, mbind, M_bind, lift.
  rewrite Hc. by destruct (select_progress db).
Qed.

(** On a valid database, [get_progress] returns the records of the rows
    of the query, and raises exactly when the query does. *)
Lemma get_progress_rows w db rows :
  conn w = Some db → valid_database db → select_progress db = Ok rows →
  SkillDatabase.get_progress w = Returns (progress_record <$> rows) w.
Proof.
  intros Hc Hv Hrows. rewrite (get_progress_unfold w db Hc), Hrows.
  rewrite (result_map_Ok _ progress_record); [done|].
  intros r Hr. apply progress_dict_Ok.
  pose proof (select_progress_targets db rows Hv Hrows) as HF.
  by apply (proj1 (Forall_forall _ _) HF).
Qed.

Lemma get_progress_fit w db :
  conn w = Some db → valid_database db → sums_fit db →
  SkillDatabase.get_progress w
  = Returns (progress_record ∘ progress_row_of db <$> scan (skills_table db)) w.
Proof.
  intros Hc Hv Hfit. rewrite (get_progress_rows w db _ Hc Hv (select_progress_fit db Hfit)).
  by rewrite <-list_fmap_compose.
Qed.

Lemma sum_from_Ok l acc v :
  sum_from acc (Some <$> l) = Ok v →
  v = match l with [] => acc | _ => Some (default 0 acc + sum_Z l) end.
Proof.
  revert acc. induction l as [|d l IH]; intros acc; simpl.
  - by intros [= <-].
  - destruct (in_int64 _); [|done]. intros ->%IH.
    destruct l; simpl; f_equal; lia.
Qed.

(** Whenever the query returns, it returns the row of every skill. *)
Lemma select_progress_Ok db rows :
  select_progress db = Ok rows →
  rows = progress_row_of db <$> scan (skills_table db).
Proof.
  rewrite select_progress_groups. intros H%result_map_Ok_inv.
  apply Forall2_fmap_l in H.
  induction H as [|s r l rows Hsr _ IH]; [done|].
  rewrite fmap_cons, IH. f_equal.
  cbn beta in Hsr. unfold compose in Hsr.
  rewrite select_group_join_block in Hsr.
  unfold progress_row_of, practiced_hours.
  rewrite <-practiced_minutes_in_order.
  destruct (durations_in_order db s.1) as [|d ds] eqn:Hds.
  - simpl in Hsr. by injection Hsr as <-.
  - destruct (sum_from None (Some <$> d :: ds)) as [v|e] eqn:Hv; [|done].
    apply sum_from_Ok in Hv as ->. simpl in Hsr. injection Hsr as <-.
    simpl. by rewrite Z.add_0_l.
Qed.

(** [get_progress] on a valid database: the records of all skills, or
    SQLite's integer overflow. *)
Lemma get_progress_cases w db :
  conn w = Some db → valid_database db →
  SkillDatabase.get_progress w
  = Returns (progress_record ∘ progress_row_of db <$> scan (skills_table db)) w
  ∨ SkillDatabase.get_progress w = Raises (sqlite3_Error "integer overflow") w.
Proof.
  intros Hc Hv. destruct (select_progress_Ok_or_overflow db) as [[rows Hr]|Hr].
  - left. rewrite (get_progress_rows w db rows Hc Hv Hr).
    rewrite (select_progress_Ok db rows Hr). by rewrite <-list_fmap_compose.
  - right. by rewrite (get_progress_unfold w db Hc), Hr.
Qed.

(** A handler for [sqlite3.Error] that returns lets no [sqlite3.Error]
    out of the [try]. *)
Lemma try_except_sqlite3_Error_caught {A} (body : M A) handler w msg w' :
  (∀ m w0, ∃ a w1, handler m w0 = Returns a w1) →
  try_except body (except_sqlite3_Error handler) w ≠ Raises (sqlite3_Error msg) w'.
Proof.
  intros Hh. unfold try_except.
  destruct (body w) as [a w1|e w1]; [done|].
  destruct e; simpl; try done.
  by destruct (Hh msg0 w1) as (a & w2 & ->).
Qed.

Lemma print_Returns s w : ∃ a w', print s w = Returns a w'.
Proof. unfold print. eauto. Qed.

Lemma scan_singleton {R} k (r : R) : scan ({[ k := r ]} : gmap Z R) = [(k, r)].
Proof. unfold scan. by rewrite map_to_list_singleton. Qed.

Lemma durations_in_order_elem db k d :
  d ∈ durations_in_order db k →
  ∃ j r, sessions_table db !! j = Some r ∧ sessions.skill_id r = k
         ∧ sessions.duration_minutes r = d.
Proof.
  unfold durations_in_order. intros ([j r] & -> & Hin)%list_elem_of_fmap.
  apply list_elem_of_filter in Hin as [Hk Hin%elem_of_automatic_index].
  by exists j, r.
Qed.

(** ** [delete_skill] *)

Lemma delete_skill_in_range w db k :
  conn w = Some db → in_int64 k →
  SkillDatabase.delete_skill k w
  = Returns tt (World (Some (without_skill k db)) (stdin w) (stdout w) (clock w)).
Proof.
  intros Hc Hk%in_int64_true.
  unfold SkillDatabase.delete_skill, try_except, SkillDatabase.execute,
    SkillDatabase.commit, SkillDatabase.conn_cursor, delete_sessions,
    delete_skill_row, bind_int, set_conn, lift, mbind, M_bind, mret, M_ret.
  rewrite Hc, Hk. reflexivity.
Qed.

Lemma delete_skill_out_of_range w db k :
  conn w = Some db → ¬ in_int64 k →
  ∃ msg, SkillDatabase.delete_skill k w = Raises (OverflowError msg) w.
Proof.
  intros Hc Hk. apply Is_true_false in Hk.
  unfold SkillDatabase.delete_skill, try_except, SkillDatabase.execute,
    SkillDatabase.commit, SkillDatabase.conn_cursor, delete_sessions,
    delete_skill_row, bind_int, set_conn, lift, mbind, M_bind, mret, M_ret.
  rewrite Hc, Hk. cbn. eauto.
Qed.

Lemma without_skill_sessions k db j r :
  sessions_table (without_skill k db) !! j = Some r
  ↔ sessions_table db !! j = Some r ∧ sessions.skill_id r ≠ k.
Proof. unfold without_skill. cbn. by rewrite map_lookup_filter_Some. Qed.

Lemma without_skill_valid k db :
  valid_database db → valid_database (without_skill k db).
Proof.
  intros (Hs & Hx & H1 & H2). split; [|split; [|done]]; cbn.
  - by apply map_Forall_delete.
  - intros j r [Hj _]%map_lookup_filter_Some. by apply Hx.
Qed.

Lemma without_skill_id k db :
  skills_table db !! k = None →
  (without_skill k db = db ↔ sessions_of db k = ∅).
Proof.
  intros Hk. destruct db as [sk sq xs xq]. unfold without_skill, sessions_of.
  cbn in *. rewrite delete_id by done. split.
  - intros [= Hf]. apply map_empty. intros j.
    apply map_lookup_filter_None. right. intros r Hr. cbn. intros Hkr.
    rewrite <-Hf in Hr. apply map_lookup_filter_Some in Hr as [_ Hne]. done.
  - intros He. f_equal. apply map_filter_id. intros j r Hr. cbn. intros Hkr.
    assert (filter (λ kr : Z * sessions.row, sessions.skill_id kr.2 = k) xs !! j = Some r)
      as Hin by (by apply map_lookup_filter_Some).
    by rewrite He in Hin.
Qed.

(** ** AUTOINCREMENT *)

Lemma last_rowid_Some {R} (t : gmap Z R) m :
  last_rowid t = Some m → is_Some (t !! m).
Proof.
  unfold last_rowid. intros H.
  assert (Hin : m ∈ (map_to_list t).*1).
  { revert m H. induction ((map_to_list t).*1) as [|k l IH]; intros m; [done|].
    simpl. destruct (foldr _ None l) as [a|] eqn:Ha; simpl; intros [= <-].
    - destruct (Z.max_spec k a) as [[_ ->]|[_ ->]]; [right; by apply IH|left].
    - left. }
  apply list_elem_of_fmap in Hin as ([k r] & -> & Hin).
  apply elem_of_map_to_list in Hin. eauto.
Qed.

Lemma new_rowid_above {R} (t : gmap Z R) seq v :
  new_rowid t seq = Ok v →
  t !! v = None ∧ seq < v ∧ (∀ j, is_Some (t !! j) → j < v)
  ∧ (in_int64 seq → map_Forall (λ k _, in_int64 k) t → in_int64 v).
Proof.
  intros H. destruct (new_rowid_fresh t seq v H) as [Hf Hs].
  split; [done|]. split; [done|].
  unfold new_rowid in H. destruct (last_rowid t) as [m|] eqn:Hm.
  - destruct (INT64_MAX <=? m) eqn:Hmax; [done|].
    destruct (seq =? INT64_MAX) eqn:Hseq; [done|]. injection H as <-.
    apply Z.leb_gt in Hmax. apply Z.eqb_neq in Hseq. split.
    + intros j Hj. destruct (last_rowid_ge t j Hj) as (m' & Hm' & ?).
      rewrite Hm in Hm'. injection Hm' as <-. lia.
    + rewrite !in_int64_bounds. intros Hq Ht.
      destruct (last_rowid_Some t m Hm) as [r Hr].
      apply Ht, in_int64_bounds in Hr. unfold INT64_MAX in *. lia.
  - destruct (seq =? INT64_MAX) eqn:Hseq; [done|]. injection H as <-.
    apply Z.eqb_neq in Hseq. apply last_rowid_None in Hm. subst t. split.
    + intros j [r Hr]. by rewrite lookup_empty in Hr.
    + rewrite !in_int64_bounds. unfold INT64_MAX in *. lia.
Qed.

Lemma new_rowid_cases {R} (t : gmap Z R) seq :
  (∃ v, new_rowid t seq = Ok v) ∨ new_rowid t seq = Raise SQLITE_FULL.
Proof.
  unfold new_rowid. destruct (last_rowid t) as [m|].
  - destruct (INT64_MAX <=? m); [by right|].
    destruct (seq =? INT64_MAX); [by right|left; eauto].
  - destruct (seq =? INT64_MAX); [by right|left; eauto].
Qed.

Lemma new_rowid_room {R} (t : gmap Z R) seq :
  has_room t seq → ∃ v, new_rowid t seq = Ok v.
Proof.
  intros [Hseq Ht]. unfold new_rowid.
  destruct (last_rowid t) as [m|] eqn:Hm.
  - destruct (last_rowid_Some t m Hm) as [r Hr]. apply Ht in Hr. cbn in Hr.
    apply Z.leb_gt in Hr as ->. apply Z.eqb_neq in Hseq as ->. eauto.
  - apply Z.eqb_neq in Hseq as ->. eauto.
Qed.

(** ** [add_skill] and [log_session] *)

Lemma add_skill_unfold w db skill :
  conn w = Some db →
  SkillDatabase.add_skill skill w
  = match insert_skill (Skill.name skill) (Skill.category skill)
            (Skill.target_hours skill) db with
    | Ok db' => Returns tt (stored db' w)
    | Raise (sqlite3_Error msg) =>
        Returns tt (printed ("Failed to add skill: " +:+ msg) w)
    | Raise e => Raises e w
    end.
Proof.
  intros Hc. unfold SkillDatabase.add_skill, try_except, SkillDatabase.execute,
    SkillDatabase.commit, SkillDatabase.conn_cursor, set_conn, lift,
    mbind, M_bind, mret, M_ret.
  rewrite Hc. destruct (insert_skill _ _ _ db) as [db'|e]; [done|].
  by destruct e.
Qed.

Lemma log_session_unfold w db session :
  conn w = Some db →
  SkillDatabase.log_session session w
  = match insert_session (PracticeSession.skill_id session)
            (PracticeSession.duration_minutes session)
            (PracticeSession.notes session) (PracticeSession.date session) db with
    | Ok db' => Returns tt (stored db' w)
    | Raise (sqlite3_Error msg) =>
        Returns tt (printed ("Failed to log session: " +:+ msg) w)
    | Raise e => Raises e w
    end.
Proof.
  intros Hc. unfold SkillDatabase.log_session, try_except, SkillDatabase.execute,
    SkillDatabase.commit, SkillDatabase.conn_cursor, set_conn, lift,
    mbind, M_bind, mret, M_ret.
  rewrite Hc. destruct (insert_session _ _ _ _ db) as [db'|e]; [done|].
  by destruct e.
Qed.

Lemma insert_skill_cases n c t db :
  (¬ in_int64 t ∧ ∃ msg, insert_skill n c t db = Raise (OverflowError msg))
  ∨ (in_int64 t ∧ new_rowid (skills_table db) (skills_seq db) = Raise SQLITE_FULL
     ∧ insert_skill n c t db = Raise SQLITE_FULL)
  ∨ (in_int64 t ∧ ∃ v, new_rowid (skills_table db) (skills_seq db) = Ok v
     ∧ insert_skill n c t db = Ok (with_skill v n c t db)).
Proof.
  unfold insert_skill, bind_int. destruct (in_int64 t) eqn:Ht.
  - right. cbn. destruct (new_rowid_cases (skills_table db) (skills_seq db))
      as [[v Hv]|Hv]; rewrite Hv; cbn.
    + right. split; [done|]. eauto.
    + left. done.
  - left. split; [by apply Is_true_false|]. cbn. eauto.
Qed.

Lemma insert_session_cases k d n dt db :
  (¬ (in_int64 k ∧ in_int64 d)
   ∧ ∃ msg, insert_session k d n dt db = Raise (OverflowError msg))
  ∨ (in_int64 k ∧ in_int64 d
     ∧ new_rowid (sessions_table db) (sessions_seq db) = Raise SQLITE_FULL
     ∧ insert_session k d n dt db = Raise SQLITE_FULL)
  ∨ (in_int64 k ∧ in_int64 d
     ∧ ∃ v, new_rowid (sessions_table db) (sessions_seq db) = Ok v
     ∧ insert_session k d n dt db = Ok (with_session v k d n dt db)).
Proof.
  unfold insert_session, bind_int. destruct (in_int64 k) eqn:Hk.
  - destruct (in_int64 d) eqn:Hd.
    + right. cbn. destruct (new_rowid_cases (sessions_table db) (sessions_seq db))
        as [[v Hv]|Hv]; rewrite Hv; cbn.
      * right. do 2 (split; [done|]). eauto.
      * left. done.
    + left. split; [|cbn; eauto]. intros [_ H]. by apply Is_true_false in Hd.
  - left. split; [|cbn; eauto]. intros [H _]. by apply Is_true_false in Hk.
Qed.

Lemma with_skill_valid v n c t db :
  valid_database db → in_int64 t →
  new_rowid (skills_table db) (skills_seq db) = Ok v →
  valid_database (with_skill v n c t db).
Proof.
  intros (Hs & Hx & H1 & H2) Ht Hv.
  destruct (new_rowid_above _ _ _ Hv) as (_ & _ & _ & Hv64).
  assert (in_int64 v) as Hin.
  { apply Hv64; [done|]. intros j r Hj. by apply (Hs j r). }
  split; [|split; [|done]]; cbn.
  - by apply map_Forall_insert_2.
  - done.
Qed.

Lemma with_session_valid v k d n dt db :
  valid_database db → in_int64 k → in_int64 d →
  new_rowid (sessions_table db) (sessions_seq db) = Ok v →
  valid_database (with_session v k d n dt db).
Proof.
  intros (Hs & Hx & H1 & H2) Hk Hd Hv.
  destruct (new_rowid_above _ _ _ Hv) as (_ & _ & _ & Hv64).
  assert (in_int64 v) as Hin.
  { apply Hv64; [done|]. intros j r Hj. by apply (Hx j r). }
  split; [|split; [|done]]; cbn.
  - done.
  - by apply map_Forall_insert_2.
Qed.

(** ** [strftime('%Y-%m-%d')] is the ISO date from the year 1000 on *)

Lemma pretty_N_char_digit (n : N) :
  (n < 10)%N → pretty_N_char n = ascii_of_N (48 + n).
Proof.
  intros Hn.
  assert (Hall : Forall (λ n, pretty_N_char n = ascii_of_N (48 + n))
            [0; 1; 2; 3; 4; 5; 6; 7; 8; 9]%N) by (repeat constructor).
  rewrite Forall_forall in Hall. apply Hall.
  rewrite !elem_of_cons. lia.
Qed.

Lemma digit_char_pretty y k :
  0 ≤ y → 0 < k →
  digit_char (y / k) = pretty_N_char ((Z.to_N y / Z.to_N k) mod 10).
Proof.
  intros Hy Hk. unfold digit_char.
  rewrite pretty_N_char_digit by (apply N.mod_lt; lia).
  do 2 f_equal. rewrite Z2N.inj_mod by (try apply Z.div_pos; lia).
  by rewrite Z2N.inj_div by lia.
Qed.

Lemma pretty_decimal y :
  0 < y →
  pretty y = pretty_N_go (Z.to_N y) "".
Proof. destruct y as [|p|p]; try lia. intros _. reflexivity. Qed.

Lemma pretty_4_digits y :
  1000 ≤ y ≤ 9999 →
  pretty y
  = String (digit_char (y / 1000)) (String (digit_char (y / 100))
      (String (digit_char (y / 10)) (String (digit_char y) EmptyString))).
Proof.
  intros Hy. rewrite pretty_decimal by lia.
  rewrite <-(Z.div_1_r y) at 5.
  rewrite !digit_char_pretty by lia.
  set (n := Z.to_N y). assert (1000 ≤ n < 10000)%N as Hn by lia. clearbody n.
  change (Z.to_N 1000) with 1000%N. change (Z.to_N 100) with 100%N.
  change (Z.to_N 10) with 10%N. change (Z.to_N 1) with 1%N.
  rewrite N.div_1_r.
  rewrite pretty_N_go_step by lia.
  rewrite pretty_N_go_step by (apply N.div_str_pos; lia).
  rewrite N.Div0.div_div. change (10 * 10)%N with 100%N.
  rewrite pretty_N_go_step by (apply N.div_str_pos; lia).
  rewrite N.Div0.div_div. change (100 * 10)%N with 1000%N.
  rewrite pretty_N_go_step by (apply N.div_str_pos; lia).
  rewrite N.Div0.div_div. change (1000 * 10)%N with 10000%N.
  rewrite (N.div_small n 10000) by lia. rewrite pretty_N_go_0. reflexivity.
Qed.

Lemma zero_pad_2_digits m :
  1 ≤ m ≤ 99 →
  zero_pad 2 (pretty m)
  = String (digit_char (m / 10)) (String (digit_char m) EmptyString).
Proof.
  intros Hy. rewrite pretty_decimal by lia.
  rewrite <-(Z.div_1_r m) at 3.
  rewrite !digit_char_pretty by lia.
  set (n := Z.to_N m). assert (0 < n < 100)%N as Hn by lia. clearbody n.
  change (Z.to_N 10) with 10%N. change (Z.to_N 1) with 1%N.
  rewrite N.div_1_r.
  rewrite pretty_N_go_step by lia.
  destruct (decide (n < 10)%N) as [H1|H1].
  { rewrite !(N.div_small n) by lia. rewrite pretty_N_go_0. reflexivity. }
  rewrite pretty_N_go_step by (apply N.div_str_pos; lia).
  rewrite N.Div0.div_div. change (10 * 10)%N with 100%N.
  rewrite (N.div_small n 100) by lia. rewrite pretty_N_go_0. reflexivity.
Qed.

Lemma strftime_iso t :
  valid_datetime t → 1000 ≤ year t →
  strftime_Y_m_d t = iso_date (year t) (month t) (day t).
Proof.
  intros (Hy & Hm & Hd) Hy'. unfold strftime_Y_m_d, iso_date.
  rewrite pretty_4_digits by lia.
  rewrite !zero_pad_2_digits by lia. reflexivity.
Qed.

(** ** The loop of [run] ends: every turn reads a line *)

Lemma consumes_ret {A} (a : A) : consumes (mret a).
Proof. intros w. cbn. lia. Qed.

Lemma consumes_bind {A B} (m : M A) (k : A → M B) :
  consumes m → (∀ a, consumes (k a)) → consumes (m ≫= k).
Proof.
  intros Hm Hk w. specialize (Hm w). unfold mbind, M_bind.
  destruct (m w) as [a w1|e w1]; [|done].
  specialize (Hk a w1). destruct (k a w1); lia.
Qed.

Lemma consumes_raise {A} e : consumes (@raise A e).
Proof. intros w. cbn. lia. Qed.

Lemma consumes_lift {A} (r : result A) : consumes (lift r).
Proof. intros w. unfold lift. destruct r; cbn; lia. Qed.

Lemma consumes_print s : consumes (print s).
Proof. intros w. cbn. lia. Qed.

Lemma consumes_input p : consumes (input p).
Proof. intros w. unfold input. destruct (stdin w) as [|[t l] rest]; simpl; lia. Qed.

Lemma consumes_set_conn db : consumes (set_conn db).
Proof. intros w. cbn. lia. Qed.

Lemma consumes_int int_non_ascii s : consumes (int int_non_ascii s).
Proof. intros w. unfold int. destruct (py_int int_non_ascii s); cbn; lia. Qed.

Lemma consumes_datetime_now : consumes datetime_now.
Proof. intros w. cbn. lia. Qed.

Lemma consumes_conn_cursor : consumes SkillDatabase.conn_cursor.
Proof. intros w. unfold SkillDatabase.conn_cursor. destruct (conn w); cbn; lia. Qed.

Lemma consumes_try_except {A} (body : M A) clause :
  consumes body → (∀ e h, clause e = Some h → consumes h) →
  consumes (try_except body clause).
Proof.
  intros Hb Hc w. specialize (Hb w). unfold try_except.
  destruct (body w) as [a w1|e w1]; [done|].
  destruct (clause e) as [h|] eqn:Hh; [|done].
  specialize (Hc e h Hh w1). destruct (h w1); lia.
Qed.

Lemma consumes_except_sqlite3_Error {A} (handler : string → M A) e h :
  (∀ msg, consumes (handler msg)) →
  except_sqlite3_Error handler e = Some h → consumes h.
Proof. intros Hh. destruct e; simpl; try done. by intros [= <-]. Qed.

Lemma consumes_except_ValueError {A} (handler : M A) e h :
  consumes handler → except_ValueError handler e = Some h → consumes h.
Proof. intros Hh. destruct e; simpl; try done. by intros [= <-]. Qed.

Create HintDb consumes.
#[local] Hint Resolve consumes_ret consumes_raise consumes_lift consumes_print
  consumes_input consumes_set_conn consumes_int consumes_datetime_now
  consumes_conn_cursor : consumes.

Ltac consumes_step :=
  match goal with
  | |- consumes (_ ≫= _) => apply consumes_bind; [|intros ?]
  | |- consumes (try_except _ (except_sqlite3_Error _)) =>
      apply consumes_try_except;
      [|intros ? ?; apply consumes_except_sqlite3_Error; intros ?]
  | |- consumes (try_except _ (except_ValueError _)) =>
      apply consumes_try_except;
      [|intros ? ?; apply consumes_except_ValueError]
  | |- consumes (if ?b then _ else _) => destruct b
  | |- consumes (match ?x with _ => _ end) => destruct x
  | |- _ => solve [auto with consumes]
  end.

Lemma consumes_execute statement : consumes (SkillDatabase.execute statement).
Proof. unfold SkillDatabase.execute. repeat consumes_step. Qed.

Lemma consumes_commit : consumes SkillDatabase.commit.
Proof. unfold SkillDatabase.commit. repeat consumes_step. Qed.

#[local] Hint Resolve consumes_execute consumes_commit : consumes.

Lemma consumes_add_skill skill : consumes (SkillDatabase.add_skill skill).
Proof. unfold SkillDatabase.add_skill. repeat consumes_step. Qed.

Lemma consumes_log_session session : consumes (SkillDatabase.log_session session).
Proof. unfold SkillDatabase.log_session. repeat consumes_step. Qed.

Lemma consumes_delete_skill k : consumes (SkillDatabase.delete_skill k).
Proof. unfold SkillDatabase.delete_skill. repeat consumes_step. Qed.

Lemma consumes_get_progress : consumes SkillDatabase.get_progress.
Proof.
  unfold SkillDatabase.get_progress, SkillDatabase.execute_fetchall.
  repeat consumes_step.
Qed.

#[local] Hint Resolve consumes_add_skill consumes_log_session
  consumes_delete_skill consumes_get_progress : consumes.

Section run_ends.
Variable float_str : spec_float → string.
Variable int_non_ascii : string → option Z.

Lemma consumes_print_progress progress :
  consumes (SkillTracker.print_progress float_str progress).
Proof.
  induction progress as [|p rest IH]; cbn [SkillTracker.print_progress];
    [auto with consumes|].
  unfold SkillTracker.getitem. repeat consumes_step.
Qed.

Lemma consumes_options :
  consumes (SkillTracker.option_1 int_non_ascii) ∧ consumes (SkillTracker.option_2 int_non_ascii)
  ∧ consumes (SkillTracker.option_3 float_str) ∧ consumes (SkillTracker.option_4 int_non_ascii).
Proof.
  unfold SkillTracker.option_1, SkillTracker.option_2, SkillTracker.option_3,
    SkillTracker.option_4.
  repeat split; repeat consumes_step; try apply consumes_print_progress.
Qed.

(** A turn that returns has read at least the line of the choice. *)
Lemma turn_reads_a_line w b w' :
  SkillTracker.turn float_str int_non_ascii w = Returns b w' →
  (length (stdin w') < length (stdin w))%nat.
Proof.
  destruct consumes_options as (H1 & H2 & H3 & H4).
  unfold SkillTracker.turn.
  assert (Hmenu : consumes SkillTracker.print_menu)
    by (unfold SkillTracker.print_menu; repeat consumes_step).
  unfold mbind at 1, M_bind at 1. specialize (Hmenu w).
  destruct (SkillTracker.print_menu w) as [[] w1|e w1]; [|done].
  cbn in Hmenu.
  unfold mbind at 1, M_bind at 1, input at 1.
  destruct (stdin w1) as [|[t choice] rest] eqn:Hin; [done|].
  set (w2 := World (conn w1) rest (stdout w1 ++ ["Choose an option: "]) t).
  assert (Hdispatch : ∀ m : M bool, consumes m → m w2 = Returns b w' →
            (length (stdin w') < length (stdin w))%nat).
  { intros m Hm Hr. specialize (Hm w2). rewrite Hr in Hm. simpl in *. lia. }
  repeat case_decide; apply Hdispatch; repeat consumes_step.
Qed.

Lemma loop_ends fuel w :
  (length (stdin w) < fuel)%nat → is_Some (SkillTracker.loop float_str int_non_ascii fuel w).
Proof.
  revert w. induction fuel as [|fuel IH]; intros w Hf; [lia|].
  cbn [SkillTracker.loop].
  destruct (SkillTracker.turn float_str int_non_ascii w) as [[] w'|e w'] eqn:Hturn; [|done..].
  apply IH. apply turn_reads_a_line in Hturn. lia.
Qed.

(** [run] never runs out of fuel: it returns on option 5 or raises. *)
Lemma run_ends w : is_Some (SkillTracker.run float_str int_non_ascii w).
Proof. unfold SkillTracker.run. apply loop_ends. lia. Qed.

End run_ends.

(** ** Records and sums *)

Lemma progress_record_Skill r : progress_record r !! "Skill" = Some (PyStr (r1 r)).
Proof. done. Qed.

Lemma progress_record_Target r :
  progress_record r !! "Target Hours" = Some (PyInt (r2 r)).
Proof. done. Qed.

Lemma progress_record_Total r :
  progress_record r !! "Total Practiced" = Some (PyFloat (py_round (r3 r) 2)).
Proof. done. Qed.

Lemma progress_record_Progress r :
  progress_record r !! "Progress %" = Some (progress_percent (r3 r) (r2 r)).
Proof. done. Qed.

Lemma practiced_minutes_no_sessions db k :
  sessions_of db k = ∅ → practiced_minutes db k = 0.
Proof. unfold practiced_minutes. intros ->. by rewrite map_to_list_empty. Qed.

(** * The claims *)

(** C1, as amended. For every database state in which no running sum
    of a skill's [duration_minutes] (taken by ascending duration, the
    order in which the join meets them in its index) leaves the
    signed 64-bit range, [get_progress] returns one record per row of
    the skills table, in rowid order; the record of skill [k] has
    ['Total Practiced'] equal to the sum of [duration_minutes] over all
    sessions whose [skill_id] is [k], divided by 60 and rounded to 2
    decimal places, and a skill without sessions appears with zero
    practiced hours. *)
Theorem C1_get_progress_total_practiced w db :
  conn w = Some db → valid_database db → sums_fit db →
  ∃ recs,
    SkillDatabase.get_progress w = Returns recs w
    ∧ length recs = size (skills_table db)
    ∧ NoDup (scan (skills_table db)).*1
    ∧ (∀ k s, skills_table db !! k = Some s ↔ (k, s) ∈ scan (skills_table db))
    ∧ (∀ i k s, scan (skills_table db) !! i = Some (k, s) →
         ∃ d, recs !! i = Some d
           ∧ d !! "Skill" = Some (PyStr (skills.name s))
           ∧ d !! "Total Practiced"
             = Some (PyFloat (py_round
                                (float_div (float_of_int (practiced_minutes db k))
                                   (float_of_int 60)) 2))
           ∧ (sessions_of db k = ∅ →
              d !! "Total Practiced" = Some (PyFloat (S754_zero false)))).
Proof.
  intros Hc Hv Hfit. eexists. split; [by apply get_progress_fit|].
  split; [by rewrite length_fmap, length_scan|].
  split; [apply NoDup_fst_scan|].
  split; [intros k s; by rewrite elem_of_scan|].
  intros i k s Hi. eexists. rewrite list_lookup_fmap, Hi. split; [done|].
  split; [done|]. split; [done|].
  intros Hno. unfold compose. rewrite progress_record_Total.
  cbn [r3 progress_row_of fst]. unfold practiced_hours.
  by rewrite practiced_minutes_no_sessions.
Qed.

Lemma C1_get_progress_total_practiced_witness :
  ∃ recs,
    SkillDatabase.get_progress (connected sample_database)
    = Returns recs (connected sample_database)
    ∧ length recs = size (skills_table sample_database).
Proof.
  destruct (C1_get_progress_total_practiced (connected sample_database)
              sample_database) as (recs & H1 & H2 & _).
  - reflexivity.
  - apply (bool_decide_unpack _). vm_compute. exact I.
  - apply (bool_decide_unpack _). vm_compute. exact I.
  - exists recs. split; assumption.
Defined.

(** C1 fails as stated: for the skill whose sessions last [2 ^ 63 - 1]
    minutes and 1 minute, SQLite's SUM overflows and [get_progress]
    returns no record at all. *)
Lemma C1_counterexample :
  valid_database overflow_database
  ∧ skills_table overflow_database !! 1 = Some (skills.Row "Piano" "Creative" 10)
  ∧ SkillDatabase.get_progress (connected overflow_database)
    = Raises (sqlite3_Error "integer overflow") (connected overflow_database)
  ∧ ¬ ∃ recs w', SkillDatabase.get_progress (connected overflow_database)
                 = Returns recs w'.
Proof.
  assert (H : SkillDatabase.get_progress (connected overflow_database)
    = Raises (sqlite3_Error "integer overflow") (connected overflow_database))
    by (vm_compute; reflexivity).
  split; [apply (bool_decide_unpack _); vm_compute; exact I|].
  split; [reflexivity|]. split; [exact H|].
  intros (recs & w' & H'). rewrite H in H'. discriminate.
Qed.

(** C2, evaluated at a failing input. [get_progress] has no handler:
    when the running sum of the query overflows, the [sqlite3.Error]
    that SQLite raises reaches the caller, and at the menu it ends
    [run]. The other operations do catch every [sqlite3.Error], but not
    the [AttributeError] that follows a failed construction. *)
Theorem C2_get_progress_raises_to_caller (float_str : spec_float → string)
    (int_non_ascii : string → option Z) :
  SkillDatabase.get_progress (connected overflow_database)
  = Raises (sqlite3_Error "integer overflow") (connected overflow_database)
  ∧ (∃ out, SkillTracker.run float_str int_non_ascii overflow_session
            = Some (Raises (sqlite3_Error "integer overflow")
                      (World (Some overflow_database) (typed ["5"]) out noon)))
  ∧ (∀ skill session skill_id connect create w msg w',
       SkillDatabase.add_skill skill w ≠ Raises (sqlite3_Error msg) w'
       ∧ SkillDatabase.log_session session w ≠ Raises (sqlite3_Error msg) w'
       ∧ SkillDatabase.delete_skill skill_id w ≠ Raises (sqlite3_Error msg) w'
       ∧ SkillDatabase.init connect create w ≠ Raises (sqlite3_Error msg) w')
  ∧ (∀ create w msg, conn w = None →
       ∃ w1, SkillDatabase.init (Raise (sqlite3_Error msg)) create w
             = Returns tt w1
             ∧ conn w1 = None
             ∧ ∃ e, SkillDatabase.get_progress w1 = Raises (AttributeError e) w1).
Proof.
  split; [vm_compute; reflexivity|].
  split; [eexists; vm_compute; reflexivity|].
  split.
  - intros. repeat split; apply try_except_sqlite3_Error_caught;
      intros; apply print_Returns.
  - intros create w msg Hc. eexists. split; [reflexivity|]. split; [done|].
    eexists. unfold SkillDatabase.get_progress, SkillDatabase.execute_fetchall,
      SkillDatabase.conn_cursor, mbind, M_bind, print. simpl. by rewrite Hc.
Qed.

(** C3, as amended. For every database state in which no skill row has
    identifier [k], and every [k] in the signed 64-bit range,
    [delete_skill k] returns without raising or printing and leaves the
    skills table and both sequences unchanged; it removes exactly the
    session rows whose [skill_id] is [k], so the database state is
    unchanged exactly when no session refers to [k]. *)
Theorem C3_delete_absent_skill w db k :
  conn w = Some db → in_int64 k → skills_table db !! k = None →
  ∃ db',
    SkillDatabase.delete_skill k w
    = Returns tt (World (Some db') (stdin w) (stdout w) (clock w))
    ∧ skills_table db' = skills_table db
    ∧ skills_seq db' = skills_seq db
    ∧ sessions_seq db' = sessions_seq db
    ∧ (∀ j r, sessions_table db' !! j = Some r
              ↔ sessions_table db !! j = Some r ∧ sessions.skill_id r ≠ k)
    ∧ (db' = db ↔ sessions_of db k = ∅).
Proof.
  intros Hc Hk Hno. exists (without_skill k db).
  split; [by apply delete_skill_in_range|].
  split; [cbn; by rewrite delete_id|].
  split; [done|]. split; [done|].
  split; [apply without_skill_sessions|by apply without_skill_id].
Qed.

Lemma C3_delete_absent_skill_witness :
  SkillDatabase.delete_skill 7 (connected sample_database)
  = Returns tt (connected (without_skill 7 sample_database))
  ∧ skills_table (without_skill 7 sample_database) = skills_table sample_database.
Proof.
  destruct (C3_delete_absent_skill (connected sample_database) sample_database 7)
    as (db' & Hd & Hs & _).
  - reflexivity.
  - vm_compute. exact I.
  - vm_compute. reflexivity.
  - split; vm_compute; reflexivity.
Defined.

(** C3 fails as stated: no skill has identifier 7, yet [delete_skill 7]
    removes the session that was logged for 7, so the database state
    changes; and for an identifier beyond the 64-bit range the call
    raises [OverflowError]. *)
Lemma C3_counterexample :
  skills_table orphan_database !! 7 = None
  ∧ (∃ w', SkillDatabase.delete_skill 7 (connected orphan_database) = Returns tt w'
           ∧ conn w' = Some (Database ∅ 0 ∅ 1)
           ∧ conn w' ≠ Some orphan_database)
  ∧ skills_table orphan_database !! (2 ^ 63) = None
  ∧ SkillDatabase.delete_skill (2 ^ 63) (connected orphan_database)
    = Raises (OverflowError "Python int too large to convert to SQLite INTEGER")
        (connected orphan_database).
Proof.
  split; [reflexivity|]. split.
  - eexists. split; [vm_compute; reflexivity|]. split; [reflexivity|].
    intros H. vm_compute in H. discriminate H.
  - split; [reflexivity|]. vm_compute. reflexivity.
Qed.

(** C4. For every database state that holds a skill with identifier
    [k], [delete_skill k] removes the skill row [k] and every session
    row whose [skill_id] is [k]; every other skill row and every
    session row with another [skill_id] is unchanged, no row appears,
    and a subsequent [get_progress] returns no record for skill [k]:
    its records are those of the rows of the query, none of which has
    the identifier [k]. *)
Theorem C4_delete_skill_cascade w db k s :
  conn w = Some db → valid_database db → skills_table db !! k = Some s →
  ∃ db',
    SkillDatabase.delete_skill k w
    = Returns tt (World (Some db') (stdin w) (stdout w) (clock w))
    ∧ skills_table db' !! k = None
    ∧ (∀ j r, sessions_table db !! j = Some r → sessions.skill_id r = k →
              sessions_table db' !! j = None)
    ∧ (∀ j, j ≠ k → skills_table db' !! j = skills_table db !! j)
    ∧ (∀ j r, sessions_table db !! j = Some r → sessions.skill_id r ≠ k →
              sessions_table db' !! j = Some r)
    ∧ (∀ j r, sessions_table db' !! j = Some r → sessions_table db !! j = Some r)
    ∧ skills_seq db' = skills_seq db
    ∧ sessions_seq db' = sessions_seq db
    ∧ (∀ w1 recs w2,
         conn w1 = Some db' → SkillDatabase.get_progress w1 = Returns recs w2 →
         ∃ rows, select_progress db' = Ok rows
                 ∧ recs = progress_record <$> rows
                 ∧ r0 <$> rows = (scan (skills_table db')).*1
                 ∧ Forall (λ r, r0 r ≠ k) rows).
Proof.
  intros Hc Hv Hk. exists (without_skill k db).
  destruct (valid_database_target db k s Hv Hk) as [Hk64 _].
  split; [by apply delete_skill_in_range|].
  split; [apply lookup_delete_eq|].
  split.
  { intros j r Hj Hr. destruct (sessions_table (without_skill k db) !! j) as [r'|] eqn:Hj'; [|done].
    apply without_skill_sessions in Hj' as [Hj' Hne]. congruence. }
  split; [intros j Hj; by apply lookup_delete_ne|].
  split; [intros j r Hj Hr; by apply without_skill_sessions|].
  split; [intros j r Hj; by apply without_skill_sessions in Hj as [? _]|].
  split; [done|]. split; [done|].
  intros w1 recs w2 Hc1 Hg.
  pose proof (without_skill_valid k db Hv) as Hv'.
  rewrite (get_progress_unfold w1 _ Hc1) in Hg.
  destruct (select_progress (without_skill k db)) as [rows|e] eqn:Hrows; [|done].
  exists rows. split; [done|].
  rewrite (result_map_Ok _ progress_record) in Hg.
  2:{ intros r Hr. apply progress_dict_Ok.
      pose proof (select_progress_targets _ rows Hv' Hrows) as HF.
      by apply (proj1 (Forall_forall _ _) HF). }
  injection Hg as <- <-. split; [done|].
  apply select_progress_Ok in Hrows as ->.
  split; [by rewrite <-!list_fmap_compose|].
  apply Forall_fmap, Forall_forall. intros [j r] Hj%elem_of_scan. cbn.
  intros ->. cbn in Hj. by rewrite lookup_delete_eq in Hj.
Qed.

Lemma C4_delete_skill_cascade_witness :
  conn (connected sample_database) = Some sample_database
  ∧ valid_database sample_database
  ∧ skills_table sample_database !! 1 = Some (skills.Row "Piano" "Creative" 10)
  ∧ ∃ db',
      SkillDatabase.delete_skill 1 (connected sample_database)
      = Returns tt (World (Some db') [] [] noon)
      ∧ skills_table db' !! 1 = None.
Proof.
  assert (Hv : valid_database sample_database)
    by (apply (bool_decide_unpack _); vm_compute; exact I).
  assert (Hk : skills_table sample_database !! 1
               = Some (skills.Row "Piano" "Creative" 10))
    by (vm_compute; reflexivity).
  split; [reflexivity|]. split; [exact Hv|]. split; [exact Hk|].
  destruct (C4_delete_skill_cascade (connected sample_database) sample_database
              1 (skills.Row "Piano" "Creative" 10) eq_refl Hv Hk)
    as (db' & Hd & Hn & _).
  exists db'. split; [exact Hd|exact Hn].
Defined.

(** After the deletion of skill 1 from the sample database, only the
    record of skill 2 is reported, and the session logged for the
    skill id 7 is still there. *)
Example delete_skill_sample :
  SkillDatabase.delete_skill 1 (connected sample_database)
  = Returns tt (connected (without_skill 1 sample_database))
  ∧ sessions_table (without_skill 1 sample_database)
    = {[ 3 := sessions.Row 7 5 "" "" ]}
  ∧ SkillDatabase.get_progress (connected (without_skill 1 sample_database))
    = Returns [progress_record (ProgressRow 2 "Go" 0 (S754_zero false))]
        (connected (without_skill 1 sample_database)).
Proof. repeat split; vm_compute; reflexivity. Qed.

(** C5. In the database that holds a skill with [target_hours] 10 and
    exactly two sessions for it, of 150 and 300 minutes, [get_progress]
    reports ['Total Practiced'] 7.5 hours and ['Progress %'] 75.0 for
    the skill, whatever the rowids, names, notes and dates are. *)
Theorem C5_example_progress w k name category j1 j2 notes1 date1 notes2 date2
    seq1 seq2 :
  let db :=
    Database {[ k := skills.Row name category 10 ]} seq1
      (<[ j1 := sessions.Row k 150 notes1 date1 ]>
         {[ j2 := sessions.Row k 300 notes2 date2 ]}) seq2 in
  conn w = Some db → valid_database db → j1 ≠ j2 →
  ∃ d, SkillDatabase.get_progress w = Returns [d] w
       ∧ d !! "Skill" = Some (PyStr name)
       ∧ d !! "Target Hours" = Some (PyInt 10)
       ∧ d !! "Total Practiced" = Some (PyFloat float_7_5)
       ∧ d !! "Progress %" = Some (PyFloat float_75)
       ∧ float_equals_ratio float_7_5 15 2
       ∧ float_equals_ratio float_75 75 1.
Proof.
  intros db Hc Hv Hj.
  assert (Hmin : practiced_minutes db k = 450).
  { unfold practiced_minutes, sessions_of, db. cbn [sessions_table].
    rewrite map_filter_insert_True by done.
    rewrite map_filter_singleton_True by done.
    rewrite (sum_Z_Permutation _ (sessions.duration_minutes ∘ snd <$>
      [(j1, sessions.Row k 150 notes1 date1); (j2, sessions.Row k 300 notes2 date2)])).
    - reflexivity.
    - apply fmap_Permutation. rewrite map_to_list_insert
        by (by rewrite lookup_singleton_ne).
      by rewrite map_to_list_singleton. }
  assert (Hfit : sums_fit db).
  { unfold sums_fit. subst db. cbn [skills_table].
    apply map_Forall_singleton. apply running_sums_fit_nonneg.
    - apply Forall_forall. intros d (j & r & Hj' & _ & <-)%durations_in_order_elem.
      cbn [sessions_table] in Hj'.
      apply lookup_insert_Some in Hj' as [[_ <-]|[_ Hj']]; [simpl; lia|].
      apply lookup_singleton_Some in Hj' as [_ <-]. simpl. lia.
    - rewrite practiced_minutes_in_order, Hmin. done. }
  rewrite (get_progress_fit w db Hc Hv Hfit).
  unfold db at 2. cbn [skills_table]. rewrite scan_singleton.
  eexists. split; [reflexivity|]. unfold compose.
  rewrite progress_record_Skill, progress_record_Target,
    progress_record_Total, progress_record_Progress.
  cbn [progress_row_of r1 r2 r3 fst snd skills.name skills.target_hours].
  unfold practiced_hours. rewrite Hmin.
  repeat split; try (vm_compute; reflexivity); vm_compute; lia.
Qed.

Lemma C5_example_progress_witness :
  ∃ d, SkillDatabase.get_progress
         (connected (Database {[ 1 := skills.Row "Piano" "Creative" 10 ]} 1
            (<[ 1 := sessions.Row 1 150 "" "2024-03-08" ]>
               {[ 2 := sessions.Row 1 300 "" "2024-03-09" ]}) 2))
       = Returns [d] (connected (Database {[ 1 := skills.Row "Piano" "Creative" 10 ]} 1
            (<[ 1 := sessions.Row 1 150 "" "2024-03-08" ]>
               {[ 2 := sessions.Row 1 300 "" "2024-03-09" ]}) 2))
       ∧ d !! "Total Practiced" = Some (PyFloat float_7_5)
       ∧ d !! "Progress %" = Some (PyFloat float_75).
Proof.
  destruct (C5_example_progress
              (connected (Database {[ 1 := skills.Row "Piano" "Creative" 10 ]} 1
                 (<[ 1 := sessions.Row 1 150 "" "2024-03-08" ]>
                    {[ 2 := sessions.Row 1 300 "" "2024-03-09" ]}) 2))
              1 "Piano" "Creative" 1 2 "" "2024-03-08" "" "2024-03-09" 1 2)
    as (d & Hg & _ & _ & Ht & Hp & _).
  - reflexivity.
  - apply (bool_decide_unpack _). vm_compute. exact I.
  - lia.
  - exists d. repeat split; assumption.
Defined.

(** C6. For every skill of a database, [get_progress] computes
    ['Progress %'] as the practiced hours divided by [target_hours],
    times 100, rounded to 2 decimal places, when [target_hours] is not
    zero, and as the int 0 when it is zero; the division is never
    reached with a zero divisor, so [get_progress] never raises
    [ZeroDivisionError]. *)
Theorem C6_progress_percent_guarded w db :
  conn w = Some db → valid_database db →
  (∀ msg w', SkillDatabase.get_progress w ≠ Raises (ZeroDivisionError msg) w')
  ∧ (∀ r, in_int64 (r2 r) →
       ∃ d, SkillDatabase.progress_dict r = Ok d
            ∧ d !! "Progress %"
              = Some (if decide (r2 r = 0) then PyInt 0
                      else PyFloat (py_round
                                      (float_mul
                                         (float_div (r3 r) (float_of_int (r2 r)))
                                         (float_of_int 100)) 2)))
  ∧ (∀ recs w', SkillDatabase.get_progress w = Returns recs w' →
       ∀ i k s, scan (skills_table db) !! i = Some (k, s) →
         ∃ d, recs !! i = Some d
              ∧ d !! "Progress %"
                = Some (if decide (skills.target_hours s = 0) then PyInt 0
                        else PyFloat (py_round
                                        (float_mul
                                           (float_div (practiced_hours db k)
                                              (float_of_int (skills.target_hours s)))
                                           (float_of_int 100)) 2))).
Proof.
  intros Hc Hv. split; [|split].
  - intros msg w' H. by destruct (get_progress_cases w db Hc Hv) as [H'|H'];
      rewrite H' in H.
  - intros r Hr. exists (progress_record r). split; [by apply progress_dict_Ok|].
    by rewrite progress_record_Progress.
  - intros recs w' H i k s Hi.
    destruct (get_progress_cases w db Hc Hv) as [H'|H']; rewrite H' in H; [|done].
    injection H as <- <-. eexists. rewrite list_lookup_fmap, Hi.
    split; [done|]. unfold compose. by rewrite progress_record_Progress.
Qed.

Lemma C6_progress_percent_guarded_witness :
  conn (connected sample_database) = Some sample_database
  ∧ valid_database sample_database
  ∧ (∃ d, SkillDatabase.progress_dict (ProgressRow 2 "Go" 0 (S754_zero false)) = Ok d
          ∧ d !! "Progress %" = Some (PyInt 0))
  ∧ (∃ d, SkillDatabase.progress_dict (ProgressRow 1 "Piano" 10 float_7_5) = Ok d
          ∧ d !! "Progress %"
            = Some (PyFloat (py_round
                               (float_mul (float_div float_7_5 (float_of_int 10))
                                  (float_of_int 100)) 2))).
Proof.
  assert (Hv : valid_database sample_database)
    by (apply (bool_decide_unpack _); vm_compute; exact I).
  split; [reflexivity|]. split; [exact Hv|].
  destruct (C6_progress_percent_guarded (connected sample_database)
              sample_database eq_refl Hv) as (_ & H & _).
  split.
  - destruct (H (ProgressRow 2 "Go" 0 (S754_zero false))) as (d & Hd & Hp);
      [vm_compute; exact I|].
    exists d. split; [exact Hd|exact Hp].
  - destruct (H (ProgressRow 1 "Piano" 10 float_7_5)) as (d & Hd & Hp);
      [vm_compute; exact I|].
    exists d. split; [exact Hd|exact Hp].
Defined.

(** The records of the sample database: 75.0 percent of a target of 10
    hours, and the int 0 for a target of 0. *)
Example get_progress_sample :
  SkillDatabase.get_progress (connected sample_database)
  = Returns
      (progress_record <$>
         [ProgressRow 1 "Piano" 10 float_7_5; ProgressRow 2 "Go" 0 (S754_zero false)])
      (connected sample_database)
  ∧ progress_record (ProgressRow 1 "Piano" 10 float_7_5) !! "Progress %"
    = Some (PyFloat float_75)
  ∧ progress_record (ProgressRow 2 "Go" 0 (S754_zero false)) !! "Progress %"
    = Some (PyInt 0).
Proof. repeat split; vm_compute; reflexivity. Qed.

(** C7. For every run of menu option 1 where the target hours typed
    are not a valid integer, and every run of menu option 2 where the
    skill id or the duration typed is not a valid integer, the
    [ValueError] is caught inside the turn, the message of the option
    is printed ("Invalid input for target hours." for option 1), the
    menu goes on, and the connection with its database is left as it
    was: no statement is executed, so no row is stored. *)
Theorem C7_invalid_integer_rejected float_str int_non_ascii w prompts msg
    rest t :
  invalid_entry int_non_ascii (stdin w) prompts msg rest t →
  SkillTracker.turn float_str int_non_ascii w
  = Returns true
      (World (conn w) rest (stdout w ++ menu_lines ++ prompts ++ [msg]) t).
Proof.
  destruct w as [c i o k]. cbn [stdin conn stdout].
  intros H. inversion H as
    [t1 t2 t3 t4 name category target rest' Hpy
    |t1 t2 sid rest' Hpy
    |t1 t2 t3 sid dur rest' [z Hz] Hpy]; subst.
  - unfold SkillTracker.turn, SkillTracker.print_menu, SkillTracker.option_1,
      try_except, input, print, int, raise, mbind, M_bind, mret, M_ret.
    cbn -[py_int]. rewrite decide_True by done.
    cbn -[py_int]. rewrite Hpy. cbn. by rewrite <-!app_assoc.
  - unfold SkillTracker.turn, SkillTracker.print_menu, SkillTracker.option_2,
      try_except, input, print, int, raise, mbind, M_bind, mret, M_ret.
    cbn -[py_int]. rewrite decide_False, decide_True by done.
    cbn -[py_int]. rewrite Hpy. cbn. by rewrite <-!app_assoc.
  - unfold SkillTracker.turn, SkillTracker.print_menu, SkillTracker.option_2,
      try_except, input, print, int, raise, mbind, M_bind, mret, M_ret.
    cbn -[py_int]. rewrite decide_False, decide_True by done.
    cbn -[py_int]. rewrite Hz. cbn -[py_int]. rewrite Hpy. cbn.
    by rewrite <-!app_assoc.
Qed.

Lemma C7_invalid_integer_rejected_witness :
  invalid_entry (λ _, None)
    (stdin (World (Some sample_database)
              (typed ["1"; "Chess"; "Games"; "ten"; "5"]) [] noon))
    ["Skill Name: "; "Category (Tech, Creative, etc.): "; "Target Hours: "]
    "Invalid input for target hours." (typed ["5"]) noon
  ∧ SkillTracker.turn (λ _, "") (λ _, None)
      (World (Some sample_database)
         (typed ["1"; "Chess"; "Games"; "ten"; "5"]) [] noon)
    = Returns true
        (World (Some sample_database) (typed ["5"])
           ([] ++ menu_lines
               ++ ["Skill Name: "; "Category (Tech, Creative, etc.): ";
                   "Target Hours: "]
               ++ ["Invalid input for target hours."]) noon).
Proof.
  assert (H : invalid_entry (λ _, None)
    (stdin (World (Some sample_database)
              (typed ["1"; "Chess"; "Games"; "ten"; "5"]) [] noon))
    ["Skill Name: "; "Category (Tech, Creative, etc.): "; "Target Hours: "]
    "Invalid input for target hours." (typed ["5"]) noon)
    by (apply bad_target_hours; vm_compute; reflexivity).
  split; [exact H|].
  exact (C7_invalid_integer_rejected (λ _, "") (λ _, None) _ _ _ _ _ H).
Defined.

(** The other two entries that option 2 rejects. *)
Example invalid_session_entries float_str int_non_ascii :
  SkillTracker.turn float_str int_non_ascii
    (World (Some sample_database) (typed ["2"; "one"; "30"]) [] noon)
  = Returns true
      (World (Some sample_database) (typed ["30"])
         (menu_lines ++ ["Skill ID: "]
            ++ ["Invalid input. Please enter numbers where required."]) noon)
  ∧ SkillTracker.turn float_str int_non_ascii
      (World (Some sample_database) (typed ["2"; "1"; "1.5"; "notes"]) [] noon)
    = Returns true
        (World (Some sample_database) (typed ["notes"])
           (menu_lines ++ ["Skill ID: "; "Duration (in minutes): "]
              ++ ["Invalid input. Please enter numbers where required."]) noon).
Proof. split; vm_compute; reflexivity. Qed.

(** What [int] makes of some ASCII lines: blanks are skipped at both
    ends, single underscores may separate digits, and a control
    character such as the file separator (code 28) is not a blank. *)
Example int_of_ascii_lines int_non_ascii :
  py_int int_non_ascii " 12 " = Some 12
  ∧ py_int int_non_ascii "-0" = Some 0
  ∧ py_int int_non_ascii "1_000" = Some 1000
  ∧ py_int int_non_ascii "+ 5" = None
  ∧ py_int int_non_ascii "1__0" = None
  ∧ py_int int_non_ascii "" = None
  ∧ py_int int_non_ascii (String (ascii_of_N 28) "7") = None
  ∧ py_int int_non_ascii (String (ascii_of_N 0) "7") = None
  ∧ py_int int_non_ascii (String (ascii_of_N 11) "7") = Some 7.
Proof. repeat split; vm_compute; reflexivity. Qed.

(** C8, as amended. For every run of menu option 2 where the skill id
    and the duration typed are integers in the signed 64-bit range, the
    sessions table can still hand out a rowid, the date prompt receives
    the empty string and the year of the clock has four digits, the
    session row is stored under a new rowid with its date field equal
    to the date of the clock at the time the empty line was entered,
    written as the ISO string "YYYY-MM-DD". *)
Theorem C8_empty_date_defaults float_str int_non_ascii w db t1 t2 t3 t4 t5
    skill_id_line duration_line skill_id duration notes rest :
  stdin w = (t1, "2") :: (t2, skill_id_line) :: (t3, duration_line)
            :: (t4, notes) :: (t5, "") :: rest →
  conn w = Some db →
  py_int int_non_ascii skill_id_line = Some skill_id →
  py_int int_non_ascii duration_line = Some duration →
  in_int64 skill_id → in_int64 duration →
  has_room (sessions_table db) (sessions_seq db) →
  valid_datetime t5 → 1000 ≤ year t5 →
  ∃ v,
    SkillTracker.turn float_str int_non_ascii w
    = Returns true
        (World
           (Some (with_session v skill_id duration notes
                    (iso_date (year t5) (month t5) (day t5)) db))
           rest
           (stdout w ++ menu_lines
              ++ ["Skill ID: "; "Duration (in minutes): "; "Notes: ";
                  "Date (YYYY-MM-DD): "])
           t5)
    ∧ sessions_table db !! v = None
    ∧ sessions_table (with_session v skill_id duration notes
                        (iso_date (year t5) (month t5) (day t5)) db) !! v
      = Some (sessions.Row skill_id duration notes
                (iso_date (year t5) (month t5) (day t5)))
    ∧ String.length (iso_date (year t5) (month t5) (day t5)) = 10%nat.
Proof.
  intros Hin Hc Hsid Hdur Hs64%in_int64_true Hd64%in_int64_true Hroom Ht Hy.
  destruct (new_rowid_room _ _ Hroom) as [v Hnew]. exists v.
  destruct (new_rowid_above _ _ _ Hnew) as (Hfresh & _).
  split; [|split; [done|split; [apply lookup_insert_eq|done]]].
  destruct w as [c i o k]. cbn [stdin conn stdout] in *. subst c i.
  unfold SkillTracker.turn, SkillTracker.print_menu, SkillTracker.option_2,
    SkillDatabase.log_session, SkillDatabase.execute, SkillDatabase.commit,
    SkillDatabase.conn_cursor, set_conn, lift, datetime_now,
    try_except, input, print, int, raise, mbind, M_bind, mret, M_ret.
  cbn -[py_int new_rowid in_int64 strftime_Y_m_d insert_session].
  rewrite decide_False, decide_True by done.
  cbn -[py_int new_rowid in_int64 strftime_Y_m_d insert_session].
  rewrite Hsid. cbn -[py_int new_rowid in_int64 strftime_Y_m_d insert_session].
  rewrite Hdur. cbn -[py_int new_rowid in_int64 strftime_Y_m_d insert_session].
  unfold insert_session, bind_int. rewrite Hs64, Hd64.
  cbn -[new_rowid strftime_Y_m_d]. rewrite Hnew.
  cbn -[strftime_Y_m_d]. rewrite (strftime_iso t5 Ht Hy).
  unfold with_session. by rewrite <-!app_assoc.
Qed.

Lemma C8_empty_date_defaults_witness :
  valid_datetime noon ∧ 1000 ≤ year noon
  ∧ has_room (sessions_table sample_database) (sessions_seq sample_database)
  ∧ ∃ v,
      SkillTracker.turn (λ _, "") (λ _, None)
        (World (Some sample_database) (typed ["2"; "1"; "45"; "scales"; ""; "5"])
           [] noon)
      = Returns true
          (World
             (Some (with_session v 1 45 "scales"
                      (iso_date (year noon) (month noon) (day noon))
                      sample_database))
             (typed ["5"])
             ([] ++ menu_lines
                 ++ ["Skill ID: "; "Duration (in minutes): "; "Notes: ";
                     "Date (YYYY-MM-DD): "])
             noon).
Proof.
  assert (Ht : valid_datetime noon) by (vm_compute; intuition discriminate).
  assert (Hr : has_room (sessions_table sample_database)
                 (sessions_seq sample_database)).
  { split; [vm_compute; discriminate|].
    apply (bool_decide_unpack _). vm_compute. exact I. }
  assert (Hy : 1000 ≤ year noon) by (vm_compute; discriminate).
  split; [exact Ht|]. split; [exact Hy|]. split; [exact Hr|].
  destruct (C8_empty_date_defaults (λ _, "") (λ _, None)
              (World (Some sample_database)
                 (typed ["2"; "1"; "45"; "scales"; ""; "5"]) [] noon)
              sample_database noon noon noon noon noon "1" "45" 1 45 "scales"
              (typed ["5"]) eq_refl eq_refl eq_refl eq_refl I I Hr Ht
              Hy)
    as (v & Hturn & _).
  exists v. exact Hturn.
Defined.

(** The stored date of the sample run is "2024-03-09". *)
Example empty_date_sample float_str int_non_ascii :
  SkillTracker.turn float_str int_non_ascii
    (World (Some sample_database) (typed ["2"; "1"; "45"; "scales"; ""; "5"])
       [] noon)
  = Returns true
      (World (Some (with_session 4 1 45 "scales" "2024-03-09" sample_database))
         (typed ["5"])
         (menu_lines
            ++ ["Skill ID: "; "Duration (in minutes): "; "Notes: ";
                "Date (YYYY-MM-DD): "])
         noon)
  ∧ iso_date 2024 3 9 = "2024-03-09".
Proof. intros. split; vm_compute; reflexivity. Qed.

(** Whatever the interpreter makes of floats and of lines that are
    not ASCII, a skill id of [2 ^ 63] at option 2 raises
    [OverflowError] out of the turn. *)
Example huge_skill_id_sample float_str int_non_ascii :
  py_int int_non_ascii "9223372036854775808" = Some (2 ^ 63)
  ∧ SkillTracker.turn float_str int_non_ascii
      (World (Some sample_database)
         (typed ["2"; "9223372036854775808"; "45"; "scales"; ""; "5"]) [] noon)
    = Raises (OverflowError "Python int too large to convert to SQLite INTEGER")
        (World (Some sample_database) (typed ["5"])
           (menu_lines
              ++ ["Skill ID: "; "Duration (in minutes): "; "Notes: ";
                  "Date (YYYY-MM-DD): "])
           noon).
Proof. split; vm_compute; reflexivity. Qed.

(** C8 fails as stated: with the skill id [2 ^ 63] typed and an empty
    date line, [log_session] raises [OverflowError], which no handler
    of the turn catches; no row is stored. *)
Lemma C8_counterexample :
  py_int (λ _, None) "9223372036854775808" = Some (2 ^ 63)
  ∧ SkillTracker.turn (λ _, "") (λ _, None)
      (World (Some sample_database)
         (typed ["2"; "9223372036854775808"; "45"; "scales"; ""; "5"]) [] noon)
    = Raises (OverflowError "Python int too large to convert to SQLite INTEGER")
        (World (Some sample_database) (typed ["5"])
           (menu_lines
              ++ ["Skill ID: "; "Duration (in minutes): "; "Notes: ";
                  "Date (YYYY-MM-DD): "])
           noon).
Proof. exact (huge_skill_id_sample (λ _, "") (λ _, None)). Qed.

(** C9, as amended. For every skill that [add_skill] is given with name
    [N] and a [target_hours] [T] in the signed 64-bit range, on a
    skills table that can still hand out a rowid, the row is stored
    under a new rowid; whenever no running sum of a skill's durations
    (taken by ascending duration, as the join meets them) leaves the
    64-bit range, a subsequent [get_progress] returns a record for the
    skill with ['Skill'] = [N] and ['Target Hours'] = [T], and so does
    every subsequent [get_progress] that returns. *)
Theorem C9_round_trip w db i N C T :
  conn w = Some db → valid_database db → in_int64 T →
  has_room (skills_table db) (skills_seq db) →
  ∃ v,
    SkillDatabase.add_skill (Skill.new i N C T) w
    = Returns tt (stored (with_skill v N C T db) w)
    ∧ skills_table db !! v = None
    ∧ skills_table (with_skill v N C T db) !! v = Some (skills.Row N C T)
    ∧ (∀ w1, conn w1 = Some (with_skill v N C T db) →
         (sums_fit (with_skill v N C T db) →
          ∃ recs, SkillDatabase.get_progress w1 = Returns recs w1
                  ∧ reports_skill (with_skill v N C T db) recs v N T)
         ∧ (∀ recs w2, SkillDatabase.get_progress w1 = Returns recs w2 →
              reports_skill (with_skill v N C T db) recs v N T)
         ∧ (¬ sums_fit (with_skill v N C T db) →
            SkillDatabase.get_progress w1
            = Raises (sqlite3_Error "integer overflow") w1)).
Proof.
  intros Hc Hv HT Hroom.
  destruct (new_rowid_room _ _ Hroom) as [v Hnew]. exists v.
  destruct (new_rowid_above _ _ _ Hnew) as (Hfresh & _).
  split.
  { rewrite (add_skill_unfold w db _ Hc). cbn.
    unfold insert_skill, bind_int. rewrite (in_int64_true T HT). cbn.
    by rewrite Hnew. }
  split; [done|]. split; [apply lookup_insert_eq|].
  intros w1 Hc1.
  pose proof (with_skill_valid v N C T db Hv HT Hnew) as Hv1.
  set (db1 := with_skill v N C T db) in *.
  assert (Hrep : reports_skill db1
            (progress_record ∘ progress_row_of db1 <$> scan (skills_table db1))
            v N T).
  { assert ((v, skills.Row N C T) ∈ scan (skills_table db1)) as Hin
      by (apply elem_of_scan, lookup_insert_eq).
    apply list_elem_of_lookup in Hin as [pos Hpos].
    exists pos, (skills.Row N C T). eexists. split; [done|].
    rewrite list_lookup_fmap, Hpos. done. }
  split; [|split].
  - intros Hfit. eexists. split; [by apply get_progress_fit|done].
  - intros recs w2 Hg.
    destruct (get_progress_cases w1 db1 Hc1 Hv1) as [H|H]; rewrite H in Hg; [|done].
    by injection Hg as <- <-.
  - intros Hnfit.
    destruct (get_progress_cases w1 db1 Hc1 Hv1) as [H|H]; [|done].
    destruct Hnfit. unfold sums_fit. apply map_Forall_lookup. intros k s Hk.
    rewrite (get_progress_unfold w1 db1 Hc1) in H.
    destruct (select_progress db1) as [rows|e] eqn:Hrows; [|by destruct e].
    clear H. rewrite select_progress_groups in Hrows.
    apply result_map_Ok_inv, Forall2_fmap_l in Hrows.
    apply elem_of_scan, list_elem_of_lookup in Hk as [pos Hpos].
    destruct (Forall2_lookup_l _ _ _ _ _ Hrows Hpos) as (r & _ & Hr).
    cbn beta in Hr. unfold compose in Hr.
    rewrite select_group_join_block in Hr. cbn [fst] in Hr.
    destruct (durations_in_order db1 k) as [|d ds] eqn:Hds.
    + apply Forall_forall. intros n _. by rewrite take_nil.
    + destruct (decide (running_sums_fit (d :: ds))) as [|Hbad]; [done|].
      exfalso. apply not_Forall_Exists in Hbad; [|apply _].
      apply Exists_exists in Hbad as (n & _ & Hn).
      rewrite (sum_from_overflow (d :: ds) None n) in Hr; [done| |done].
      simpl. by rewrite Z.add_0_l.
Qed.

Lemma C9_round_trip_witness :
  conn (connected empty_database) = Some empty_database
  ∧ valid_database empty_database
  ∧ in_int64 20
  ∧ has_room (skills_table empty_database) (skills_seq empty_database)
  ∧ ∃ v,
      SkillDatabase.add_skill (Skill.new None "Piano" "Creative" 20)
        (connected empty_database)
      = Returns tt
          (stored (with_skill v "Piano" "Creative" 20 empty_database)
             (connected empty_database))
      ∧ skills_table (with_skill v "Piano" "Creative" 20 empty_database) !! v
        = Some (skills.Row "Piano" "Creative" 20).
Proof.
  assert (Hv : valid_database empty_database)
    by (apply (bool_decide_unpack _); vm_compute; exact I).
  assert (Ht : in_int64 20) by (vm_compute; exact I).
  assert (Hr : has_room (skills_table empty_database) (skills_seq empty_database))
    by (split; [vm_compute; discriminate|apply map_Forall_empty]).
  split; [reflexivity|]. split; [exact Hv|]. split; [exact Ht|]. split; [exact Hr|].
  destruct (C9_round_trip (connected empty_database) empty_database None
              "Piano" "Creative" 20 eq_refl Hv Ht Hr) as (v & Ha & _ & Hl & _).
  exists v. split; [exact Ha|exact Hl].
Defined.

(** The round trip of the specification: "Piano", "Creative", 20 on a
    new database. *)
Example round_trip_piano :
  SkillDatabase.add_skill (Skill.new None "Piano" "Creative" 20)
    (connected empty_database)
  = Returns tt (connected (with_skill 1 "Piano" "Creative" 20 empty_database))
  ∧ SkillDatabase.get_progress
      (connected (with_skill 1 "Piano" "Creative" 20 empty_database))
    = Returns [progress_record (ProgressRow 1 "Piano" 20 (S754_zero false))]
        (connected (with_skill 1 "Piano" "Creative" 20 empty_database))
  ∧ progress_record (ProgressRow 1 "Piano" 20 (S754_zero false)) !! "Skill"
    = Some (PyStr "Piano")
  ∧ progress_record (ProgressRow 1 "Piano" 20 (S754_zero false)) !! "Target Hours"
    = Some (PyInt 20)
  ∧ progress_record (ProgressRow 1 "Piano" 20 (S754_zero false)) !! "Total Practiced"
    = Some (PyFloat (S754_zero false))
  ∧ progress_record (ProgressRow 1 "Piano" 20 (S754_zero false)) !! "Progress %"
    = Some (PyFloat (S754_zero false)).
Proof. repeat split; vm_compute; reflexivity. Qed.

(** C9 fails as stated: on the database whose first skill has sessions
    of [2 ^ 63 - 1] minutes and 1 minute, a second skill is added and
    stored, and the subsequent [get_progress] raises instead of
    returning a record for it; and a target of [2 ^ 63] is not stored
    at all, [add_skill] raising [OverflowError]. *)
Lemma C9_counterexample :
  SkillDatabase.add_skill (Skill.new None "Guitar" "Creative" 20)
    (connected overflow_database)
  = Returns tt (connected (with_skill 2 "Guitar" "Creative" 20 overflow_database))
  ∧ skills_table (with_skill 2 "Guitar" "Creative" 20 overflow_database) !! 2
    = Some (skills.Row "Guitar" "Creative" 20)
  ∧ SkillDatabase.get_progress
      (connected (with_skill 2 "Guitar" "Creative" 20 overflow_database))
    = Raises (sqlite3_Error "integer overflow")
        (connected (with_skill 2 "Guitar" "Creative" 20 overflow_database))
  ∧ (¬ ∃ recs w2,
        SkillDatabase.get_progress
          (connected (with_skill 2 "Guitar" "Creative" 20 overflow_database))
        = Returns recs w2)
  ∧ SkillDatabase.add_skill (Skill.new None "Piano" "Creative" (2 ^ 63))
      (connected empty_database)
    = Raises (OverflowError "Python int too large to convert to SQLite INTEGER")
        (connected empty_database).
Proof.
  assert (H : SkillDatabase.get_progress
      (connected (with_skill 2 "Guitar" "Creative" 20 overflow_database))
    = Raises (sqlite3_Error "integer overflow")
        (connected (with_skill 2 "Guitar" "Creative" 20 overflow_database)))
    by (vm_compute; reflexivity).
  split; [vm_compute; reflexivity|]. split; [vm_compute; reflexivity|].
  split; [exact H|]. split; [|vm_compute; reflexivity].
  intros (recs & w2 & Hg). rewrite H in Hg. discriminate Hg.
Qed.

(** C10. [add_skill] and [log_session] ignore the [id] field of the
    record they are given: the outcome is the same for every value of
    the field, [None] and identifiers in use included. When a row is
    inserted its rowid is the one AUTOINCREMENT hands out, which is not
    in use, lies above every rowid of the table and above the sequence
    entry, and so differs from any identifier in use that the record
    may carry. *)
Theorem C10_record_id_ignored w db :
  conn w = Some db →
  (∀ w0 i i' n c t,
     SkillDatabase.add_skill (Skill.new i n c t) w0
     = SkillDatabase.add_skill (Skill.new i' n c t) w0)
  ∧ (∀ w0 i i' k d n dt,
       SkillDatabase.log_session (PracticeSession.new i k d n dt) w0
       = SkillDatabase.log_session (PracticeSession.new i' k d n dt) w0)
  ∧ (∀ i n c t,
       (¬ in_int64 t
        ∧ ∃ msg, SkillDatabase.add_skill (Skill.new i n c t) w
                 = Raises (OverflowError msg) w)
       ∨ (new_rowid (skills_table db) (skills_seq db) = Raise SQLITE_FULL
          ∧ SkillDatabase.add_skill (Skill.new i n c t) w
            = Returns tt
                (printed "Failed to add skill: database or disk is full" w))
       ∨ (∃ v, new_rowid (skills_table db) (skills_seq db) = Ok v
               ∧ SkillDatabase.add_skill (Skill.new i n c t) w
                 = Returns tt (stored (with_skill v n c t db) w)
               ∧ skills_table db !! v = None
               ∧ skills_seq db < v
               ∧ (∀ j, is_Some (skills_table db !! j) → j < v)
               ∧ (∀ j, i = Some j → is_Some (skills_table db !! j) → v ≠ j)))
  ∧ (∀ i k d n dt,
       (¬ (in_int64 k ∧ in_int64 d)
        ∧ ∃ msg, SkillDatabase.log_session (PracticeSession.new i k d n dt) w
                 = Raises (OverflowError msg) w)
       ∨ (new_rowid (sessions_table db) (sessions_seq db) = Raise SQLITE_FULL
          ∧ SkillDatabase.log_session (PracticeSession.new i k d n dt) w
            = Returns tt
                (printed "Failed to log session: database or disk is full" w))
       ∨ (∃ v, new_rowid (sessions_table db) (sessions_seq db) = Ok v
               ∧ SkillDatabase.log_session (PracticeSession.new i k d n dt) w
                 = Returns tt (stored (with_session v k d n dt db) w)
               ∧ sessions_table db !! v = None
               ∧ sessions_seq db < v
               ∧ (∀ j, is_Some (sessions_table db !! j) → j < v)
               ∧ (∀ j, i = Some j → is_Some (sessions_table db !! j) → v ≠ j))).
Proof.
  intros Hc. split; [done|]. split; [done|]. split.
  - intros i n c t. rewrite (add_skill_unfold w db _ Hc). cbn.
    destruct (insert_skill_cases n c t db)
      as [[Ht [msg ->]]|[(Ht & Hfull & ->)|(Ht & v & Hv & ->)]].
    + left. eauto.
    + right. left. done.
    + right. right. exists v.
      destruct (new_rowid_above _ _ _ Hv) as (Hf & Hs & Ha & _).
      repeat (split; [done|]). intros j _ Hj. specialize (Ha j Hj). lia.
  - intros i k d n dt. rewrite (log_session_unfold w db _ Hc). cbn.
    destruct (insert_session_cases k d n dt db)
      as [[Ht [msg ->]]|[(Hk & Hd & Hfull & ->)|(Hk & Hd & v & Hv & ->)]].
    + left. eauto.
    + right. left. done.
    + right. right. exists v.
      destruct (new_rowid_above _ _ _ Hv) as (Hf & Hs & Ha & _).
      repeat (split; [done|]). intros j _ Hj. specialize (Ha j Hj). lia.
Qed.

Lemma C10_record_id_ignored_witness :
  SkillDatabase.add_skill (Skill.new (Some 1) "Chess" "Games" 5)
    (connected sample_database)
  = SkillDatabase.add_skill (Skill.new None "Chess" "Games" 5)
      (connected sample_database)
  ∧ SkillDatabase.add_skill (Skill.new (Some 1) "Chess" "Games" 5)
      (connected sample_database)
    = Returns tt (connected (with_skill 3 "Chess" "Games" 5 sample_database)).
Proof.
  destruct (C10_record_id_ignored (connected sample_database) sample_database
              eq_refl) as (Ha & _ & _ & _).
  split; [apply Ha|]. vm_compute. reflexivity.
Defined.

(** * Further properties *)

(** ** Invariants of the store *)

Lemma keeps_ret {A} I (a : A) : keeps I (mret a).
Proof. intros w Hw. exact Hw. Qed.

Lemma keeps_raise {A} I e : keeps I (@raise A e).
Proof. intros w Hw. exact Hw. Qed.

Lemma keeps_bind {A B} I (m : M A) (k : A → M B) :
  keeps I m → (∀ a, keeps I (k a)) → keeps I (m ≫= k).
Proof.
  intros Hm Hk w Hw. specialize (Hm w Hw). unfold mbind, M_bind.
  destruct (m w) as [a w1|e w1]; [|exact Hm]. by apply Hk.
Qed.

Lemma keeps_lift {A} I (r : result A) : keeps I (lift r).
Proof. intros w Hw. unfold lift. by destruct r. Qed.

Lemma keeps_print I s : keeps I (print s).
Proof. intros w Hw. exact Hw. Qed.

Lemma keeps_input I p : keeps I (input p).
Proof. intros w Hw. unfold input. by destruct (stdin w) as [|[t l] rest]. Qed.

Lemma keeps_int I int_non_ascii s : keeps I (int int_non_ascii s).
Proof. intros w Hw. unfold int. by destruct (py_int int_non_ascii s). Qed.

Lemma keeps_datetime_now I : keeps I datetime_now.
Proof. intros w Hw. exact Hw. Qed.

Lemma keeps_conn_cursor I : keeps I SkillDatabase.conn_cursor.
Proof. intros w Hw. unfold SkillDatabase.conn_cursor. by destruct (conn w). Qed.

Lemma keeps_try_except {A} I (body : M A) clause :
  keeps I body → (∀ e h, clause e = Some h → keeps I h) →
  keeps I (try_except body clause).
Proof.
  intros Hb Hc w Hw. specialize (Hb w Hw). unfold try_except.
  destruct (body w) as [a w1|e w1]; [exact Hb|].
  destruct (clause e) as [h|] eqn:Hh; [|exact Hb].
  by apply (Hc e h Hh).
Qed.

Lemma keeps_except_sqlite3_Error {A} I (handler : string → M A) e h :
  (∀ msg, keeps I (handler msg)) →
  except_sqlite3_Error handler e = Some h → keeps I h.
Proof. intros Hh. destruct e; simpl; try done. by intros [= <-]. Qed.

Lemma keeps_except_ValueError {A} I (handler : M A) e h :
  keeps I handler → except_ValueError handler e = Some h → keeps I h.
Proof. intros Hh. destruct e; simpl; try done. by intros [= <-]. Qed.

Lemma keeps_execute I statement :
  statement_keeps I statement → keeps I (SkillDatabase.execute statement).
Proof.
  intros Hs w Hw. unfold SkillDatabase.execute, SkillDatabase.conn_cursor,
    set_conn, lift, mbind, M_bind.
  destruct (conn w) as [db|] eqn:Hc; [|exact Hw].
  destruct (statement db) as [db'|e] eqn:Hst; [|exact Hw].
  intros db'' [= <-]. by apply (Hs db db'); [apply Hw|].
Qed.

Create HintDb keeps.
#[local] Hint Resolve keeps_ret keeps_raise keeps_lift keeps_print keeps_input
  keeps_int keeps_datetime_now keeps_conn_cursor : keeps.

Ltac keeps_step :=
  match goal with
  | |- keeps _ (_ ≫= _) => apply keeps_bind; [|intros ?]
  | |- keeps _ (try_except _ (except_sqlite3_Error _)) =>
      apply keeps_try_except;
      [|intros ? ?; apply keeps_except_sqlite3_Error; intros ?]
  | |- keeps _ (try_except _ (except_ValueError _)) =>
      apply keeps_try_except;
      [|intros ? ?; apply keeps_except_ValueError]
  | |- keeps _ (SkillDatabase.execute _) => apply keeps_execute
  | |- keeps _ (if ?b then _ else _) => destruct b
  | |- keeps _ (match ?x with _ => _ end) => destruct x
  | |- _ => solve [auto with keeps]
  end.

(** An invariant that the four statements keep is kept by every turn of
    the menu and by the whole loop. *)
Section invariant.
Variable I : database → Prop.
Hypothesis insert_skill_keeps : ∀ n c t, statement_keeps I (insert_skill n c t).
Hypothesis insert_session_keeps :
  ∀ k d n dt, statement_keeps I (insert_session k d n dt).
Hypothesis delete_sessions_keeps : ∀ k, statement_keeps I (delete_sessions k).
Hypothesis delete_skill_row_keeps : ∀ k, statement_keeps I (delete_skill_row k).

Lemma keeps_commit : keeps I SkillDatabase.commit.
Proof. unfold SkillDatabase.commit. repeat keeps_step. Qed.

Lemma keeps_add_skill skill : keeps I (SkillDatabase.add_skill skill).
Proof.
  pose proof keeps_commit. unfold SkillDatabase.add_skill.
  repeat keeps_step; auto.
Qed.

Lemma keeps_log_session session : keeps I (SkillDatabase.log_session session).
Proof.
  pose proof keeps_commit. unfold SkillDatabase.log_session.
  repeat keeps_step; auto.
Qed.

Lemma keeps_delete_skill k : keeps I (SkillDatabase.delete_skill k).
Proof.
  pose proof keeps_commit. unfold SkillDatabase.delete_skill.
  repeat keeps_step; auto.
Qed.

Lemma keeps_get_progress : keeps I SkillDatabase.get_progress.
Proof.
  unfold SkillDatabase.get_progress, SkillDatabase.execute_fetchall.
  repeat keeps_step.
Qed.

Variable float_str : spec_float → string.
Variable int_non_ascii : string → option Z.

Lemma keeps_print_progress progress :
  keeps I (SkillTracker.print_progress float_str progress).
Proof.
  induction progress as [|p rest IH]; cbn [SkillTracker.print_progress];
    [auto with keeps|].
  unfold SkillTracker.getitem. repeat keeps_step.
Qed.

Lemma keeps_turn : keeps I (SkillTracker.turn float_str int_non_ascii).
Proof.
  pose proof keeps_add_skill. pose proof keeps_log_session.
  pose proof keeps_delete_skill. pose proof keeps_get_progress.
  pose proof keeps_print_progress.
  unfold SkillTracker.turn, SkillTracker.print_menu, SkillTracker.option_1,
    SkillTracker.option_2, SkillTracker.option_3, SkillTracker.option_4.
  repeat keeps_step; auto.
Qed.

Lemma keeps_loop fuel w o :
  holds_in I w → SkillTracker.loop float_str int_non_ascii fuel w = Some o →
  holds_in I (final_world o).
Proof.
  revert w. induction fuel as [|fuel IH]; intros w Hw; [done|].
  cbn [SkillTracker.loop]. pose proof (keeps_turn w Hw) as Ht.
  destruct (SkillTracker.turn float_str int_non_ascii w) as [[] w'|e w'].
  - by apply IH.
  - by intros [= <-].
  - by intros [= <-].
Qed.

End invariant.

Lemma insert_skill_Ok n c t db db' :
  insert_skill n c t db = Ok db' →
  in_int64 t ∧ ∃ v, new_rowid (skills_table db) (skills_seq db) = Ok v
                    ∧ db' = with_skill v n c t db.
Proof.
  intros H. destruct (insert_skill_cases n c t db)
    as [[_ [msg Hm]]|[(_ & _ & Hm)|(Ht & v & Hv & Hm)]]; rewrite Hm in H; try done.
  injection H as <-. eauto.
Qed.

Lemma insert_session_Ok k d n dt db db' :
  insert_session k d n dt db = Ok db' →
  in_int64 k ∧ in_int64 d
  ∧ ∃ v, new_rowid (sessions_table db) (sessions_seq db) = Ok v
         ∧ db' = with_session v k d n dt db.
Proof.
  intros H. destruct (insert_session_cases k d n dt db)
    as [[_ [msg Hm]]|[(_ & _ & _ & Hm)|(Hk & Hd & v & Hv & Hm)]];
    rewrite Hm in H; try done.
  injection H as <-. eauto.
Qed.

Lemma delete_sessions_Ok k db db' :
  delete_sessions k db = Ok db' →
  in_int64 k
  ∧ db' = Database (skills_table db) (skills_seq db)
            (filter (λ kr, sessions.skill_id kr.2 ≠ k) (sessions_table db))
            (sessions_seq db).
Proof.
  unfold delete_sessions, bind_int. destruct (in_int64 k) eqn:Hk; [|done].
  cbn. intros [= <-]. split; [exact I|done].
Qed.

Lemma delete_skill_row_Ok k db db' :
  delete_skill_row k db = Ok db' →
  in_int64 k
  ∧ db' = Database (delete k (skills_table db)) (skills_seq db)
            (sessions_table db) (sessions_seq db).
Proof.
  unfold delete_skill_row, bind_int. destruct (in_int64 k) eqn:Hk; [|done].
  cbn. intros [= <-]. split; [exact I|done].
Qed.

Lemma statements_keep_valid_database :
  (∀ n c t, statement_keeps valid_database (insert_skill n c t))
  ∧ (∀ k d n dt, statement_keeps valid_database (insert_session k d n dt))
  ∧ (∀ k, statement_keeps valid_database (delete_sessions k))
  ∧ (∀ k, statement_keeps valid_database (delete_skill_row k)).
Proof.
  split; [|split; [|split]].
  - intros n c t db db' Hv (Ht & v & Hnew & ->)%insert_skill_Ok.
    by apply with_skill_valid.
  - intros k d n dt db db' Hv (Hk & Hd & v & Hnew & ->)%insert_session_Ok.
    by apply with_session_valid.
  - intros k db db' (Hs & Hx & H1 & H2) [_ ->]%delete_sessions_Ok.
    split; [done|split; [|done]]. cbn.
    intros j r [Hj _]%map_lookup_filter_Some. by apply Hx.
  - intros k db db' (Hs & Hx & H1 & H2) [_ ->]%delete_skill_row_Ok.
    split; [|done]. cbn. by apply map_Forall_delete.
Qed.

Lemma statements_keep_sequences_cover :
  (∀ n c t, statement_keeps sequences_cover (insert_skill n c t))
  ∧ (∀ k d n dt, statement_keeps sequences_cover (insert_session k d n dt))
  ∧ (∀ k, statement_keeps sequences_cover (delete_sessions k))
  ∧ (∀ k, statement_keeps sequences_cover (delete_skill_row k)).
Proof.
  split; [|split; [|split]].
  - intros n c t db db' [[H0 Hs] Hx] (Ht & v & Hnew & ->)%insert_skill_Ok.
    destruct (new_rowid_above _ _ _ Hnew) as (_ & Hlt & _).
    split; [|done]. cbn. split; [lia|]. apply map_Forall_insert_2; [lia|].
    intros j r Hj. specialize (Hs j r Hj). cbn in Hs. lia.
  - intros k d n dt db db' [Hs [H0 Hx]] (Hk & Hd & v & Hnew & ->)%insert_session_Ok.
    destruct (new_rowid_above _ _ _ Hnew) as (_ & Hlt & _).
    split; [done|]. cbn. split; [lia|]. apply map_Forall_insert_2; [lia|].
    intros j r Hj. specialize (Hx j r Hj). cbn in Hx. lia.
  - intros k db db' [Hs [H0 Hx]] [_ ->]%delete_sessions_Ok.
    split; [done|]. cbn. split; [done|].
    intros j r [Hj _]%map_lookup_filter_Some. by apply (Hx j r).
  - intros k db db' [[H0 Hs] Hx] [_ ->]%delete_skill_row_Ok.
    split; [|done]. cbn. split; [done|]. by apply map_Forall_delete.
Qed.

(** X1. Whatever is typed at the menu, [run] ends, and the database it
    leaves behind, whether it returns or raises, holds only what SQLite
    can hold (64-bit rowids, sequence entries and INTEGER cells) when
    the database it started with did; and so does every single
    operation of [SkillDatabase]. *)
Theorem X1_run_keeps_valid_database float_str int_non_ascii w :
  holds_in valid_database w →
  (∃ o, SkillTracker.run float_str int_non_ascii w = Some o
        ∧ holds_in valid_database (final_world o))
  ∧ (∀ skill, holds_in valid_database (final_world (SkillDatabase.add_skill skill w)))
  ∧ (∀ session,
       holds_in valid_database (final_world (SkillDatabase.log_session session w)))
  ∧ (∀ k, holds_in valid_database (final_world (SkillDatabase.delete_skill k w)))
  ∧ holds_in valid_database (final_world (SkillDatabase.get_progress w)).
Proof.
  intros Hw. destruct statements_keep_valid_database as (H1 & H2 & H3 & H4).
  split; [|split; [|split; [|split]]].
  - destruct (run_ends float_str int_non_ascii w) as [o Ho]. exists o.
    split; [done|].
    by apply (keeps_loop valid_database H1 H2 H3 H4 float_str int_non_ascii
                (S (length (stdin w))) w o).
  - intros skill. by apply keeps_add_skill.
  - intros session. by apply keeps_log_session.
  - intros k. by apply keeps_delete_skill.
  - by apply keeps_get_progress.
Qed.

Lemma X1_run_keeps_valid_database_witness :
  holds_in valid_database overflow_session
  ∧ ∃ o, SkillTracker.run (λ _, "") (λ _, None) overflow_session = Some o
         ∧ holds_in valid_database (final_world o).
Proof.
  assert (H : holds_in valid_database overflow_session).
  { intros db Hdb. injection Hdb as <-.
    apply (bool_decide_unpack _). vm_compute. exact I. }
  split; [exact H|].
  exact (proj1 (X1_run_keeps_valid_database (λ _, "") (λ _, None)
                  overflow_session H)).
Defined.

(** X2. The sequence entries of AUTOINCREMENT always cover the rowids
    in use: when the entries are not negative and no row of a table
    has a rowid above the table's entry before [run], or before any
    operation of [SkillDatabase], the same holds afterwards, on return
    and on raise. *)
Theorem X2_run_keeps_sequences_cover float_str int_non_ascii w :
  holds_in sequences_cover w →
  (∃ o, SkillTracker.run float_str int_non_ascii w = Some o
        ∧ holds_in sequences_cover (final_world o))
  ∧ (∀ skill, holds_in sequences_cover (final_world (SkillDatabase.add_skill skill w)))
  ∧ (∀ session,
       holds_in sequences_cover (final_world (SkillDatabase.log_session session w)))
  ∧ (∀ k, holds_in sequences_cover (final_world (SkillDatabase.delete_skill k w)))
  ∧ holds_in sequences_cover (final_world (SkillDatabase.get_progress w)).
Proof.
  intros Hw. destruct statements_keep_sequences_cover as (H1 & H2 & H3 & H4).
  split; [|split; [|split; [|split]]].
  - destruct (run_ends float_str int_non_ascii w) as [o Ho]. exists o.
    split; [done|].
    by apply (keeps_loop sequences_cover H1 H2 H3 H4 float_str int_non_ascii
                (S (length (stdin w))) w o).
  - intros skill. by apply keeps_add_skill.
  - intros session. by apply keeps_log_session.
  - intros k. by apply keeps_delete_skill.
  - by apply keeps_get_progress.
Qed.

Lemma X2_run_keeps_sequences_cover_witness :
  holds_in sequences_cover overflow_session
  ∧ ∃ o, SkillTracker.run (λ _, "") (λ _, None) overflow_session = Some o
         ∧ holds_in sequences_cover (final_world o).
Proof.
  assert (H : holds_in sequences_cover overflow_session).
  { intros db Hdb. injection Hdb as <-.
    apply (bool_decide_unpack _). vm_compute. exact I. }
  split; [exact H|].
  exact (proj1 (X2_run_keeps_sequences_cover (λ _, "") (λ _, None)
                  overflow_session H)).
Defined.

(** ** Rowids *)

Lemma new_rowid_cover {R} (t : gmap Z R) seq :
  0 ≤ seq → map_Forall (λ k _, k ≤ seq) t → seq < INT64_MAX →
  new_rowid t seq = Ok (seq + 1).
Proof.
  intros H0 Ht Hseq. unfold new_rowid.
  destruct (last_rowid t) as [m|] eqn:Hm.
  - destruct (last_rowid_Some t m Hm) as [r Hr]. apply Ht in Hr. cbn in Hr.
    assert ((INT64_MAX <=? m) = false) as -> by (apply Z.leb_gt; lia).
    assert ((seq =? INT64_MAX) = false) as -> by (apply Z.eqb_neq; lia).
    f_equal. lia.
  - assert ((seq =? INT64_MAX) = false) as -> by (apply Z.eqb_neq; lia).
    f_equal. lia.
Qed.

Lemma add_skill_cover w db skill :
  conn w = Some db → sequences_cover db →
  in_int64 (Skill.target_hours skill) → skills_seq db < INT64_MAX →
  SkillDatabase.add_skill skill w
  = Returns tt
      (stored (with_skill (skills_seq db + 1) (Skill.name skill)
                 (Skill.category skill) (Skill.target_hours skill) db) w).
Proof.
  intros Hc [[H0 Hs] _] Ht Hseq. rewrite (add_skill_unfold w db skill Hc).
  unfold insert_skill, bind_int. rewrite (in_int64_true _ Ht). cbn.
  by rewrite (new_rowid_cover _ _ H0 Hs Hseq).
Qed.

(** X3. Identifiers are never reused. When the sequence entries cover
    the rowids in use, [add_skill] stores the new skill under the rowid
    one above the sequence entry, which is above every rowid of the
    table; and after [delete_skill k] the next [add_skill] still gets
    that rowid, which is above [k]: the identifier [k] stays free. *)
Theorem X3_rowid_never_reused w db k skill :
  conn w = Some db → sequences_cover db →
  in_int64 k → is_Some (skills_table db !! k) →
  in_int64 (Skill.target_hours skill) → skills_seq db < INT64_MAX →
  SkillDatabase.add_skill skill w
  = Returns tt
      (stored (with_skill (skills_seq db + 1) (Skill.name skill)
                 (Skill.category skill) (Skill.target_hours skill) db) w)
  ∧ (SkillDatabase.delete_skill k;; SkillDatabase.add_skill skill) w
    = Returns tt
        (stored (with_skill (skills_seq db + 1) (Skill.name skill)
                   (Skill.category skill) (Skill.target_hours skill)
                   (without_skill k db)) w)
  ∧ (∀ j, is_Some (skills_table db !! j) → j < skills_seq db + 1)
  ∧ skills_table (with_skill (skills_seq db + 1) (Skill.name skill)
                    (Skill.category skill) (Skill.target_hours skill)
                    (without_skill k db)) !! k = None.
Proof.
  intros Hc Hcov Hk [s Hs] Ht Hseq.
  assert (Hlt : ∀ j, is_Some (skills_table db !! j) → j < skills_seq db + 1).
  { intros j [r Hj]. destruct Hcov as [[_ Hcov] _].
    specialize (Hcov j r Hj). cbn in Hcov. lia. }
  split; [by apply add_skill_cover|]. split; [|split; [done|]].
  - unfold mbind, M_bind. rewrite (delete_skill_in_range w db k Hc Hk).
    rewrite (add_skill_cover _ (without_skill k db)); [done|done| |done|done].
    destruct Hcov as [[H0 Hcov] Hx]. split; [split; [done|]|split; [apply Hx|]].
    + cbn. by apply map_Forall_delete.
    + cbn. intros j r [Hj _]%map_lookup_filter_Some. by apply (proj2 Hx j r).
  - cbn. rewrite lookup_insert_ne; [apply lookup_delete_eq|].
    specialize (Hlt k (ex_intro _ s Hs)). lia.
Qed.

Lemma X3_rowid_never_reused_witness :
  sequences_cover sample_database
  ∧ (SkillDatabase.delete_skill 2;;
     SkillDatabase.add_skill (Skill.new None "Chess" "Games" 5))
      (connected sample_database)
    = Returns tt
        (stored (with_skill (skills_seq sample_database + 1) "Chess" "Games" 5
                   (without_skill 2 sample_database))
           (connected sample_database)).
Proof.
  assert (Hcov : sequences_cover sample_database)
    by (apply (bool_decide_unpack _); vm_compute; exact I).
  split; [exact Hcov|].
  refine (proj1 (proj2 (X3_rowid_never_reused (connected sample_database)
            sample_database 2 (Skill.new None "Chess" "Games" 5)
            eq_refl Hcov _ _ _ _))).
  - vm_compute. exact I.
  - exists (skills.Row "Go" "Tech" 0). vm_compute. reflexivity.
  - vm_compute. exact I.
  - vm_compute. reflexivity.
Defined.

(** ** Sessions and totals *)

Lemma practiced_minutes_with_session v j d n dt db k :
  sessions_table db !! v = None →
  practiced_minutes (with_session v j d n dt db) k
  = practiced_minutes db k + (if decide (k = j) then d else 0).
Proof.
  intros Hv. unfold practiced_minutes, sessions_of, with_session.
  cbn [sessions_table]. destruct (decide (k = j)) as [->|Hne].
  - rewrite map_filter_insert_True by done.
    rewrite (sum_Z_Permutation _
      (sessions.duration_minutes ∘ snd <$>
         (v, sessions.Row j d n dt)
           :: map_to_list (filter (λ kr : Z * sessions.row, sessions.skill_id kr.2 = j)
                             (sessions_table db)))).
    + unfold sum_Z. cbn. lia.
    + apply fmap_Permutation, map_to_list_insert.
      apply map_lookup_filter_None. by left.
  - rewrite map_filter_insert_not' by (cbn; congruence || by rewrite Hv).
    lia.
Qed.

(** X4. [log_session] adds the minutes of the session to the total of
    the skill it names and to no other: after a session of [d] minutes
    for skill id [j] is stored, the sum of [duration_minutes] of every
    skill id [k] is what it was, plus [d] when [k = j]. The row is
    stored whether or not a skill with identifier [j] exists, and the
    skills table is left as it was. On a database SQLite can hold,
    when afterwards no running sum of the query (by ascending
    duration) leaves the 64-bit range, the next [get_progress] reports
    every skill with its new total. This holds for a skill id and a
    duration in the 64-bit range and a sessions table that can still
    hand out a rowid. *)
Theorem X4_log_session_accumulates w db i j d n dt :
  conn w = Some db → in_int64 j → in_int64 d →
  has_room (sessions_table db) (sessions_seq db) →
  ∃ v,
    SkillDatabase.log_session (PracticeSession.new i j d n dt) w
    = Returns tt (stored (with_session v j d n dt db) w)
    ∧ sessions_table db !! v = None
    ∧ skills_table (with_session v j d n dt db) = skills_table db
    ∧ (∀ k, practiced_minutes (with_session v j d n dt db) k
            = practiced_minutes db k + (if decide (k = j) then d else 0))
    ∧ (∀ w1, conn w1 = Some (with_session v j d n dt db) →
         valid_database db → sums_fit (with_session v j d n dt db) →
         ∃ recs,
           SkillDatabase.get_progress w1 = Returns recs w1
           ∧ ∀ pos k s, scan (skills_table db) !! pos = Some (k, s) →
               ∃ r, recs !! pos = Some r
                 ∧ r !! "Total Practiced"
                   = Some (PyFloat (py_round
                       (float_div
                          (float_of_int
                             (practiced_minutes db k
                              + (if decide (k = j) then d else 0)))
                          (float_of_int 60)) 2))).
Proof.
  intros Hc Hj Hd Hroom.
  destruct (new_rowid_room _ _ Hroom) as [v Hnew]. exists v.
  destruct (new_rowid_above _ _ _ Hnew) as (Hfresh & _).
  split.
  { rewrite (log_session_unfold w db _ Hc). cbn.
    unfold insert_session, bind_int.
    rewrite (in_int64_true j Hj), (in_int64_true d Hd). cbn. by rewrite Hnew. }
  split; [done|]. split; [done|].
  split; [intros k; by apply practiced_minutes_with_session|].
  intros w1 Hc1 Hv Hfit.
  pose proof (with_session_valid v j d n dt db Hv Hj Hd Hnew) as Hv1.
  eexists. split; [by apply get_progress_fit|].
  intros pos k s Hpos. eexists. cbn [skills_table with_session].
  rewrite list_lookup_fmap, Hpos. split; [done|].
  unfold compose. rewrite progress_record_Total.
  cbn [r3 progress_row_of fst]. unfold practiced_hours.
  by rewrite practiced_minutes_with_session.
Qed.

Lemma X4_log_session_accumulates_witness :
  has_room (sessions_table sample_database) (sessions_seq sample_database)
  ∧ ∃ v,
      SkillDatabase.log_session (PracticeSession.new None 7 25 "" "2024-03-09")
        (connected sample_database)
      = Returns tt
          (stored (with_session v 7 25 "" "2024-03-09" sample_database)
             (connected sample_database))
      ∧ sessions_table sample_database !! v = None.
Proof.
  assert (Hr : has_room (sessions_table sample_database)
                 (sessions_seq sample_database)).
  { split; [vm_compute; discriminate|].
    apply (bool_decide_unpack _). vm_compute. exact I. }
  split; [exact Hr|].
  destruct (X4_log_session_accumulates (connected sample_database)
              sample_database None 7 25 "" "2024-03-09" eq_refl I I Hr)
    as (v & H1 & H2 & _).
  exists v. split; [exact H1|exact H2].
Defined.

(** ** When [get_progress] returns *)

Lemma select_progress_Ok_fit db rows :
  select_progress db = Ok rows → sums_fit db.
Proof.
  intros Hrows. unfold sums_fit. apply map_Forall_lookup. intros k s Hk.
  rewrite select_progress_groups in Hrows.
  apply result_map_Ok_inv, Forall2_fmap_l in Hrows.
  apply elem_of_scan, list_elem_of_lookup in Hk as [pos Hpos].
  destruct (Forall2_lookup_l _ _ _ _ _ Hrows Hpos) as (r & _ & Hr).
  cbn beta in Hr. unfold compose in Hr.
  rewrite select_group_join_block in Hr. cbn [fst] in Hr.
  destruct (durations_in_order db k) as [|d ds] eqn:Hds.
  - apply Forall_forall. intros n _. by rewrite take_nil.
  - destruct (decide (running_sums_fit (d :: ds))) as [|Hbad]; [done|].
    exfalso. apply not_Forall_Exists in Hbad; [|apply _].
    apply Exists_exists in Hbad as (n & _ & Hn).
    rewrite (sum_from_overflow (d :: ds) None n) in Hr; [done| |done].
    simpl. by rewrite Z.add_0_l.
Qed.

(** ** The running sums of an ascending list *)

Lemma StronglySorted_filter {A} (R : relation A) (P : A → Prop)
    `{∀ x, Decision (P x)} l :
  StronglySorted R l → StronglySorted R (filter P l).
Proof.
  induction 1 as [|x l Hl IH Hx]; [constructor|].
  rewrite filter_cons. destruct (decide (P x)); [|done].
  constructor; [done|]. apply Forall_forall. intros y [_ Hy]%list_elem_of_filter.
  by apply (proj1 (Forall_forall _ _) Hx).
Qed.

Lemma index_durations_sorted (l : list (Z * sessions.row)) k :
  Forall (λ x, k = sessions.skill_id x.2) l →
  StronglySorted index_le l →
  StronglySorted Z.le (sessions.duration_minutes ∘ snd <$> l).
Proof.
  intros Hk Hs. induction Hs as [|x l Hl IH Hx]; [constructor|].
  apply Forall_cons in Hk as [Hkx Hkl].
  rewrite fmap_cons. constructor; [by apply IH|].
  apply Forall_fmap, Forall_forall. intros y Hy.
  pose proof (proj1 (Forall_forall _ _) Hx y Hy) as Hle.
  pose proof (proj1 (Forall_forall _ _) Hkl y Hy) as Hky.
  unfold index_le, entry_le, index_entry in Hle. cbn in *. lia.
Qed.

(** The query meets the durations of a skill in ascending order. *)
Lemma durations_in_order_sorted db k :
  StronglySorted Z.le (durations_in_order db k).
Proof.
  unfold durations_in_order. apply (index_durations_sorted _ k).
  - apply Forall_forall. by intros x [Hx _]%list_elem_of_filter.
  - apply StronglySorted_filter, automatic_index_sorted.
Qed.

Lemma sum_Z_cons a l : sum_Z (a :: l) = a + sum_Z l.
Proof. done. Qed.

Lemma sum_Z_negative_le l : sum_Z (filter (λ d, d < 0) l) ≤ 0.
Proof.
  induction l as [|a l IH]; [done|].
  rewrite filter_cons. destruct (decide (a < 0)); rewrite ?sum_Z_cons; lia.
Qed.

Lemma filter_negative_nil l :
  Forall (λ d, 0 ≤ d) l → filter (λ d, d < 0) l = [].
Proof.
  induction 1 as [|a l Ha Hl IH]; [done|].
  rewrite filter_cons. destruct (decide (a < 0)); [lia|done].
Qed.

Lemma sum_Z_take_nonneg l n :
  Forall (λ d, 0 ≤ d) l → 0 ≤ sum_Z (take n l) ≤ sum_Z l.
Proof.
  intros Hl. revert n. induction Hl as [|a l Ha Hl IH]; intros [|n];
    rewrite ?firstn_cons, ?sum_Z_cons; [done..| |].
  - specialize (IH 0%nat). change (sum_Z (take 0 (a :: l))) with 0.
    change (sum_Z (take 0 l)) with 0 in IH. lia.
  - specialize (IH n). lia.
Qed.

(** The running sums of an ascending list go down to the sum of its
    negative elements and then up to its total. *)
Lemma ascending_running_sums l n :
  StronglySorted Z.le l →
  sum_Z (filter (λ d, d < 0) l) ≤ sum_Z (take n l) ≤ Z.max 0 (sum_Z l).
Proof.
  intros Hl. revert n. induction Hl as [|a l Hl IH Ha]; intros n.
  { rewrite take_nil. change (sum_Z []) with 0. by rewrite filter_nil. }
  rewrite filter_cons. destruct (decide (a < 0)) as [Hneg|Hpos].
  - destruct n as [|n]; rewrite ?firstn_cons, ?sum_Z_cons.
    + pose proof (sum_Z_negative_le l).
      change (sum_Z (take 0 (a :: l))) with 0. lia.
    + specialize (IH n). lia.
  - assert (Hnn : Forall (λ d, 0 ≤ d) (a :: l)).
    { constructor; [lia|]. eapply Forall_impl; [exact Ha|]. cbn. lia. }
    assert (filter (λ d, d < 0) l = []) as ->.
    { apply filter_negative_nil. by apply Forall_cons in Hnn as [_ ?]. }
    pose proof (sum_Z_take_nonneg (a :: l) n Hnn).
    change (sum_Z []) with 0. lia.
Qed.

Lemma ascending_negative_prefix l :
  StronglySorted Z.le l →
  take (length (filter (λ d, d < 0) l)) l = filter (λ d, d < 0) l.
Proof.
  induction 1 as [|a l Hl IH Ha]; [done|].
  rewrite filter_cons. destruct (decide (a < 0)) as [Hneg|Hpos].
  - cbn. by rewrite IH.
  - assert (filter (λ d, d < 0) l = []) as ->; [|done].
    apply filter_negative_nil. eapply Forall_impl; [exact Ha|]. cbn. lia.
Qed.

Lemma running_sums_fit_ascending l :
  StronglySorted Z.le l →
  running_sums_fit l
  ↔ INT64_MIN ≤ sum_Z (filter (λ d, d < 0) l) ∧ sum_Z l ≤ INT64_MAX.
Proof.
  intros Hl. unfold running_sums_fit, INT64_MIN, INT64_MAX.
  rewrite Forall_forall. split.
  - intros Hfit. split.
    + pose proof (Hfit (length (filter (λ d, d < 0) l))) as H.
      rewrite (ascending_negative_prefix l Hl) in H.
      apply in_int64_bounds in H; [lia|].
      apply elem_of_seq. pose proof (length_filter (λ d, d < 0) l). lia.
    + pose proof (Hfit (length l)) as H. rewrite firstn_all in H.
      apply in_int64_bounds in H; [lia|]. apply elem_of_seq. lia.
  - intros [Hneg Htot] n _.
    pose proof (ascending_running_sums l n Hl).
    apply in_int64_bounds. lia.
Qed.

Lemma negative_minutes_in_order db k :
  sum_Z (filter (λ d, d < 0) (durations_in_order db k)) = negative_minutes db k.
Proof.
  unfold negative_minutes. apply sum_Z_Permutation, filter_Permutation.
  unfold durations_in_order, sessions_of. apply fmap_Permutation.
  rewrite automatic_index_Permutation, map_to_list_filter_Permutation.
  apply reflexive_eq, list_filter_iff. intros x. simpl. split; congruence.
Qed.

(** The running sums of the query fit exactly when, for every skill,
    the negative durations alone and all the durations together sum
    within the 64-bit range. *)
Lemma sums_fit_totals_fit db : sums_fit db ↔ totals_fit db.
Proof.
  unfold sums_fit, totals_fit. rewrite !map_Forall_lookup.
  split; intros H k s Hk; specialize (H k s Hk);
    [apply running_sums_fit_ascending in H|apply running_sums_fit_ascending];
    try apply durations_in_order_sorted;
    by rewrite negative_minutes_in_order, practiced_minutes_in_order in *.
Qed.

(** X5. On a database SQLite can hold, [get_progress] returns exactly
    when no running sum of a skill's durations, taken by ascending
    duration as the join meets them, leaves the signed 64-bit range;
    that is exactly when, for every skill, the negative durations
    alone sum to at least [- 2 ^ 63] and all its durations together
    to at most [2 ^ 63 - 1]. It then returns one record per skill;
    otherwise it raises SQLite's "integer overflow" error. In both
    cases it leaves the connection, the console and the input as they
    were. *)
Theorem X5_get_progress_returns_iff w db :
  conn w = Some db → valid_database db →
  (sums_fit db ↔ totals_fit db)
  ∧ (totals_fit db ↔
     SkillDatabase.get_progress w
     = Returns (progress_record ∘ progress_row_of db <$> scan (skills_table db))
         w)
  ∧ (¬ totals_fit db ↔
     SkillDatabase.get_progress w = Raises (sqlite3_Error "integer overflow") w)
  ∧ final_world (SkillDatabase.get_progress w) = w.
Proof.
  intros Hc Hv. split; [apply sums_fit_totals_fit|].
  rewrite <-sums_fit_totals_fit.
  assert (Hret : SkillDatabase.get_progress w
    = Returns (progress_record ∘ progress_row_of db <$> scan (skills_table db)) w
    → sums_fit db).
  { intros Hg. rewrite (get_progress_unfold w db Hc) in Hg.
    destruct (select_progress db) as [rows|e] eqn:Hrows; [|done].
    by apply (select_progress_Ok_fit db rows). }
  split; [|split].
  - split; [by apply get_progress_fit|exact Hret].
  - split.
    + intros Hn. destruct (get_progress_cases w db Hc Hv) as [H|H]; [|done].
      destruct (Hn (Hret H)).
    + intros Hr Hfit. by rewrite (get_progress_fit w db Hc Hv Hfit) in Hr.
  - by destruct (get_progress_cases w db Hc Hv) as [-> | ->].
Qed.

Lemma X5_get_progress_returns_iff_witness :
  valid_database up_down_database
  ∧ totals_fit up_down_database
  ∧ SkillDatabase.get_progress (connected up_down_database)
    = Returns (progress_record ∘ progress_row_of up_down_database
                 <$> scan (skills_table up_down_database))
        (connected up_down_database).
Proof.
  assert (Hv : valid_database up_down_database)
    by (apply (bool_decide_unpack _); vm_compute; exact I).
  assert (Hf : totals_fit up_down_database)
    by (apply (bool_decide_unpack _); vm_compute; exact I).
  split; [exact Hv|]. split; [exact Hf|].
  exact (proj1 (proj1 (proj2 (X5_get_progress_returns_iff
           (connected up_down_database) up_down_database eq_refl Hv))) Hf).
Defined.

(** The order of the sum matters. The sessions of [2 ^ 63 - 1], 1 and
    -1 minutes are summed as -1, 1, [2 ^ 63 - 1], which never leaves
    the range, although the sum in the order they were logged would;
    the sessions of [- (2 ^ 63 - 1)], [2 ^ 63 - 1] and
    [- (2 ^ 63 - 1)] minutes are summed with the two negative ones
    first, which overflows, although their total fits. *)
Example sum_by_ascending_duration :
  durations_in_order up_down_database 1 = [-1; 1; 9223372036854775807]
  ∧ (∃ recs, SkillDatabase.get_progress (connected up_down_database)
             = Returns recs (connected up_down_database))
  ∧ durations_in_order down_up_database 1
    = [-9223372036854775807; -9223372036854775807; 9223372036854775807]
  ∧ in_int64 (practiced_minutes down_up_database 1)
  ∧ SkillDatabase.get_progress (connected down_up_database)
    = Raises (sqlite3_Error "integer overflow") (connected down_up_database).
Proof.
  split; [vm_compute; reflexivity|].
  split; [eexists; vm_compute; reflexivity|].
  split; [vm_compute; reflexivity|].
  split; [vm_compute; exact I|vm_compute; reflexivity].
Qed.

Lemma sessions_of_lookup db k j r :
  sessions_of db k !! j = Some r
  ↔ sessions_table db !! j = Some r ∧ sessions.skill_id r = k.
Proof. unfold sessions_of. by rewrite map_lookup_filter_Some. Qed.

(** X6. Durations that are not negative cannot overflow on the way:
    when every session has a non-negative [duration_minutes] and the
    total of every skill is at most [2 ^ 63 - 1], [get_progress]
    returns the records of all skills. *)
Theorem X6_get_progress_nonnegative_durations w db :
  conn w = Some db → valid_database db →
  map_Forall (λ _ r, 0 ≤ sessions.duration_minutes r) (sessions_table db) →
  map_Forall (λ k _, practiced_minutes db k ≤ INT64_MAX) (skills_table db) →
  sums_fit db
  ∧ SkillDatabase.get_progress w
    = Returns (progress_record ∘ progress_row_of db <$> scan (skills_table db)) w.
Proof.
  intros Hc Hv Hpos Htot.
  assert (Hfit : sums_fit db).
  { intros k s Hk. cbn. apply running_sums_fit_nonneg.
    - apply Forall_forall.
      intros d (j & r & Hj & _ & <-)%durations_in_order_elem.
      by apply (Hpos j r).
    - rewrite practiced_minutes_in_order. apply in_int64_bounds.
      specialize (Htot k s Hk). cbn in Htot. unfold INT64_MAX in Htot.
      split; [|lia].
      assert (0 ≤ practiced_minutes db k); [|lia].
      unfold practiced_minutes.
      assert (Forall (λ d, 0 ≤ d)
                (sessions.duration_minutes ∘ snd <$> map_to_list (sessions_of db k)))
        as HF.
      { apply Forall_fmap, Forall_forall.
        intros [j r] [Hj _]%elem_of_map_to_list%sessions_of_lookup.
        by apply (Hpos j r). }
      clear -HF. induction HF as [|d l Hd _ IH]; unfold sum_Z in *; simpl; lia. }
  split; [exact Hfit|by apply get_progress_fit].
Qed.

Lemma X6_get_progress_nonnegative_durations_witness :
  valid_database sample_database
  ∧ map_Forall (λ _ r, 0 ≤ sessions.duration_minutes r)
      (sessions_table sample_database)
  ∧ map_Forall (λ k _, practiced_minutes sample_database k ≤ INT64_MAX)
      (skills_table sample_database)
  ∧ sums_fit sample_database.
Proof.
  assert (Hv : valid_database sample_database)
    by (apply (bool_decide_unpack _); vm_compute; exact I).
  assert (Hp : map_Forall (λ _ r, 0 ≤ sessions.duration_minutes r)
                 (sessions_table sample_database))
    by (apply (bool_decide_unpack _); vm_compute; exact I).
  assert (Ht : map_Forall (λ k _, practiced_minutes sample_database k ≤ INT64_MAX)
                 (skills_table sample_database))
    by (apply (bool_decide_unpack _); vm_compute; exact I).
  split; [exact Hv|]. split; [exact Hp|]. split; [exact Ht|].
  exact (proj1 (X6_get_progress_nonnegative_durations
           (connected sample_database) sample_database eq_refl Hv Hp Ht)).
Defined.

(** ** A skill without sessions *)

Lemma float_of_int_sign z :
  z ≠ 0 → - 2 ^ 64 < z < 2 ^ 64 →
  ∃ m e, float_of_int z = S754_finite (z <? 0) m e.
Proof.
  intros Hz Hr. unfold float_of_int, binary_normalize.
  assert (Hd : ∀ p, Z.pos p < 2 ^ 64 → Z.pos (digits2_pos p) ≤ 1023).
  { intros p Hp. pose proof (Zdigits2_le (Z.pos p) 64). simpl in *. lia. }
  destruct z as [|p|p]; [done| |].
  - apply (binary_round_finite false p). apply Hd. lia.
  - apply (binary_round_finite true p). apply Hd. lia.
Qed.

Lemma progress_percent_zero_hours t :
  in_int64 t →
  progress_percent (S754_zero false) t
  = if decide (t = 0) then PyInt 0 else PyFloat (S754_zero (t <? 0)).
Proof.
  intros Ht%in_int64_bounds. unfold progress_percent.
  destruct (decide (t = 0)) as [|Hne]; [done|].
  destruct (float_of_int_sign t) as (m & e & ->); [done|lia|].
  destruct (t <? 0); reflexivity.
Qed.

Lemma durations_in_order_no_sessions db k :
  sessions_of db k = ∅ → durations_in_order db k = [].
Proof.
  intros Hno. destruct (durations_in_order db k) as [|d ds] eqn:Hds; [done|].
  destruct (durations_in_order_elem db k d) as (j & r & Hj & Hk & _).
  { rewrite Hds. left. }
  assert (sessions_of db k !! j = Some r) as Hin
    by (by apply map_lookup_filter_Some).
  by rewrite Hno in Hin.
Qed.

(** Adding a skill that no session names does not make the running
    sums leave the range. *)
Lemma sums_fit_with_skill db v N C T :
  sums_fit db → sessions_of db v = ∅ → sums_fit (with_skill v N C T db).
Proof.
  intros Hfit Hno. unfold sums_fit, with_skill. cbn [skills_table].
  apply map_Forall_insert_2.
  - change (running_sums_fit (durations_in_order db v)).
    rewrite (durations_in_order_no_sessions db v Hno).
    apply (bool_decide_unpack _). vm_compute. exact I.
  - exact Hfit.
Qed.

(** X7. On a database SQLite can hold and on which the sum of the
    query does not overflow, a skill that is added with a target in
    the 64-bit range, and that no stored session names, is reported
    by the next [get_progress] with 0.0 practiced hours, and with a
    progress of 0.0 for a positive target, -0.0 for a negative target
    and the int 0 for a zero target. *)
Theorem X7_new_skill_reports_zero w db i N C T v :
  conn w = Some db → valid_database db → in_int64 T →
  new_rowid (skills_table db) (skills_seq db) = Ok v →
  sessions_of db v = ∅ →
  sums_fit db →
  SkillDatabase.add_skill (Skill.new i N C T) w
  = Returns tt (stored (with_skill v N C T db) w)
  ∧ ∃ recs pos r,
      SkillDatabase.get_progress (stored (with_skill v N C T db) w)
      = Returns recs (stored (with_skill v N C T db) w)
      ∧ scan (skills_table (with_skill v N C T db)) !! pos
        = Some (v, skills.Row N C T)
      ∧ recs !! pos = Some r
      ∧ r !! "Skill" = Some (PyStr N)
      ∧ r !! "Target Hours" = Some (PyInt T)
      ∧ r !! "Total Practiced" = Some (PyFloat (S754_zero false))
      ∧ r !! "Progress %"
        = Some (if decide (T = 0) then PyInt 0 else PyFloat (S754_zero (T <? 0))).
Proof.
  intros Hc Hv HT Hnew Hno Hfit0.
  pose proof (sums_fit_with_skill db v N C T Hfit0 Hno) as Hfit. split.
  { rewrite (add_skill_unfold w db _ Hc). cbn.
    unfold insert_skill, bind_int. rewrite (in_int64_true T HT). cbn.
    by rewrite Hnew. }
  pose proof (with_skill_valid v N C T db Hv HT Hnew) as Hv1.
  set (db1 := with_skill v N C T db) in *.
  assert ((v, skills.Row N C T) ∈ scan (skills_table db1)) as Hin
    by (apply elem_of_scan, lookup_insert_eq).
  apply list_elem_of_lookup in Hin as [pos Hpos].
  eexists _, pos, _. split; [by apply get_progress_fit|].
  split; [exact Hpos|]. rewrite list_lookup_fmap, Hpos. split; [done|].
  unfold compose.
  rewrite progress_record_Skill, progress_record_Target, progress_record_Total,
    progress_record_Progress.
  cbn [progress_row_of r1 r2 r3 fst snd skills.name skills.target_hours].
  assert (practiced_hours db1 v = S754_zero false) as ->.
  { unfold practiced_hours.
    replace (practiced_minutes db1 v) with 0; [reflexivity|].
    symmetry. by apply practiced_minutes_no_sessions. }
  split; [done|]. split; [done|]. split; [done|].
  by rewrite progress_percent_zero_hours.
Qed.

Lemma X7_new_skill_reports_zero_witness :
  valid_database sample_database
  ∧ sums_fit sample_database
  ∧ sessions_of sample_database 3 = ∅
  ∧ ∃ recs pos r,
      SkillDatabase.get_progress
        (stored (with_skill 3 "Chess" "Games" (-20) sample_database)
           (connected sample_database))
      = Returns recs
          (stored (with_skill 3 "Chess" "Games" (-20) sample_database)
             (connected sample_database))
      ∧ recs !! pos = Some r
      ∧ r !! "Progress %" = Some (PyFloat (S754_zero true)).
Proof.
  assert (Hv : valid_database sample_database)
    by (apply (bool_decide_unpack _); vm_compute; exact I).
  assert (Hf : sums_fit sample_database)
    by (apply (bool_decide_unpack _); vm_compute; exact I).
  assert (Hno : sessions_of sample_database 3 = ∅)
    by (vm_compute; reflexivity).
  split; [exact Hv|]. split; [exact Hf|]. split; [exact Hno|].
  destruct (X7_new_skill_reports_zero (connected sample_database)
              sample_database None "Chess" "Games" (-20) 3 eq_refl Hv I
              eq_refl Hno Hf)
    as (_ & recs & pos & r & Hg & _ & Hr & _ & _ & _ & Hp).
  exists recs, pos, r. split; [exact Hg|]. split; [exact Hr|exact Hp].
Defined.

(** ** Sessions without a skill *)

(** The index of the rows that satisfy [P] holds the entries that a
    filter of the index keeps, in the same order. *)
Lemma automatic_index_filter (P : Z * sessions.row → Prop)
    `{∀ x, Decision (P x)} (t : gmap Z sessions.row) :
  automatic_index (filter P t) = filter P (automatic_index t).
Proof.
  apply (StronglySorted_unique_strong index_le).
  - intros [k a] [k' b] Ha Hb Hle Hge.
    unfold index_le, entry_le, index_entry in *. cbn in *.
    assert (k = k') as <- by lia. f_equal.
    apply elem_of_automatic_index, map_lookup_filter_Some in Ha as [Ha _].
    apply list_elem_of_filter in Hb as [_ Hb%elem_of_automatic_index].
    congruence.
  - apply automatic_index_sorted.
  - apply StronglySorted_filter, automatic_index_sorted.
  - rewrite !automatic_index_Permutation. apply map_to_list_filter_Permutation.
Qed.

Lemma durations_in_order_without_orphans db k :
  is_Some (skills_table db !! k) →
  durations_in_order (without_orphans db) k = durations_in_order db k.
Proof.
  intros Hk. unfold durations_in_order, without_orphans. cbn [sessions_table].
  rewrite automatic_index_filter, list_filter_filter. f_equal.
  apply list_filter_iff. intros [j r]. cbn. split; [tauto|].
  intros ->. done.
Qed.

Lemma select_progress_durations db db' :
  skills_table db' = skills_table db →
  (∀ k, is_Some (skills_table db !! k) →
        durations_in_order db' k = durations_in_order db k) →
  select_progress db' = select_progress db.
Proof.
  intros Hs Hd. rewrite !select_progress_groups, Hs.
  assert (Hall : ∀ s, s ∈ scan (skills_table db) →
            select_group (s.1, join_block (automatic_index (sessions_table db')) s)
            = select_group (s.1, join_block (automatic_index (sessions_table db)) s)).
  { intros [k r] Hin%elem_of_scan. rewrite !select_group_join_block. cbn [fst].
    by rewrite Hd by eauto. }
  induction (scan (skills_table db)) as [|s l IH]; [done|].
  rewrite !fmap_cons. cbn [result_map]. rewrite Hall by left.
  rewrite IH; [done|]. intros s' Hs'. apply Hall. by right.
Qed.

(** X8. [get_progress] does not see the sessions whose [skill_id] is
    not the rowid of a skill: with or without them the query gives the
    same rows or the same error, and [get_progress] the same records or
    the same exception. *)
Theorem X8_get_progress_ignores_orphans w db :
  conn w = Some db →
  select_progress (without_orphans db) = select_progress db
  ∧ SkillDatabase.get_progress (stored (without_orphans db) w)
    = match SkillDatabase.get_progress w with
      | Returns recs _ => Returns recs (stored (without_orphans db) w)
      | Raises e _ => Raises e (stored (without_orphans db) w)
      end.
Proof.
  intros Hc.
  assert (Hq : select_progress (without_orphans db) = select_progress db).
  { apply select_progress_durations; [done|].
    intros k Hk. by apply durations_in_order_without_orphans. }
  split; [exact Hq|].
  rewrite (get_progress_unfold w db Hc).
  rewrite (get_progress_unfold (stored (without_orphans db) w)
             (without_orphans db) eq_refl), Hq.
  destruct (select_progress db) as [rows|e]; [|done].
  by destruct (result_map SkillDatabase.progress_dict rows).
Qed.

Lemma X8_get_progress_ignores_orphans_witness :
  sessions_table (without_orphans sample_database)
  ≠ sessions_table sample_database
  ∧ select_progress (without_orphans sample_database)
    = select_progress sample_database.
Proof.
  split.
  - intros H. apply (f_equal (λ t, t !! 3)) in H. vm_compute in H. discriminate H.
  - exact (proj1 (X8_get_progress_ignores_orphans (connected sample_database)
                    sample_database eq_refl)).
Defined.

(** ** Deleting twice, in either order, and after adding *)

Lemma without_skill_idemp k db :
  without_skill k (without_skill k db) = without_skill k db.
Proof.
  unfold without_skill. cbn. rewrite delete_delete_eq. f_equal.
  rewrite map_filter_filter. apply map_filter_ext. intros j r _. cbn. tauto.
Qed.

Lemma without_skill_comm j k db :
  without_skill j (without_skill k db) = without_skill k (without_skill j db).
Proof.
  unfold without_skill. cbn. rewrite delete_delete. f_equal.
  rewrite !map_filter_filter. apply map_filter_ext. intros i r _. cbn. tauto.
Qed.

Lemma delete_skill_stored w db k :
  in_int64 k →
  SkillDatabase.delete_skill k (stored db w)
  = Returns tt (stored (without_skill k db) w).
Proof. intros Hk. by rewrite (delete_skill_in_range (stored db w) db k eq_refl Hk). Qed.

Lemma delete_skill_connected w db k :
  conn w = Some db → in_int64 k →
  SkillDatabase.delete_skill k w = Returns tt (stored (without_skill k db) w).
Proof. intros Hc Hk. by rewrite (delete_skill_in_range w db k Hc Hk). Qed.

(** X9. Deleting the same skill twice is the same as deleting it once,
    and two skills can be deleted in either order: the worlds reached
    are the same. *)
Theorem X9_delete_skill_idempotent_commutes w db j k :
  conn w = Some db → in_int64 j → in_int64 k →
  (SkillDatabase.delete_skill k;; SkillDatabase.delete_skill k) w
  = SkillDatabase.delete_skill k w
  ∧ (SkillDatabase.delete_skill j;; SkillDatabase.delete_skill k) w
    = (SkillDatabase.delete_skill k;; SkillDatabase.delete_skill j) w
  ∧ (SkillDatabase.delete_skill j;; SkillDatabase.delete_skill k) w
    = Returns tt (stored (without_skill k (without_skill j db)) w).
Proof.
  intros Hc Hj Hk. unfold mbind, M_bind.
  rewrite (delete_skill_connected w db k Hc Hk).
  rewrite (delete_skill_connected w db j Hc Hj).
  rewrite !delete_skill_stored by done.
  rewrite without_skill_idemp, (without_skill_comm j k). done.
Qed.

Lemma X9_delete_skill_idempotent_commutes_witness :
  (SkillDatabase.delete_skill 1;; SkillDatabase.delete_skill 2)
    (connected sample_database)
  = (SkillDatabase.delete_skill 2;; SkillDatabase.delete_skill 1)
      (connected sample_database).
Proof.
  exact (proj1 (proj2 (X9_delete_skill_idempotent_commutes
           (connected sample_database) sample_database 1 2 eq_refl I I))).
Defined.

(** X10. Adding a skill and deleting it again restores the skills
    table, and the sessions table too when no session named the new
    rowid, but not the sequence entry, which stays at the rowid that
    was handed out; [add_skill] itself does not return that rowid. *)
Theorem X10_add_then_delete w db i N C T v :
  conn w = Some db → in_int64 T → in_int64 v →
  new_rowid (skills_table db) (skills_seq db) = Ok v →
  SkillDatabase.add_skill (Skill.new i N C T) w
  = Returns tt (stored (with_skill v N C T db) w)
  ∧ (SkillDatabase.add_skill (Skill.new i N C T);; SkillDatabase.delete_skill v) w
    = Returns tt
        (stored (Database (skills_table db) v
                   (filter (λ kr, sessions.skill_id kr.2 ≠ v) (sessions_table db))
                   (sessions_seq db)) w)
  ∧ skills_seq db < v
  ∧ (sessions_of db v = ∅ →
     (SkillDatabase.add_skill (Skill.new i N C T);; SkillDatabase.delete_skill v) w
     = Returns tt
         (stored (Database (skills_table db) v (sessions_table db)
                    (sessions_seq db)) w)).
Proof.
  intros Hc HT Hv Hnew.
  destruct (new_rowid_above _ _ _ Hnew) as (Hfresh & Hlt & _).
  assert (Hadd : SkillDatabase.add_skill (Skill.new i N C T) w
                 = Returns tt (stored (with_skill v N C T db) w)).
  { rewrite (add_skill_unfold w db _ Hc). cbn.
    unfold insert_skill, bind_int. rewrite (in_int64_true T HT). cbn.
    by rewrite Hnew. }
  assert (Hboth : (SkillDatabase.add_skill (Skill.new i N C T);;
                   SkillDatabase.delete_skill v) w
    = Returns tt
        (stored (Database (skills_table db) v
                   (filter (λ kr, sessions.skill_id kr.2 ≠ v) (sessions_table db))
                   (sessions_seq db)) w)).
  { unfold mbind, M_bind. rewrite Hadd.
    rewrite delete_skill_stored by done.
    unfold without_skill, with_skill, stored. cbn.
    by rewrite delete_insert_eq, delete_id. }
  split; [exact Hadd|]. split; [exact Hboth|]. split; [exact Hlt|].
  intros Hno. rewrite Hboth. do 3 f_equal.
  apply map_filter_id. intros j r Hj. cbn. intros Hjv.
  assert (sessions_of db v !! j = Some r) as Hin
    by (by apply sessions_of_lookup).
  by rewrite Hno in Hin.
Qed.

Lemma X10_add_then_delete_witness :
  new_rowid (skills_table sample_database) (skills_seq sample_database) = Ok 3
  ∧ (SkillDatabase.add_skill (Skill.new None "Chess" "Games" 5);;
     SkillDatabase.delete_skill 3) (connected sample_database)
    = Returns tt
        (stored (Database (skills_table sample_database) 3
                   (sessions_table sample_database)
                   (sessions_seq sample_database))
           (connected sample_database)).
Proof.
  assert (Hn : new_rowid (skills_table sample_database)
                 (skills_seq sample_database) = Ok 3)
    by (vm_compute; reflexivity).
  split; [exact Hn|].
  refine (proj2 (proj2 (proj2 (X10_add_then_delete (connected sample_database)
            sample_database None "Chess" "Games" 5 3 eq_refl I I Hn))) _).
  vm_compute. reflexivity.
Defined.

(** ** The turns of the menu *)

(** X11. A turn of the menu that reads a skill id to delete for which
    [int] raises [ValueError], a choice that is not one of the strings
    "1" to "5", or the choice "5", makes no call to the store: it
    prints "Invalid skill ID.", "Invalid choice." or nothing, leaves
    the connection as it was, and goes on with the loop, except for
    the choice "5", which ends it. *)
Theorem X11_turn_without_store float_str int_non_ascii w out continue rest
    t :
  idle_entry int_non_ascii (stdin w) out continue rest t →
  SkillTracker.turn float_str int_non_ascii w
  = Returns continue (World (conn w) rest (stdout w ++ menu_lines ++ out) t).
Proof.
  destruct w as [c i o k]. cbn [stdin conn stdout].
  intros H. inversion H as
    [t1 t2 line rest' Hpy|t1 choice rest' Hch|t1 rest']; subst.
  - unfold SkillTracker.turn, SkillTracker.print_menu, SkillTracker.option_4,
      try_except, input, print, int, raise, mbind, M_bind, mret, M_ret.
    cbn -[py_int]. do 3 rewrite decide_False by done.
    rewrite decide_True by done.
    cbn -[py_int]. rewrite Hpy. cbn. by rewrite <-!app_assoc.
  - unfold SkillTracker.turn, SkillTracker.print_menu,
      input, print, mbind, M_bind, mret, M_ret.
    cbn. rewrite !not_elem_of_cons in Hch.
    destruct Hch as (? & ? & ? & ? & ? & _).
    do 5 rewrite decide_False by done. cbn. by rewrite <-!app_assoc.
  - unfold SkillTracker.turn, SkillTracker.print_menu,
      input, print, mbind, M_bind, mret, M_ret.
    cbn. do 4 rewrite decide_False by done. rewrite decide_True by done.
    cbn. rewrite <-!app_assoc. cbn. done.
Qed.

Lemma X11_turn_without_store_witness :
  idle_entry (λ _, None)
    (stdin (World (Some sample_database) (typed ["9"; "5"]) [] noon))
    ["Invalid choice."] true (typed ["5"]) noon
  ∧ SkillTracker.turn (λ _, "") (λ _, None)
      (World (Some sample_database) (typed ["9"; "5"]) [] noon)
    = Returns true
        (World (Some sample_database) (typed ["5"])
           ([] ++ menu_lines ++ ["Invalid choice."]) noon).
Proof.
  assert (H : idle_entry (λ _, None)
    (stdin (World (Some sample_database) (typed ["9"; "5"]) [] noon))
    ["Invalid choice."] true (typed ["5"]) noon).
  { apply unknown_choice. rewrite !not_elem_of_cons.
    repeat split; try discriminate. apply not_elem_of_nil. }
  split; [exact H|].
  exact (X11_turn_without_store (λ _, "") (λ _, None) _ _ _ _ _ H).
Defined.

(** X12. With a connection whose skills table can still hand out a
    rowid, menu option 1 with a target line that [int] reads as an
    integer in the 64-bit range stores the skill under a new rowid,
    with the name and the category exactly as they were typed (an
    empty line included) and the target as [int] reads it; nothing is
    printed but the menu and the prompts. *)
Theorem X12_option_1_stores_skill float_str int_non_ascii w db t1 t2 t3 t4
    name category line target rest :
  stdin w = (t1, "1") :: (t2, name) :: (t3, category) :: (t4, line) :: rest →
  conn w = Some db →
  py_int int_non_ascii line = Some target → in_int64 target →
  has_room (skills_table db) (skills_seq db) →
  ∃ v,
    SkillTracker.turn float_str int_non_ascii w
    = Returns true
        (World (Some (with_skill v name category target db)) rest
           (stdout w ++ menu_lines
              ++ ["Skill Name: "; "Category (Tech, Creative, etc.): ";
                  "Target Hours: "])
           t4)
    ∧ skills_table db !! v = None
    ∧ skills_table (with_skill v name category target db) !! v
      = Some (skills.Row name category target).
Proof.
  intros Hin Hc Hpy Ht%in_int64_true Hroom.
  destruct (new_rowid_room _ _ Hroom) as [v Hnew]. exists v.
  destruct (new_rowid_above _ _ _ Hnew) as (Hfresh & _).
  split; [|split; [done|apply lookup_insert_eq]].
  destruct w as [c i o k]. cbn [stdin conn stdout] in *. subst c i.
  unfold SkillTracker.turn, SkillTracker.print_menu, SkillTracker.option_1,
    SkillDatabase.add_skill, SkillDatabase.execute, SkillDatabase.commit,
    SkillDatabase.conn_cursor, set_conn, lift,
    try_except, input, print, int, raise, mbind, M_bind, mret, M_ret.
  cbn -[py_int new_rowid in_int64 insert_skill].
  rewrite decide_True by done.
  cbn -[py_int new_rowid in_int64 insert_skill].
  rewrite Hpy. cbn -[py_int new_rowid in_int64 insert_skill].
  unfold insert_skill, bind_int. rewrite Ht.
  cbn -[new_rowid]. rewrite Hnew. cbn.
  unfold with_skill. by rewrite <-!app_assoc.
Qed.

Lemma X12_option_1_stores_skill_witness :
  has_room (skills_table sample_database) (skills_seq sample_database)
  ∧ ∃ v,
      SkillTracker.turn (λ _, "") (λ _, None)
        (World (Some sample_database) (typed ["1"; ""; "Games"; " 5 "; "5"])
           [] noon)
      = Returns true
          (World (Some (with_skill v "" "Games" 5 sample_database))
             (typed ["5"])
             ([] ++ menu_lines
                 ++ ["Skill Name: "; "Category (Tech, Creative, etc.): ";
                     "Target Hours: "])
             noon).
Proof.
  assert (Hr : has_room (skills_table sample_database)
                 (skills_seq sample_database)).
  { split; [vm_compute; discriminate|].
    apply (bool_decide_unpack _). vm_compute. exact I. }
  split; [exact Hr|].
  destruct (X12_option_1_stores_skill (λ _, "") (λ _, None)
              (World (Some sample_database)
                 (typed ["1"; ""; "Games"; " 5 "; "5"]) [] noon)
              sample_database noon noon noon noon "" "Games" " 5 " 5
              (typed ["5"]) eq_refl eq_refl eq_refl I Hr) as (v & Hturn & _).
  exists v. exact Hturn.
Defined.

(** X13. With a connection, menu option 4 with a line that [int]
    reads as an integer in the 64-bit range deletes the skill with
    that id and the sessions that name it, whether or not the skill
    exists, and prints nothing but the menu and the prompt: no
    confirmation is asked and no outcome is reported. *)
Theorem X13_option_4_deletes_skill float_str int_non_ascii w db t1 t2 line k
    rest :
  stdin w = (t1, "4") :: (t2, line) :: rest →
  conn w = Some db → py_int int_non_ascii line = Some k → in_int64 k →
  SkillTracker.turn float_str int_non_ascii w
  = Returns true
      (World (Some (without_skill k db)) rest
         (stdout w ++ menu_lines ++ ["Enter Skill ID to delete: "]) t2).
Proof.
  intros Hin Hc Hpy Hk%in_int64_true.
  destruct w as [c i o kk]. cbn [stdin conn stdout] in *. subst c i.
  unfold SkillTracker.turn, SkillTracker.print_menu, SkillTracker.option_4,
    SkillDatabase.delete_skill, SkillDatabase.execute, SkillDatabase.commit,
    SkillDatabase.conn_cursor, set_conn, lift,
    try_except, input, print, int, raise, mbind, M_bind, mret, M_ret.
  cbn -[py_int in_int64 delete_sessions delete_skill_row].
  do 3 rewrite decide_False by done. rewrite decide_True by done.
  cbn -[py_int in_int64 delete_sessions delete_skill_row].
  rewrite Hpy. cbn -[py_int in_int64 delete_sessions delete_skill_row].
  unfold delete_sessions, delete_skill_row, bind_int. rewrite Hk.
  cbn. unfold without_skill. by rewrite <-!app_assoc.
Qed.

Lemma X13_option_4_deletes_skill_witness :
  py_int (λ _, None) "7" = Some 7
  ∧ SkillTracker.turn (λ _, "") (λ _, None)
      (World (Some sample_database) (typed ["4"; "7"; "5"]) [] noon)
    = Returns true
        (World (Some (without_skill 7 sample_database)) (typed ["5"])
           ([] ++ menu_lines ++ ["Enter Skill ID to delete: "]) noon).
Proof.
  split; [vm_compute; reflexivity|].
  exact (X13_option_4_deletes_skill (λ _, "") (λ _, None)
           (World (Some sample_database) (typed ["4"; "7"; "5"]) [] noon)
           sample_database noon noon "7" 7 (typed ["5"])
           eq_refl eq_refl eq_refl I).
Defined.

(** X14. With a connection, a line that [int] reads as an integer
    that does not fit in 64 bits, typed as the target of option 1, as
    the skill id or the duration of option 2 (the other one being read
    as an integer too), or as the skill id of option 4, makes the store
    raise [OverflowError]; no handler of the turn catches it, the
    database is left as it was, and [run] ends with that exception. *)
Theorem X14_out_of_range_integer_ends_run float_str int_non_ascii w db prompts
    rest t :
  conn w = Some db →
  out_of_range_entry int_non_ascii (stdin w) prompts rest t →
  SkillTracker.turn float_str int_non_ascii w
  = Raises (OverflowError "Python int too large to convert to SQLite INTEGER")
      (World (Some db) rest (stdout w ++ menu_lines ++ prompts) t)
  ∧ SkillTracker.run float_str int_non_ascii w
    = Some (Raises
              (OverflowError "Python int too large to convert to SQLite INTEGER")
              (World (Some db) rest (stdout w ++ menu_lines ++ prompts) t)).
Proof.
  intros Hc H.
  assert (Hturn : SkillTracker.turn float_str int_non_ascii w
    = Raises (OverflowError "Python int too large to convert to SQLite INTEGER")
        (World (Some db) rest (stdout w ++ menu_lines ++ prompts) t)).
  { destruct w as [c i o k]. cbn [stdin conn stdout] in *. subst c.
    inversion H as
      [t1 t2 t3 t4 name category line target rest' Hpy Hbig
      |t1 t2 t3 t4 t5 line1 line2 sid dur notes date rest' Hpy1 Hpy2 Hbig
      |t1 t2 line sid rest' Hpy Hbig]; subst.
    - apply Is_true_false in Hbig.
      unfold SkillTracker.turn, SkillTracker.print_menu, SkillTracker.option_1,
        SkillDatabase.add_skill, SkillDatabase.execute, SkillDatabase.commit,
        SkillDatabase.conn_cursor, set_conn, lift,
        try_except, input, print, int, raise, mbind, M_bind, mret, M_ret.
      cbn -[py_int new_rowid in_int64 insert_skill].
      rewrite decide_True by done.
      cbn -[py_int new_rowid in_int64 insert_skill].
      rewrite Hpy. cbn -[py_int new_rowid in_int64 insert_skill].
      unfold insert_skill, bind_int. rewrite Hbig. cbn.
      by rewrite <-!app_assoc.
    - assert (in_int64 sid = false ∨ (in_int64 sid = true ∧ in_int64 dur = false))
        as Hcase.
      { destruct (in_int64 sid) eqn:H1; [|by left]. right. split; [done|].
        destruct (in_int64 dur) eqn:H2; [|done]. destruct Hbig. by split. }
      unfold SkillTracker.turn, SkillTracker.print_menu, SkillTracker.option_2,
        SkillDatabase.log_session, SkillDatabase.execute, SkillDatabase.commit,
        SkillDatabase.conn_cursor, set_conn, lift, datetime_now,
        try_except, input, print, int, raise, mbind, M_bind, mret, M_ret.
      cbn -[py_int new_rowid in_int64 strftime_Y_m_d insert_session].
      rewrite decide_False, decide_True by done.
      cbn -[py_int new_rowid in_int64 strftime_Y_m_d insert_session].
      rewrite Hpy1. cbn -[py_int new_rowid in_int64 strftime_Y_m_d insert_session].
      rewrite Hpy2. cbn -[py_int new_rowid in_int64 strftime_Y_m_d insert_session].
      unfold insert_session, bind_int.
      destruct (py_truthy_str date);
        cbn -[new_rowid in_int64 strftime_Y_m_d];
        destruct Hcase as [-> | [-> ->]]; cbn; by rewrite <-!app_assoc.
    - apply Is_true_false in Hbig.
      unfold SkillTracker.turn, SkillTracker.print_menu, SkillTracker.option_4,
        SkillDatabase.delete_skill, SkillDatabase.execute, SkillDatabase.commit,
        SkillDatabase.conn_cursor, set_conn, lift,
        try_except, input, print, int, raise, mbind, M_bind, mret, M_ret.
      cbn -[py_int in_int64 delete_sessions delete_skill_row].
      do 3 rewrite decide_False by done. rewrite decide_True by done.
      cbn -[py_int in_int64 delete_sessions delete_skill_row].
      rewrite Hpy. cbn -[py_int in_int64 delete_sessions delete_skill_row].
      unfold delete_sessions, bind_int. rewrite Hbig. cbn.
      by rewrite <-!app_assoc. }
  split; [exact Hturn|].
  unfold SkillTracker.run. cbn [SkillTracker.loop]. by rewrite Hturn.
Qed.

Lemma X14_out_of_range_integer_ends_run_witness :
  out_of_range_entry (λ _, None)
    (stdin (World (Some sample_database)
              (typed ["4"; "-9223372036854775809"; "5"]) [] noon))
    ["Enter Skill ID to delete: "] (typed ["5"]) noon
  ∧ SkillTracker.run (λ _, "") (λ _, None)
      (World (Some sample_database)
         (typed ["4"; "-9223372036854775809"; "5"]) [] noon)
    = Some (Raises
              (OverflowError "Python int too large to convert to SQLite INTEGER")
              (World (Some sample_database) (typed ["5"])
                 ([] ++ menu_lines ++ ["Enter Skill ID to delete: "]) noon)).
Proof.
  assert (H : out_of_range_entry (λ _, None)
    (stdin (World (Some sample_database)
              (typed ["4"; "-9223372036854775809"; "5"]) [] noon))
    ["Enter Skill ID to delete: "] (typed ["5"]) noon).
  { apply (big_delete_id _ noon noon "-9223372036854775809" (- 2 ^ 63 - 1)).
    - vm_compute. reflexivity.
    - vm_compute. exact (λ x, x). }
  split; [exact H|].
  exact (proj2 (X14_out_of_range_integer_ends_run (λ _, "") (λ _, None)
                  (World (Some sample_database)
                     (typed ["4"; "-9223372036854775809"; "5"]) [] noon)
                  sample_database _ _ _ eq_refl H)).
Defined.

Lemma print_progress_records float_str rows w :
  SkillTracker.print_progress float_str (progress_record <$> rows) w
  = Returns tt
      (World (conn w) (stdin w)
         (stdout w ++ (progress_line float_str <$> rows)) (clock w)).
Proof.
  revert w. induction rows as [|r rows IH]; intros w.
  - cbn. rewrite app_nil_r. by destruct w.
  - rewrite fmap_cons. cbn [SkillTracker.print_progress].
    unfold SkillTracker.getitem.
    rewrite progress_record_Skill, progress_record_Target,
      progress_record_Total, progress_record_Progress.
    unfold mbind, M_bind, mret, M_ret, print. rewrite IH.
    cbn [conn stdin stdout clock fmap list_fmap]. unfold progress_line.
    cbn [SkillTracker.str]. by rewrite <-app_assoc.
Qed.

(** X15. Menu option 3, on a database SQLite can hold on which no
    running sum of the query (by ascending duration) leaves the 64-bit
    range, prints after the menu exactly one line per skill, in
    rowid order, made of the name, the target, the practiced hours and
    the progress of the skill; it leaves the connection as it was,
    every record has the four keys the line reads, and the loop goes
    on. *)
Theorem X15_option_3_prints_one_line_per_skill float_str int_non_ascii w db t1 rest :
  stdin w = (t1, "3") :: rest →
  conn w = Some db → valid_database db → sums_fit db →
  SkillTracker.turn float_str int_non_ascii w
  = Returns true
      (World (Some db) rest
         (stdout w ++ menu_lines
            ++ (progress_line float_str ∘ progress_row_of db
                  <$> scan (skills_table db)))
         t1)
  ∧ length (progress_line float_str ∘ progress_row_of db
              <$> scan (skills_table db))
    = size (skills_table db).
Proof.
  intros Hin Hc Hv Hfit. split; [|by rewrite length_fmap, length_scan].
  pose proof (select_progress_fit db Hfit) as Hrows.
  destruct w as [c i o k]. cbn [stdin conn stdout] in *. subst c i.
  unfold SkillTracker.turn, SkillTracker.print_menu, SkillTracker.option_3,
    input, print, mbind, M_bind, mret, M_ret.
  cbn -[SkillDatabase.get_progress SkillTracker.print_progress].
  do 2 rewrite decide_False by done. rewrite decide_True by done.
  rewrite (get_progress_rows (World (Some db) _ _ _) db _ eq_refl Hv Hrows).
  rewrite print_progress_records. cbn [conn stdin stdout clock].
  rewrite <-list_fmap_compose. by rewrite <-!app_assoc.
Qed.

Lemma X15_option_3_prints_one_line_per_skill_witness :
  valid_database sample_database ∧ sums_fit sample_database
  ∧ SkillTracker.turn (λ _, "f") (λ _, None)
      (World (Some sample_database) (typed ["3"; "5"]) [] noon)
    = Returns true
        (World (Some sample_database) (typed ["5"])
           ([] ++ menu_lines
               ++ (progress_line (λ _, "f") ∘ progress_row_of sample_database
                     <$> scan (skills_table sample_database)))
           noon).
Proof.
  assert (Hv : valid_database sample_database)
    by (apply (bool_decide_unpack _); vm_compute; exact I).
  assert (Hf : sums_fit sample_database)
    by (apply (bool_decide_unpack _); vm_compute; exact I).
  split; [exact Hv|]. split; [exact Hf|].
  exact (proj1 (X15_option_3_prints_one_line_per_skill (λ _, "f") (λ _, None)
           (World (Some sample_database) (typed ["3"; "5"]) [] noon)
           sample_database noon (typed ["5"]) eq_refl eq_refl Hv Hf)).
Defined.

(** The two lines printed for the sample database, with "f" in place
    of every float. *)
Example option_3_sample :
  progress_line (λ _, "f") ∘ progress_row_of sample_database
    <$> scan (skills_table sample_database)
  = ["Skill: Piano, Target: 10 hrs, Practiced: f hrs, Progress: f%";
     "Skill: Go, Target: 0 hrs, Practiced: f hrs, Progress: 0%"].
Proof. vm_compute. reflexivity. Qed.

(** ** How [run] ends *)

Lemma reads_ret {A} (a : A) : reads (mret a).
Proof. intros w. done. Qed.

Lemma reads_raise {A} e : reads (@raise A e).
Proof. intros w. done. Qed.

Lemma reads_bind {A B} (m : M A) (k : A → M B) :
  reads m → (∀ a, reads (k a)) → reads (m ≫= k).
Proof.
  intros Hm Hk w. specialize (Hm w). unfold mbind, M_bind.
  destruct (m w) as [a w1|e w1]; [|done].
  etrans; [apply Hk|exact Hm].
Qed.

Lemma reads_lift {A} (r : result A) : reads (lift r).
Proof. intros w. unfold lift. by destruct r. Qed.

Lemma reads_print s : reads (print s).
Proof. intros w. done. Qed.

Lemma reads_input p : reads (input p).
Proof.
  intros w. unfold input. destruct (stdin w) as [|[t l] rest]; cbn; [done|].
  by apply suffix_cons_r.
Qed.

Lemma reads_set_conn db : reads (set_conn db).
Proof. intros w. done. Qed.

Lemma reads_int int_non_ascii s : reads (int int_non_ascii s).
Proof. intros w. unfold int. by destruct (py_int int_non_ascii s). Qed.

Lemma reads_datetime_now : reads datetime_now.
Proof. intros w. done. Qed.

Lemma reads_conn_cursor : reads SkillDatabase.conn_cursor.
Proof. intros w. unfold SkillDatabase.conn_cursor. by destruct (conn w). Qed.

Lemma reads_try_except {A} (body : M A) clause :
  reads body → (∀ e h, clause e = Some h → reads h) →
  reads (try_except body clause).
Proof.
  intros Hb Hc w. specialize (Hb w). unfold try_except.
  destruct (body w) as [a w1|e w1]; [done|].
  destruct (clause e) as [h|] eqn:Hh; [|done].
  etrans; [apply (Hc e h Hh)|exact Hb].
Qed.

Lemma reads_except_sqlite3_Error {A} (handler : string → M A) e h :
  (∀ msg, reads (handler msg)) →
  except_sqlite3_Error handler e = Some h → reads h.
Proof. intros Hh. destruct e; simpl; try done. by intros [= <-]. Qed.

Lemma reads_except_ValueError {A} (handler : M A) e h :
  reads handler → except_ValueError handler e = Some h → reads h.
Proof. intros Hh. destruct e; simpl; try done. by intros [= <-]. Qed.

Create HintDb reads.
#[local] Hint Resolve reads_ret reads_raise reads_lift reads_print reads_input
  reads_set_conn reads_int reads_datetime_now reads_conn_cursor : reads.

Ltac reads_step :=
  match goal with
  | |- reads (_ ≫= _) => apply reads_bind; [|intros ?]
  | |- reads (try_except _ (except_sqlite3_Error _)) =>
      apply reads_try_except;
      [|intros ? ?; apply reads_except_sqlite3_Error; intros ?]
  | |- reads (try_except _ (except_ValueError _)) =>
      apply reads_try_except;
      [|intros ? ?; apply reads_except_ValueError]
  | |- reads (if ?b then _ else _) => destruct b
  | |- reads (match ?x with _ => _ end) => destruct x
  | |- _ => solve [auto with reads]
  end.

Lemma reads_print_progress float_str progress :
  reads (SkillTracker.print_progress float_str progress).
Proof.
  induction progress as [|p rest IH]; cbn [SkillTracker.print_progress];
    [auto with reads|].
  unfold SkillTracker.getitem. repeat reads_step.
Qed.

Lemma reads_options float_str int_non_ascii :
  reads (SkillTracker.option_1 int_non_ascii)
  ∧ reads (SkillTracker.option_2 int_non_ascii)
  ∧ reads (SkillTracker.option_3 float_str)
  ∧ reads (SkillTracker.option_4 int_non_ascii).
Proof.
  pose proof (reads_print_progress float_str).
  unfold SkillTracker.option_1, SkillTracker.option_2, SkillTracker.option_3,
    SkillTracker.option_4, SkillDatabase.add_skill, SkillDatabase.log_session,
    SkillDatabase.delete_skill, SkillDatabase.get_progress,
    SkillDatabase.execute, SkillDatabase.execute_fetchall, SkillDatabase.commit.
  repeat split; repeat reads_step; auto.
Qed.

(** A turn that returns has read its choice from the front of the
    input. When it says [break] the choice was "5" and nothing else
    was read; otherwise it has left a suffix of the rest. *)
Lemma turn_reads_choice float_str int_non_ascii w b w' :
  SkillTracker.turn float_str int_non_ascii w = Returns b w' →
  ∃ t choice rest,
    stdin w = (t, choice) :: rest
    ∧ if b then stdin w' `suffix_of` rest
      else choice = "5" ∧ stdin w' = rest.
Proof.
  destruct (reads_options float_str int_non_ascii) as (H1 & H2 & H3 & H4).
  unfold SkillTracker.turn.
  assert (Hmenu : ∀ w, SkillTracker.print_menu w
            = Returns tt (World (conn w) (stdin w) (stdout w ++ removelast menu_lines)
                            (clock w))).
  { intros [c i o k]. unfold SkillTracker.print_menu, print, mbind, M_bind.
    cbn. by rewrite <-!app_assoc. }
  unfold mbind at 1, M_bind at 1. rewrite Hmenu.
  unfold mbind at 1, M_bind at 1, input at 1. cbn [stdin conn stdout clock].
  destruct (stdin w) as [|[t choice] rest] eqn:Hin; [done|].
  intros Hturn. exists t, choice, rest. split; [done|].
  set (w2 := World (conn w) rest
               ((stdout w ++ removelast menu_lines) ++ ["Choose an option: "]) t)
    in *.
  assert (Hdispatch : ∀ m : M bool, reads m → m w2 = Returns b w' →
            stdin w' `suffix_of` rest).
  { intros m Hm Hr. specialize (Hm w2). by rewrite Hr in Hm. }
  assert (Hsuf : stdin w' `suffix_of` rest).
  { repeat case_decide; subst;
      (eapply Hdispatch; [|exact Hturn]); repeat reads_step. }
  destruct b; [exact Hsuf|].
  unfold mbind, M_bind, mret, M_ret, print in Hturn.
  repeat case_decide; subst.
  - by destruct (SkillTracker.option_1 int_non_ascii w2).
  - by destruct (SkillTracker.option_2 int_non_ascii w2).
  - by destruct (SkillTracker.option_3 float_str w2).
  - by destruct (SkillTracker.option_4 int_non_ascii w2).
  - injection Hturn as <-. done.
  - done.
Qed.

(** The loop returns only by reading the choice "5", and leaves
    unread exactly the lines that follow it. *)
Lemma loop_returns_after_5 float_str int_non_ascii fuel w w' :
  SkillTracker.loop float_str int_non_ascii fuel w = Some (Returns tt w') →
  ∃ before t, stdin w = before ++ (t, "5") :: stdin w'.
Proof.
  revert w. induction fuel as [|fuel IH]; intros w; [done|].
  cbn [SkillTracker.loop].
  destruct (SkillTracker.turn float_str int_non_ascii w) as [b w1|e w1]
    eqn:Hturn; [|done].
  destruct (turn_reads_choice float_str int_non_ascii w b w1 Hturn)
    as (t & choice & rest & Hin & Hb).
  destruct b.
  - intros (before & t' & Hs)%IH. destruct Hb as [pre ->].
    exists ((t, choice) :: pre ++ before), t'.
    rewrite Hin, Hs. cbn. by rewrite <-app_assoc.
  - intros [= <-]. destruct Hb as [-> ->]. by exists [], t.
Qed.

(** X16. [run] always ends: it returns or it raises. It returns only
    by reading a line "5", and the lines it leaves unread are exactly
    those typed after that line; when no line is "5", [run] ends with
    an exception, which is [EOFError] when nothing is typed at all. *)
Theorem X16_run_returns_only_after_5 float_str int_non_ascii w :
  (∃ o, SkillTracker.run float_str int_non_ascii w = Some o)
  ∧ (∀ w', SkillTracker.run float_str int_non_ascii w = Some (Returns tt w') →
       ∃ before t, stdin w = before ++ (t, "5") :: stdin w')
  ∧ ((∀ t, (t, "5") ∉ stdin w) →
     ∃ e w', SkillTracker.run float_str int_non_ascii w = Some (Raises e w'))
  ∧ (stdin w = [] →
     ∃ w', SkillTracker.run float_str int_non_ascii w
           = Some (Raises EOFError w')).
Proof.
  split; [apply run_ends|]. split; [|split].
  - intros w'. apply loop_returns_after_5.
  - intros Hno.
    destruct (run_ends float_str int_non_ascii w) as [[[] w'|e w'] Ho]; [|eauto].
    destruct (loop_returns_after_5 _ _ _ _ _ Ho) as (before & t & H5).
    destruct (Hno t). rewrite H5. apply elem_of_app. right. left.
  - intros Hin. destruct w as [c i o k]. cbn in Hin. subst i.
    eexists. unfold SkillTracker.run. cbn. reflexivity.
Qed.

Lemma X16_run_returns_only_after_5_witness :
  SkillTracker.run (λ _, "") (λ _, None)
    (World (Some sample_database) (typed ["9"; "5"; "1"; "Chess"]) [] noon)
  = Some (Returns tt
            (World (Some sample_database) (typed ["1"; "Chess"])
               (menu_lines ++ ["Invalid choice."] ++ menu_lines) noon))
  ∧ ∃ before t,
      stdin (World (Some sample_database) (typed ["9"; "5"; "1"; "Chess"])
               [] noon)
      = before ++ (t, "5")
          :: stdin (World (Some sample_database) (typed ["1"; "Chess"])
                      (menu_lines ++ ["Invalid choice."] ++ menu_lines) noon).
Proof.
  assert (H : SkillTracker.run (λ _, "") (λ _, None)
    (World (Some sample_database) (typed ["9"; "5"; "1"; "Chess"]) [] noon)
  = Some (Returns tt
            (World (Some sample_database) (typed ["1"; "Chess"])
               (menu_lines ++ ["Invalid choice."] ++ menu_lines) noon)))
    by (vm_compute; reflexivity).
  split; [exact H|].
  exact (proj1 (proj2 (X16_run_returns_only_after_5 (λ _, "") (λ _, None)
           (World (Some sample_database) (typed ["9"; "5"; "1"; "Chess"])
              [] noon))) _ H).
Defined.

(** ** What the operations raise to their caller *)

(** X17. A successful construction sets the connection and prints
    nothing; when the connection is made and the creation of the
    tables fails, the message is printed and the connection stays
    set. Without a connection, each of [add_skill], [log_session],
    [delete_skill] and [get_progress] raises [AttributeError] to its
    caller. With one, the three writing operations raise only
    [OverflowError], and only for an integer outside 64 bits, and
    [get_progress], on a database SQLite can hold, raises only the
    integer overflow of its sum. An operation that raises leaves the
    database and the console as they were. *)
Theorem X17_what_the_operations_raise w :
  (∀ db, ∃ w1, SkillDatabase.init (Ok db) (Ok tt) w = Returns tt w1
               ∧ conn w1 = Some db ∧ stdout w1 = stdout w)
  ∧ (∀ db msg,
       SkillDatabase.init (Ok db) (Raise (sqlite3_Error msg)) w
       = Returns tt (printed ("Database connection error: " +:+ msg)
                       (stored db w)))
  ∧ (conn w = None →
     ∀ skill session skill_id,
       let e := AttributeError "'SkillDatabase' object has no attribute 'conn'" in
       SkillDatabase.add_skill skill w = Raises e w
       ∧ SkillDatabase.log_session session w = Raises e w
       ∧ SkillDatabase.delete_skill skill_id w = Raises e w
       ∧ SkillDatabase.get_progress w = Raises e w)
  ∧ (∀ db, conn w = Some db →
     (∀ skill e w', SkillDatabase.add_skill skill w = Raises e w' →
        w' = w ∧ ¬ in_int64 (Skill.target_hours skill)
        ∧ ∃ msg, e = OverflowError msg)
     ∧ (∀ session e w', SkillDatabase.log_session session w = Raises e w' →
        w' = w
        ∧ ¬ (in_int64 (PracticeSession.skill_id session)
             ∧ in_int64 (PracticeSession.duration_minutes session))
        ∧ ∃ msg, e = OverflowError msg)
     ∧ (∀ skill_id e w', SkillDatabase.delete_skill skill_id w = Raises e w' →
        w' = w ∧ ¬ in_int64 skill_id ∧ ∃ msg, e = OverflowError msg)
     ∧ (valid_database db →
        ∀ e w', SkillDatabase.get_progress w = Raises e w' →
          w' = w ∧ e = sqlite3_Error "integer overflow")).
Proof.
  split; [|split; [|split]].
  - intros db. eexists. split; [reflexivity|]. done.
  - intros db msg. reflexivity.
  - intros Hc skill session skill_id e. subst e.
    unfold SkillDatabase.add_skill, SkillDatabase.log_session,
      SkillDatabase.delete_skill, SkillDatabase.get_progress,
      SkillDatabase.execute, SkillDatabase.execute_fetchall, try_except,
      mbind, M_bind, SkillDatabase.conn_cursor.
    by rewrite Hc.
  - intros db Hc. split; [|split; [|split]].
    + intros skill e w'. rewrite (add_skill_unfold w db skill Hc).
      destruct (insert_skill_cases (Skill.name skill) (Skill.category skill)
                  (Skill.target_hours skill) db)
        as [[Ht [msg Hm]]|[(_ & _ & Hm)|(_ & v & _ & Hm)]]; rewrite Hm; try done.
      intros [= <- <-]. eauto.
    + intros session e w'. rewrite (log_session_unfold w db session Hc).
      destruct (insert_session_cases (PracticeSession.skill_id session)
                  (PracticeSession.duration_minutes session)
                  (PracticeSession.notes session) (PracticeSession.date session) db)
        as [[Ht [msg Hm]]|[(_ & _ & _ & Hm)|(_ & _ & v & _ & Hm)]];
        rewrite Hm; try done.
      intros [= <- <-]. eauto.
    + intros skill_id e w'. destruct (decide (in_int64 skill_id)) as [Hk|Hk].
      * by rewrite (delete_skill_in_range w db skill_id Hc Hk).
      * destruct (delete_skill_out_of_range w db skill_id Hc Hk) as [msg ->].
        intros [= <- <-]. eauto.
    + intros Hv e w'. destruct (get_progress_cases w db Hc Hv) as [->| ->];
        [done|]. by intros [= <- <-].
Qed.

Lemma X17_what_the_operations_raise_witness :
  conn (World None [] [] noon) = None
  ∧ SkillDatabase.delete_skill 1 (World None [] [] noon)
    = Raises (AttributeError "'SkillDatabase' object has no attribute 'conn'")
        (World None [] [] noon).
Proof.
  split; [reflexivity|].
  exact (proj1 (proj2 (proj2
           (proj1 (proj2 (proj2
              (X17_what_the_operations_raise (World None [] [] noon))))
              eq_refl (Skill.new None "" "" 0)
              (PracticeSession.new None 0 0 "" "") 1)))).
Defined.

(** X18. With a connection whose sessions table can still hand out a
    rowid, menu option 2 with a skill id and a duration that [int]
    reads as integers in the 64-bit range and a date line that is not
    empty stores the session under a new rowid with the notes and the
    date exactly as they were typed: the date is not checked against
    any format, the clock is not consulted, the skill id need not be
    the rowid of a skill and the duration may be zero or negative. *)
Theorem X18_option_2_stores_date_as_typed float_str int_non_ascii w db
    t1 t2 t3 t4 t5
    skill_id_line duration_line skill_id duration notes date rest :
  stdin w = (t1, "2") :: (t2, skill_id_line) :: (t3, duration_line)
            :: (t4, notes) :: (t5, date) :: rest →
  conn w = Some db →
  py_int int_non_ascii skill_id_line = Some skill_id →
  py_int int_non_ascii duration_line = Some duration →
  in_int64 skill_id → in_int64 duration →
  has_room (sessions_table db) (sessions_seq db) →
  date ≠ "" →
  ∃ v,
    SkillTracker.turn float_str int_non_ascii w
    = Returns true
        (World (Some (with_session v skill_id duration notes date db)) rest
           (stdout w ++ menu_lines
              ++ ["Skill ID: "; "Duration (in minutes): "; "Notes: ";
                  "Date (YYYY-MM-DD): "])
           t5)
    ∧ sessions_table db !! v = None
    ∧ sessions_table (with_session v skill_id duration notes date db) !! v
      = Some (sessions.Row skill_id duration notes date)
    ∧ skills_table (with_session v skill_id duration notes date db)
      = skills_table db.
Proof.
  intros Hin Hc Hsid Hdur Hs64%in_int64_true Hd64%in_int64_true Hroom Hdate.
  destruct (new_rowid_room _ _ Hroom) as [v Hnew]. exists v.
  destruct (new_rowid_above _ _ _ Hnew) as (Hfresh & _).
  split; [|split; [done|split; [apply lookup_insert_eq|done]]].
  destruct w as [c i o k]. cbn [stdin conn stdout] in *. subst c i.
  destruct date as [|a date]; [done|].
  unfold SkillTracker.turn, SkillTracker.print_menu, SkillTracker.option_2,
    SkillDatabase.log_session, SkillDatabase.execute, SkillDatabase.commit,
    SkillDatabase.conn_cursor, set_conn, lift, datetime_now,
    try_except, input, print, int, raise, mbind, M_bind, mret, M_ret.
  cbn -[py_int new_rowid in_int64 strftime_Y_m_d insert_session].
  rewrite decide_False, decide_True by done.
  cbn -[py_int new_rowid in_int64 strftime_Y_m_d insert_session].
  rewrite Hsid. cbn -[py_int new_rowid in_int64 strftime_Y_m_d insert_session].
  rewrite Hdur. cbn -[py_int new_rowid in_int64 strftime_Y_m_d insert_session].
  unfold insert_session, bind_int. rewrite Hs64, Hd64.
  cbn -[new_rowid strftime_Y_m_d]. rewrite Hnew.
  cbn -[strftime_Y_m_d].
  unfold with_session. by rewrite <-!app_assoc.
Qed.

Lemma X18_option_2_stores_date_as_typed_witness :
  has_room (sessions_table sample_database) (sessions_seq sample_database)
  ∧ ∃ v,
      SkillTracker.turn (λ _, "") (λ _, None)
        (World (Some sample_database)
           (typed ["2"; "77"; "-30"; ""; "yesterday"; "5"]) [] noon)
      = Returns true
          (World (Some (with_session v 77 (-30) "" "yesterday" sample_database))
             (typed ["5"])
             ([] ++ menu_lines
                 ++ ["Skill ID: "; "Duration (in minutes): "; "Notes: ";
                     "Date (YYYY-MM-DD): "])
             noon).
Proof.
  assert (Hr : has_room (sessions_table sample_database)
                 (sessions_seq sample_database)).
  { split; [vm_compute; discriminate|].
    apply (bool_decide_unpack _). vm_compute. exact I. }
  split; [exact Hr|].
  destruct (X18_option_2_stores_date_as_typed (λ _, "") (λ _, None)
              (World (Some sample_database)
                 (typed ["2"; "77"; "-30"; ""; "yesterday"; "5"]) [] noon)
              sample_database noon noon noon noon noon "77" "-30" 77 (-30)
              "" "yesterday" (typed ["5"]) eq_refl eq_refl eq_refl eq_refl I I Hr
              ltac:(discriminate)) as (v & Hturn & _).
  exists v. exact Hturn.
Defined.
